(** * domocktest/server: the payment gateway facade (src/server.js, src/config.js)

    A shallow embedding of the five Express handlers of [src/server.js] and
    of [src/config.js], together with the part of the JavaScript run time
    they rely on: JSON values, the coercions [ToBoolean], [ToPrimitive],
    [ToString] and [ToNumber], IEEE 754 binary64 numbers, [JSON.parse] and
    [JSON.stringify], [express.json()] and Node's
    [crypto.createHmac('sha256', key)].

    - A handler is a computation in a monad of effects and thrown values:
      it lists what is logged and what the provider is called with, and ends
      with the answer sent or with the value thrown.  An awaited call of the
      provider's SDK returns a value or throws the rejection.
    - Strings are [String.string]; one [ascii] stands for one UTF-16 code
      unit, so the model covers the strings whose code units are below 256.
      The one literal of the source outside that range, the rupee sign in the
      message about the range of the amount, keeps the bytes of the source.
      A JSON text with an escape of a code unit above 255 is beyond the
      model: [JSON.parse] says so, and neither reads nor refuses it.
    - A POST reaches a handler through the body parser and with the headers
      as Node builds them: names in lower case, repeated headers joined.
    - The CORS policy (lines 10-29) is the function that decides on an
      origin; the security headers (lines 36-41) act on the headers of the
      answer; the start of the server (lines 285-291) is what it logs. *)

From Stdlib Require Import ZArith NArith List String Ascii Bool Lia QArith.
From Stdlib Require Import SpecFloat DecimalString.
Import ListNotations.
Local Open Scope string_scope.
Local Open Scope Z_scope.
Set Warnings "-register-all".

(* ===================================================================== *)
(** ** Numbers: IEEE 754 binary64, as ECMAScript's Number type *)
(* ===================================================================== *)

Module Num.

Definition number := spec_float.

Definition prec : Z := 53.
Definition emax : Z := 1024.

Definition nan : number := S754_nan.
Definition infinity (neg : bool) : number := S754_infinity neg.

(** The Number value of an integer (round to nearest, ties to even). *)
Definition of_Z (z : Z) : number := binary_normalize prec emax z 0 false.

(** The Number value of the positive rational [p / q]. *)
Definition of_ratio (neg : bool) (p q : positive) : number :=
  let '(m, e, l) := SFdiv_core_binary prec emax (Zpos p) 0 (Zpos q) 0 in
  binary_round_aux prec emax neg m e l.

(** Decimal digits of a natural number, most significant first. *)
Definition digits (n : N) : string := NilZero.string_of_uint (N.to_uint n).
Definition ndigits (n : N) : Z := Z.of_nat (String.length (digits n)).

(** The Number value of [m * 10^e10]; beyond 10^400 and below 10^-400 the
    result is known without computing the power. *)
Definition of_decimal (neg : bool) (m : N) (e10 : Z) : number :=
  match m with
  | N0 => S754_zero neg
  | Npos p =>
      if 400 <? e10 + ndigits m then S754_infinity neg
      else if e10 + ndigits m <? -400 then S754_zero neg
      else if 0 <=? e10
           then (if neg then SFopp else fun x => x)
                  (binary_normalize prec emax (Zpos p * 10 ^ e10) 0 false)
           else of_ratio neg p (Z.to_pos (10 ^ (- e10)))
  end.

(** *** Comparison, as IsLessThan on Numbers: NaN compares false. *)
Definition ltb (x y : number) : bool := SFltb x y.
Definition leb (x y : number) : bool := SFleb x y.
Definition gtb (x y : number) : bool := SFltb y x.
Definition eqb (x y : number) : bool := SFeqb x y.

Definition is_zero (x : number) : bool :=
  match x with S754_zero _ => true | _ => false end.
Definition is_nan (x : number) : bool :=
  match x with S754_nan => true | _ => false end.

(** Structural equality of two representations. *)
Definition same (x y : number) : bool :=
  match x, y with
  | S754_zero a, S754_zero b => Bool.eqb a b
  | S754_infinity a, S754_infinity b => Bool.eqb a b
  | S754_nan, S754_nan => true
  | S754_finite a m e, S754_finite b m' e' =>
      Bool.eqb a b && Pos.eqb m m' && Z.eqb e e'
  | _, _ => false
  end.

(** A representation is a binary64 when its mantissa and exponent are the
    canonical ones of the format. *)
Definition valid (x : number) : bool := valid_binary prec emax x.

(** The real number a zero or a finite Number stands for. *)
Definition real (x : number) : Q :=
  match x with
  | S754_finite s m e =>
      let n := if s then Zneg m else Zpos m in
      if 0 <=? e then inject_Z (n * 2 ^ e) else n # Z.to_pos (2 ^ (- e))
  | _ => 0%Q
  end.

(** [x < z], [z < x] and [x <= z] for an integer [z], read on the extended
    real line: the infinities compare as such, NaN compares with nothing. *)
Definition below (x : number) (z : Z) : Prop :=
  match x with
  | S754_nan => False
  | S754_infinity s => s = true
  | _ => (real x < inject_Z z)%Q
  end.

Definition above (x : number) (z : Z) : Prop :=
  match x with
  | S754_nan => False
  | S754_infinity s => s = false
  | _ => (inject_Z z < real x)%Q
  end.

Definition at_most (x : number) (z : Z) : Prop :=
  match x with
  | S754_nan => False
  | S754_infinity s => s = true
  | _ => (real x <= inject_Z z)%Q
  end.

(** *** Number::toString (radix 10), ECMA-262 6.1.6.1.20 *)

(** [n0] with [10^(n0-1) <= p/q < 10^n0]. *)
Definition decimal_exponent (p q : positive) : Z :=
  if (Zpos q <=? Zpos p)
  then ndigits (Z.to_N (Zpos p / Zpos q))
  else 1 - ndigits (Z.to_N ((Zpos q - 1) / Zpos p)).

(** [s * 10^t] as a Number. *)
Definition of_scaled (s : Z) (t : Z) : number := of_decimal false (Z.to_N s) t.

(** The candidates with [k] digits for the positive finite [x = p/q]:
    the two [k]-digit decimals around [x], and [10^n0] when [k = 1]. *)
Definition candidates (x : number) (p q : positive) (n0 k : Z) : list (Z * Z) :=
  let t := n0 - k in
  let lo := if 0 <=? t then Zpos p / (Zpos q * 10 ^ t)
            else (Zpos p * 10 ^ (- t)) / Zpos q in
  let ok s := (10 ^ (k - 1) <=? s) && (s <? 10 ^ k) && same (of_scaled s t) x in
  let here := filter (fun sn => ok (fst sn)) [(lo, n0); (lo + 1, n0)] in
  if (k =? 1) && same (of_scaled 1 n0) x then here ++ [(1, n0 + 1)] else here.

(** Distance of [s * 10^(n-k)] to [p/q], scaled by the common denominator. *)
Definition distance (p q : positive) (k : Z) (sn : Z * Z) : Z :=
  let '(s, n) := sn in
  let t := n - k in
  if 0 <=? t then Z.abs (s * 10 ^ t * Zpos q - Zpos p)
  else Z.abs (s * Zpos q - Zpos p * 10 ^ (- t)).

(** The candidate closest to [p/q]; of two at the same distance, the one with
    even digits. *)
Fixpoint closest (p q : positive) (k : Z) (best : Z * Z) (l : list (Z * Z)) : Z * Z :=
  match l with
  | [] => best
  | c :: l' =>
      let dc := distance p q k c in
      let db := distance p q k best in
      closest p q k
        (if (dc <? db) || ((dc =? db) && Z.even (fst c)) then c else best) l'
  end.

(** The shortest digits [s] (with [k] of them) and the exponent [n]. *)
Fixpoint shortest (x : number) (p q : positive) (n0 : Z) (ks : list Z) : Z * Z * Z :=
  match ks with
  | [] => (1, 0, 1)
  | k :: ks' =>
      match candidates x p q n0 k with
      | [] => shortest x p q n0 ks'
      | c :: cs => let '(s, n) := closest p q k c cs in (s, n, k)
      end
  end.

Definition zeros (n : Z) : string := concat "" (repeat "0" (Z.to_nat n)).

Definition format (s n k : Z) : string :=
  let ds := digits (Z.to_N s) in
  if (k <=? n) && (n <=? 21) then ds ++ zeros (n - k)
  else if (0 <? n) && (n <=? 21)
  then substring 0 (Z.to_nat n) ds ++ "." ++ substring (Z.to_nat n) (Z.to_nat (k - n)) ds
  else if (-6 <? n) && (n <=? 0) then "0." ++ zeros (- n) ++ ds
  else
    let e := n - 1 in
    let es := (if e <? 0 then "-" else "+") ++ digits (Z.to_N (Z.abs e)) in
    if k =? 1 then ds ++ "e" ++ es
    else substring 0 1 ds ++ "." ++ substring 1 (Z.to_nat (k - 1)) ds ++ "e" ++ es.

Definition to_string (x : number) : string :=
  match x with
  | S754_nan => "NaN"
  | S754_zero _ => "0"
  | S754_infinity neg => if neg then "-Infinity" else "Infinity"
  | S754_finite neg m e =>
      let p := if 0 <=? e then Z.to_pos (Zpos m * 2 ^ e) else m in
      let q := if 0 <=? e then 1%positive else Z.to_pos (2 ^ (- e)) in
      let n0 := decimal_exponent p q in
      let '(s, n, k) :=
        shortest (S754_finite false m e) p q n0 (map Z.of_nat (seq 1 17)) in
      (if neg then "-" else "") ++ format s n k
  end.

(** *** StringToNumber, ECMA-262 7.1.4.1.1 *)

Definition code (c : ascii) : N := N_of_ascii c.

Definition is_space (c : ascii) : bool :=
  let n := code c in
  ((9 <=? n) && (n <=? 13) || (n =? 32) || (n =? 160))%N.

Definition digit_of (radix : N) (c : ascii) : option N :=
  let n := code c in
  let d := (if (48 <=? n) && (n <=? 57) then Some (n - 48)
            else if (97 <=? n) && (n <=? 102) then Some (n - 87)
            else if (65 <=? n) && (n <=? 70) then Some (n - 55)
            else None)%N in
  match d with
  | Some v => if (v <? radix)%N then Some v else None
  | None => None
  end.

(** The longest prefix of digits: its value, its length, and the rest. *)
Fixpoint scan_digits (radix : N) (s : string) (acc : N) (count : Z) : N * Z * string :=
  match s with
  | String c s' =>
      match digit_of radix c with
      | Some d => scan_digits radix s' (acc * radix + d)%N (count + 1)
      | None => (acc, count, s)
      end
  | EmptyString => (acc, count, s)
  end.

Definition scan_sign (s : string) : bool * string :=
  match s with
  | String "-" s' => (true, s')
  | String "+" s' => (false, s')
  | _ => (false, s)
  end.

(** An optional exponent part; [None] when one starts and is malformed. *)
Definition scan_exponent (s : string) : option (Z * string) :=
  match s with
  | String c s' =>
      if (code c =? 101)%N || (code c =? 69)%N then
        let '(neg, s'') := scan_sign s' in
        let '(v, count, rest) := scan_digits 10 s'' 0%N 0 in
        if count =? 0 then None
        else Some (if neg then - Z.of_N v else Z.of_N v, rest)
      else Some (0, s)
  | EmptyString => Some (0, s)
  end.

(** StrUnsignedDecimalLiteral without [Infinity]: mantissa, decimal
    exponent and the rest of the input. *)
Definition scan_decimal (s : string) : option (N * Z * string) :=
  let '(ip, ic, s1) := scan_digits 10 s 0%N 0 in
  let '(m, fc, dot, s2) :=
    match s1 with
    | String "." s1' =>
        let '(m, fc, s2) := scan_digits 10 s1' ip 0 in (m, fc, true, s2)
    | _ => (ip, 0, false, s1)
    end in
  if (0 <? ic) || (0 <? fc) then
    match scan_exponent s2 with
    | Some (e, rest) => Some (m, e - fc, rest)
    | None => None
    end
  else None.

Fixpoint trim_left (s : string) : string :=
  match s with
  | String c s' => if is_space c then trim_left s' else s
  | EmptyString => s
  end.

Fixpoint rev_string (s acc : string) : string :=
  match s with
  | String c s' => rev_string s' (String c acc)
  | EmptyString => acc
  end.

Definition trim (s : string) : string :=
  rev_string (trim_left (rev_string (trim_left s) "")) "".

Definition of_radix (radix : N) (s : string) : number :=
  match scan_digits radix s 0%N 0 with
  | (v, count, EmptyString) => if 0 <? count then of_Z (Z.of_N v) else nan
  | _ => nan
  end.

Definition of_string (str : string) : number :=
  match trim str with
  | EmptyString => S754_zero false
  | String "0" (String "x" s) | String "0" (String "X" s) => of_radix 16 s
  | String "0" (String "o" s) | String "0" (String "O" s) => of_radix 8 s
  | String "0" (String "b" s) | String "0" (String "B" s) => of_radix 2 s
  | s =>
      let '(neg, s') := scan_sign s in
      if String.eqb s' "Infinity" then infinity neg
      else match scan_decimal s' with
           | Some (m, e, EmptyString) => of_decimal neg m e
           | _ => nan
           end
  end.

End Num.

(* ===================================================================== *)
(** ** Values and the coercions of the language *)
(* ===================================================================== *)

(** The values a handler meets: what [JSON.parse] builds, [undefined], and
    the [Error] objects the run time throws.  The properties of an object
    are listed in the object's own enumeration order. *)
Inductive value : Type :=
| VUndefined
| VNull
| VBool (b : bool)
| VNum (n : Num.number)
| VStr (s : string)
| VArr (items : list value)
| VObj (props : list (string * value))
| VError (name message : string).

(** How an evaluation ends: with a value, or by throwing one. *)
Inductive completion (A : Type) : Type :=
| Normal (a : A)
| Throw (e : value).
Arguments Normal {A} a.
Arguments Throw {A} e.

Definition TypeError (message : string) : value := VError "TypeError" message.

(** What reading a text gives: a value; a refusal; or nothing, for a text
    that is beyond this model.  The strings of the model hold code units
    below 256, so a text with an escape of a higher code unit has no value
    here, whatever the run time makes of it: nothing is said of such a text. *)
Inductive reading (A : Type) : Type :=
| Accepted (a : A)
| Refused
| Beyond.
Arguments Accepted {A} a.
Arguments Refused {A}.
Arguments Beyond {A}.

Module Str.

(** [s.slice(start)] for a string [s] of code units. *)
Definition slice (s : string) (start : Z) : string :=
  let len := Z.of_nat (String.length s) in
  let from := if start <? 0 then Z.max (len + start) 0 else Z.min start len in
  substring (Z.to_nat from) (Z.to_nat (len - from)) s.

(** Comparison of two strings by code units, as IsLessThan does. *)
Fixpoint ltb (a b : string) : bool :=
  match a, b with
  | _, EmptyString => false
  | EmptyString, String _ _ => true
  | String x a', String y b' =>
      if (N_of_ascii x <? N_of_ascii y)%N then true
      else if (N_of_ascii y <? N_of_ascii x)%N then false
      else ltb a' b'
  end.

End Str.

Module Js.

(** ToBoolean. *)
Definition truthy (v : value) : bool :=
  match v with
  | VUndefined | VNull => false
  | VBool b => b
  | VNum n => negb (Num.is_zero n || Num.is_nan n)
  | VStr s => negb (String.eqb s "")
  | VArr _ | VObj _ | VError _ _ => true
  end.

Fixpoint lookup (k : string) (props : list (string * value)) : option value :=
  match props with
  | [] => None
  | (k', v) :: rest => if String.eqb k' k then Some v else lookup k rest
  end.

Definition has_own (k : string) (props : list (string * value)) : bool :=
  match lookup k props with Some _ => true | None => false end.

Definition is_nullish (v : value) : bool :=
  match v with VUndefined | VNull => true | _ => false end.

(** [v.k], for a property name [k] that no prototype defines and that is
    neither an index nor [length] (every name the server reads is such a
    name): the own property of an object, [undefined] on any other value
    that has properties, a TypeError on [undefined] and [null]. *)
Definition get (v : value) (k : string) : completion value :=
  match v with
  | VUndefined =>
      Throw (TypeError ("Cannot read properties of undefined (reading '" ++ k ++ "')"))
  | VNull =>
      Throw (TypeError ("Cannot read properties of null (reading '" ++ k ++ "')"))
  | VObj props =>
      Normal (match lookup k props with Some x => x | None => VUndefined end)
  | _ => Normal VUndefined
  end.

(** ToString.  An array joins its elements with commas ([undefined] and
    [null] as the empty string); an object parsed from JSON has no callable
    property, so one with an own [toString] cannot be converted and any
    other is "[object Object]". *)
Fixpoint to_string (v : value) : completion string :=
  match v with
  | VUndefined => Normal "undefined"
  | VNull => Normal "null"
  | VBool b => Normal (if b then "true" else "false")
  | VNum n => Normal (Num.to_string n)
  | VStr s => Normal s
  | VArr items =>
      (fix join (first : bool) (l : list value) : completion string :=
         match l with
         | [] => Normal ""
         | x :: l' =>
             match (if is_nullish x then Normal "" else to_string x) with
             | Throw e => Throw e
             | Normal sx =>
                 match join false l' with
                 | Throw e => Throw e
                 | Normal r => Normal ((if first then "" else ",") ++ sx ++ r)
                 end
             end
         end) true items
  | VObj props =>
      if has_own "toString" props
      then Throw (TypeError "Cannot convert object to primitive value")
      else Normal "[object Object]"
  | VError name message =>
      Normal (if String.eqb message "" then name else name ++ ": " ++ message)
  end.

(** ToPrimitive: for an array or an object, the string above. *)
Definition to_primitive (v : value) : completion value :=
  match v with
  | VArr _ | VObj _ | VError _ _ =>
      match to_string v with
      | Normal s => Normal (VStr s)
      | Throw e => Throw e
      end
  | _ => Normal v
  end.

(** ToNumber of a primitive. *)
Definition prim_to_number (v : value) : Num.number :=
  match v with
  | VUndefined => Num.nan
  | VNull => S754_zero false
  | VBool b => if b then Num.of_Z 1 else S754_zero false
  | VNum n => n
  | VStr s => Num.of_string s
  | _ => Num.nan
  end.

Definition to_number (v : value) : completion Num.number :=
  match to_primitive v with
  | Normal p => Normal (prim_to_number p)
  | Throw e => Throw e
  end.

(** IsLessThan on two primitives: [None] is the undefined result. *)
Definition prim_less (px py : value) : option bool :=
  match px, py with
  | VStr a, VStr b => Some (Str.ltb a b)
  | _, _ =>
      match SFcompare (prim_to_number px) (prim_to_number py) with
      | Some Lt => Some true
      | Some _ => Some false
      | None => None
      end
  end.

(** The operators [a < b], [a > b] and [a <= b]; the left operand is
    converted first. *)
Definition relational (pick : value -> value -> bool) (a b : value) : completion bool :=
  match to_primitive a with
  | Throw e => Throw e
  | Normal pa =>
      match to_primitive b with
      | Throw e => Throw e
      | Normal pb => Normal (pick pa pb)
      end
  end.

Definition lt : value -> value -> completion bool :=
  relational (fun pa pb =>
    match prim_less pa pb with Some r => r | None => false end).
Definition gt : value -> value -> completion bool :=
  relational (fun pa pb =>
    match prim_less pb pa with Some r => r | None => false end).
Definition le : value -> value -> completion bool :=
  relational (fun pa pb =>
    match prim_less pb pa with Some r => negb r | None => false end).

(** [v === s] for a string [s]. *)
Definition is_string (v : value) (s : string) : bool :=
  match v with VStr t => String.eqb t s | _ => false end.

(** [a + b]: concatenation as soon as one side is a string. *)
Definition add (a b : value) : completion value :=
  match to_primitive a with
  | Throw e => Throw e
  | Normal pa =>
      match to_primitive b with
      | Throw e => Throw e
      | Normal pb =>
          match pa, pb with
          | VStr _, _ | _, VStr _ =>
              match to_string pa, to_string pb with
              | Normal sa, Normal sb => Normal (VStr (sa ++ sb))
              | Throw e, _ | _, Throw e => Throw e
              end
          | _, _ =>
              Normal (VNum (SFadd Num.prec Num.emax
                              (prim_to_number pa) (prim_to_number pb)))
          end
      end
  end.

(** [v.slice(start)]: String.prototype.slice, Array.prototype.slice, and a
    TypeError on every value that has no callable [slice]. *)
Definition slice (v : value) (start : Z) : completion value :=
  match v with
  | VStr s => Normal (VStr (Str.slice s start))
  | VArr items =>
      let len := Z.of_nat (List.length items) in
      let from := if start <? 0 then Z.max (len + start) 0 else Z.min start len in
      Normal (VArr (skipn (Z.to_nat from) items))
  | VUndefined | VNull => get v "slice"
  | _ => Throw (TypeError "userId.slice is not a function")
  end.

End Js.

(* ===================================================================== *)
(** ** Node's crypto: HMAC-SHA256 with a hex digest (FIPS 180-4, RFC 2104) *)
(* ===================================================================== *)

Module Crypto.

(** Bytes and 32-bit words are integers; additions wrap at 2^32. *)
Definition mask32 : Z := 0xffffffff.
Definition add32 (x y : Z) : Z := Z.land (x + y) mask32.
Definition rotr (n x : Z) : Z :=
  Z.lor (Z.shiftr x n) (Z.land (Z.shiftl x (32 - n)) mask32).
Definition xor3 (x y z : Z) : Z := Z.lxor x (Z.lxor y z).

Definition Ch (x y z : Z) : Z :=
  Z.lxor (Z.land x y) (Z.land (Z.lxor x mask32) z).
Definition Maj (x y z : Z) : Z :=
  xor3 (Z.land x y) (Z.land x z) (Z.land y z).
Definition Sigma0 (x : Z) : Z := xor3 (rotr 2 x) (rotr 13 x) (rotr 22 x).
Definition Sigma1 (x : Z) : Z := xor3 (rotr 6 x) (rotr 11 x) (rotr 25 x).
Definition sigma0 (x : Z) : Z := xor3 (rotr 7 x) (rotr 18 x) (Z.shiftr x 3).
Definition sigma1 (x : Z) : Z := xor3 (rotr 17 x) (rotr 19 x) (Z.shiftr x 10).

(** The constants of the standard are read off the first primes: the first
    32 bits of the fractional parts of their cube roots (the 64 round
    constants) and of their square roots (the 8 initial hash values). *)
Definition prime (p : Z) : bool :=
  forallb (fun d => (p <? d * d) || negb (p mod d =? 0)) (map Z.of_nat (seq 2 16)).

Definition first_primes : list Z := filter prime (map Z.of_nat (seq 2 310)).

Definition cube_root (n : Z) : Z :=
  fold_left (fun r i => let r' := r + 2 ^ Z.of_nat i in
                        if r' * r' * r' <=? n then r' else r)
            (rev (seq 0 36)) 0.

Definition K256 : list Z :=
  Eval vm_compute in map (fun p => cube_root (p * 2 ^ 96) mod 2 ^ 32) first_primes.

Definition H0 : list Z :=
  Eval vm_compute in map (fun p => Z.sqrt (p * 2 ^ 64) mod 2 ^ 32) (firstn 8 first_primes).

(** Padding: a one bit, zeros, and the length in bits on 64 bits. *)
Definition be_bytes (count : nat) (x : Z) : list Z :=
  map (fun i => Z.land (Z.shiftr x (8 * Z.of_nat i)) 0xff) (rev (seq 0 count)).

Definition pad (msg : list Z) : list Z :=
  let len := Z.of_nat (List.length msg) in
  let zeros := Z.to_nat ((55 - len) mod 64) in
  (msg ++ [0x80] ++ repeat 0 zeros ++ be_bytes 8 (8 * len))%list.

Fixpoint words (bytes : list Z) : list Z :=
  match bytes with
  | a :: b :: c :: d :: rest =>
      (Z.shiftl a 24 + Z.shiftl b 16 + Z.shiftl c 8 + d) :: words rest
  | _ => []
  end.

(** The message schedule, latest word first. *)
Fixpoint schedule (count : nat) (w : list Z) : list Z :=
  match count with
  | O => w
  | S count' =>
      let x := add32 (add32 (sigma1 (nth 1 w 0)) (nth 6 w 0))
                     (add32 (sigma0 (nth 14 w 0)) (nth 15 w 0)) in
      schedule count' (x :: w)
  end.

Definition state : Type := Z * Z * Z * Z * Z * Z * Z * Z.

Definition round (st : state) (kw : Z * Z) : state :=
  let '(a, b, c, d, e, f, g, h) := st in
  let t1 := add32 (add32 (add32 h (Sigma1 e)) (Ch e f g)) (add32 (fst kw) (snd kw)) in
  let t2 := add32 (Sigma0 a) (Maj a b c) in
  (add32 t1 t2, a, b, c, add32 d t1, e, f, g).

Definition compress (hs : state) (block : list Z) : state :=
  let w := rev (schedule 48 (rev block)) in
  let '(a, b, c, d, e, f, g, h) := fold_left round (combine K256 w) hs in
  let '(a0, b0, c0, d0, e0, f0, g0, h0) := hs in
  (add32 a0 a, add32 b0 b, add32 c0 c, add32 d0 d,
   add32 e0 e, add32 f0 f, add32 g0 g, add32 h0 h).

Fixpoint blocks (count : nat) (ws : list Z) (hs : state) : state :=
  match count with
  | O => hs
  | S count' => blocks count' (skipn 16 ws) (compress hs (firstn 16 ws))
  end.

Definition initial : state :=
  (nth 0 H0 0, nth 1 H0 0, nth 2 H0 0, nth 3 H0 0,
   nth 4 H0 0, nth 5 H0 0, nth 6 H0 0, nth 7 H0 0).

Definition sha256 (msg : list Z) : list Z :=
  let ws := words (pad msg) in
  let '(a, b, c, d, e, f, g, h) := blocks (List.length ws / 16) ws initial in
  flat_map (be_bytes 4) [a; b; c; d; e; f; g; h].

Definition block_size : nat := 64.

Definition hmac_sha256 (key msg : list Z) : list Z :=
  let k := if (block_size <? List.length key)%nat then sha256 key else key in
  let k := (k ++ repeat 0 (block_size - List.length k))%list in
  sha256 (map (Z.lxor 0x5c) k ++ sha256 (map (Z.lxor 0x36) k ++ msg))%list.

Definition hex_digit (x : Z) : ascii :=
  ascii_of_N (Z.to_N (if x <? 10 then 48 + x else 87 + x)).

Fixpoint hex (bytes : list Z) : string :=
  match bytes with
  | [] => ""
  | b :: rest => String (hex_digit (b / 16)) (String (hex_digit (b mod 16)) (hex rest))
  end.

(** The UTF-8 bytes of a string of code units below 256. *)
Fixpoint utf8 (s : string) : list Z :=
  match s with
  | EmptyString => []
  | String c s' =>
      let n := Z.of_N (N_of_ascii c) in
      if n <? 128 then n :: utf8 s'
      else (0xc0 + n / 64) :: (0x80 + n mod 64) :: utf8 s'
  end.

(** [crypto.createHmac('sha256', key).update(data).digest('hex')]: the key
    comes from the environment and may be undefined, the data must be a
    string; Node throws a TypeError otherwise. *)
Definition createHmac_sha256_hex (key : option string) (data : value) : completion string :=
  match key with
  | None =>
      Throw (TypeError "The 'key' argument must be of type string")
  | Some k =>
      match data with
      | VStr d => Normal (hex (hmac_sha256 (utf8 k) (utf8 d)))
      | _ => Throw (TypeError "The 'data' argument must be of type string")
      end
  end.

End Crypto.

(* ===================================================================== *)
(** ** JSON.stringify and JSON.parse (ECMA-262 25.5) *)
(* ===================================================================== *)

Module JSON.

Definition dquote : string := String (ascii_of_N 34) EmptyString.

Definition hex4 (n : Z) : string :=
  String (Crypto.hex_digit (n / 4096 mod 16))
    (String (Crypto.hex_digit (n / 256 mod 16))
       (String (Crypto.hex_digit (n / 16 mod 16))
          (String (Crypto.hex_digit (n mod 16)) EmptyString))).

(** QuoteJSONString, without the surrounding quotes. *)
Fixpoint escape (s : string) : string :=
  match s with
  | EmptyString => EmptyString
  | String c s' =>
      let n := Z.of_N (N_of_ascii c) in
      (if n =? 8 then "\b" else if n =? 9 then "\t" else if n =? 10 then "\n"
       else if n =? 12 then "\f" else if n =? 13 then "\r"
       else if n =? 34 then "\" ++ dquote else if n =? 92 then "\\"
       else if n <? 32 then "\u" ++ hex4 n
       else String c EmptyString) ++ escape s'
  end.

Definition quote (s : string) : string := dquote ++ escape s ++ dquote.

(** SerializeJSONProperty: [None] is the undefined result. *)
Fixpoint serialize (v : value) : option string :=
  match v with
  | VUndefined => None
  | VNull => Some "null"
  | VBool b => Some (if b then "true" else "false")
  | VNum n =>
      Some match n with
           | S754_nan | S754_infinity _ => "null"
           | _ => Num.to_string n
           end
  | VStr s => Some (quote s)
  | VArr items =>
      let fix elements (first : bool) (l : list value) : string :=
        match l with
        | [] => ""
        | x :: l' =>
            (if first then "" else ",")
            ++ match serialize x with Some t => t | None => "null" end
            ++ elements false l'
        end in
      Some ("[" ++ elements true items ++ "]")
  | VObj props =>
      let fix members (first : bool) (l : list (string * value)) : string :=
        match l with
        | [] => ""
        | (k, x) :: l' =>
            match serialize x with
            | Some t => (if first then "" else ",") ++ quote k ++ ":" ++ t
                        ++ members false l'
            | None => members first l'
            end
        end in
      Some ("{" ++ members true props ++ "}")
  | VError _ _ => Some "{}"
  end.

(** [JSON.stringify(v)]: a string, or [undefined]. *)
Definition stringify (v : value) : value :=
  match serialize v with Some s => VStr s | None => VUndefined end.

(** *** JSON.parse *)

(** An array index as a property name: a canonical numeral below 2^32 - 1.
    Such names come first, in ascending order, in an object's properties. *)
Definition array_index (k : string) : option N :=
  match Num.scan_digits 10 k 0%N 0 with
  | (v, count, EmptyString) =>
      if (0 <? count) && String.eqb (Num.digits v) k && (v <? 4294967295)%N
      then Some v else None
  | _ => None
  end.

Fixpoint replace (k : string) (v : value) (props : list (string * value)) :=
  match props with
  | [] => []
  | (k', v') :: rest =>
      if String.eqb k' k then (k, v) :: rest else (k', v') :: replace k v rest
  end.

Fixpoint insert_index (i : N) (k : string) (v : value) (props : list (string * value)) :=
  match props with
  | [] => [(k, v)]
  | (k', v') :: rest =>
      match array_index k' with
      | Some j => if (j <? i)%N then (k', v') :: insert_index i k v rest
                  else (k, v) :: props
      | None => (k, v) :: props
      end
  end.

(** CreateDataProperty on an ordinary object. *)
Definition define (k : string) (v : value) (props : list (string * value)) :=
  if Js.has_own k props then replace k v props
  else match array_index k with
       | Some i => insert_index i k v props
       | None => (props ++ [(k, v)])%list
       end.

Definition is_ws (c : ascii) : bool :=
  let n := N_of_ascii c in ((n =? 32) || (n =? 9) || (n =? 10) || (n =? 13))%N.

Fixpoint skip_ws (s : string) : string :=
  match s with
  | String c s' => if is_ws c then skip_ws s' else s
  | EmptyString => s
  end.

(** The code unit of a [\u] escape with the four digits [a b c d]. *)
Definition hex4_value (a b c d : ascii) : option N :=
  match Num.digit_of 16 a, Num.digit_of 16 b, Num.digit_of 16 c, Num.digit_of 16 d with
  | Some x, Some y, Some z, Some w => Some (((x * 16 + y) * 16 + z) * 16 + w)%N
  | _, _, _, _ => None
  end.

(** The characters of a string literal after its opening quote.  An escape
    of a code unit above 255 is well formed and has no counterpart in this
    model of strings: the text is beyond the model. *)
Fixpoint scan_string (s : string) : reading (string * string) :=
  let keep c r :=
    match scan_string r with
    | Accepted (t, rest) => Accepted (String c t, rest)
    | Refused => Refused
    | Beyond => Beyond
    end in
  match s with
  | EmptyString => Refused
  | String c s' =>
      let n := N_of_ascii c in
      if (n =? 34)%N then Accepted (EmptyString, s')
      else if (n <? 32)%N then Refused
      else if (n =? 92)%N then
        match s' with
        | String e s'' =>
            let m := N_of_ascii e in
            if (m =? 34)%N || (m =? 92)%N || (m =? 47)%N then keep e s''
            else if (m =? 98)%N then keep (ascii_of_N 8) s''
            else if (m =? 102)%N then keep (ascii_of_N 12) s''
            else if (m =? 110)%N then keep (ascii_of_N 10) s''
            else if (m =? 114)%N then keep (ascii_of_N 13) s''
            else if (m =? 116)%N then keep (ascii_of_N 9) s''
            else if (m =? 117)%N then
              match s'' with
              | String a (String b (String c0 (String d r))) =>
                  match hex4_value a b c0 d with
                  | Some u => if (u <? 256)%N then keep (ascii_of_N u) r else Beyond
                  | None => Refused
                  end
              | _ => Refused
              end
            else Refused
        | EmptyString => Refused
        end
      else keep c s'
  end.

(** A JSON number: no leading zero, digits after a point and an exponent. *)
Definition scan_number (s : string) : option (Num.number * string) :=
  let '(neg, s0) := match s with String "-" r => (true, r) | _ => (false, s) end in
  let '(ip, ic, s1) := Num.scan_digits 10 s0 0%N 0 in
  let leading_zero := match s0 with String "0" _ => 1 <? ic | _ => false end in
  if (ic =? 0) || leading_zero then None
  else
    let frac :=
      match s1 with
      | String "." r =>
          let '(m, fc, s2) := Num.scan_digits 10 r ip 0 in
          if fc =? 0 then None else Some (m, fc, s2)
      | _ => Some (ip, 0, s1)
      end in
    match frac with
    | None => None
    | Some (m, fc, s2) =>
        match Num.scan_exponent s2 with
        | Some (e, rest) => Some (Num.of_decimal neg m (e - fc), rest)
        | None => None
        end
    end.

Definition after (prefix s : string) : option string :=
  if String.prefix prefix s
  then Some (substring (String.length prefix) (String.length s - String.length prefix) s)
  else None.

(** The grammar, by recursive descent; every call consumes a character, so
    fuel proportional to the length of the text is enough.  Should the fuel
    run out, nothing is said of the text. *)
Fixpoint parse_value (fuel : nat) (s : string) {struct fuel} : reading (value * string) :=
  match fuel with
  | O => Beyond
  | S fuel' =>
      match skip_ws s with
      | String "{" r =>
          match skip_ws r with
          | String "}" rest => Accepted (VObj [], rest)
          | r' => parse_members fuel' r' []
          end
      | String "[" r =>
          match skip_ws r with
          | String "]" rest => Accepted (VArr [], rest)
          | r' => parse_elements fuel' r' []
          end
      | String c r as s' =>
          if (N_of_ascii c =? 34)%N then
            match scan_string r with
            | Accepted (t, rest) => Accepted (VStr t, rest)
            | Refused => Refused
            | Beyond => Beyond
            end
          else
            match after "true" s', after "false" s', after "null" s' with
            | Some rest, _, _ => Accepted (VBool true, rest)
            | _, Some rest, _ => Accepted (VBool false, rest)
            | _, _, Some rest => Accepted (VNull, rest)
            | _, _, _ =>
                match scan_number s' with
                | Some (n, rest) => Accepted (VNum n, rest)
                | None => Refused
                end
            end
      | EmptyString => Refused
      end
  end

with parse_elements (fuel : nat) (s : string) (acc : list value) {struct fuel}
  : reading (value * string) :=
  match fuel with
  | O => Beyond
  | S fuel' =>
      match parse_value fuel' s with
      | Accepted (v, r) =>
          match skip_ws r with
          | String "," r' => parse_elements fuel' r' (acc ++ [v])%list
          | String "]" rest => Accepted (VArr (acc ++ [v])%list, rest)
          | _ => Refused
          end
      | Refused => Refused
      | Beyond => Beyond
      end
  end

with parse_members (fuel : nat) (s : string) (acc : list (string * value)) {struct fuel}
  : reading (value * string) :=
  match fuel with
  | O => Beyond
  | S fuel' =>
      match skip_ws s with
      | String c r =>
          if (N_of_ascii c =? 34)%N then
            match scan_string r with
            | Accepted (k, r1) =>
                match skip_ws r1 with
                | String ":" r2 =>
                    match parse_value fuel' r2 with
                    | Accepted (v, r3) =>
                        match skip_ws r3 with
                        | String "," r4 => parse_members fuel' r4 (define k v acc)
                        | String "}" rest => Accepted (VObj (define k v acc), rest)
                        | _ => Refused
                        end
                    | Refused => Refused
                    | Beyond => Beyond
                    end
                | _ => Refused
                end
            | Refused => Refused
            | Beyond => Beyond
            end
          else Refused
      | EmptyString => Refused
      end
  end.

(** [JSON.parse(text)]: [Refused] is a SyntaxError. *)
Definition parse (text : string) : reading value :=
  match parse_value (2 * String.length text + 2) text with
  | Accepted (v, rest) =>
      match skip_ws rest with
      | EmptyString => Accepted v
      | _ => Refused
      end
  | Refused => Refused
  | Beyond => Beyond
  end.

End JSON.

(* ===================================================================== *)
(** ** Effects: the console, the provider's SDK, thrown values *)
(* ===================================================================== *)

(** What a handler does besides answering, in the order it does it. *)
Inductive effect : Type :=
| ConsoleLog (args : list value)
| ConsoleError (args : list value)
| OrdersCreate (options : value)
| PaymentsFetch (paymentId : value).

(** A computation: the effects performed, and how it ended. *)
Definition M (A : Type) : Type := list effect * completion A.

Definition ret {A} (a : A) : M A := ([], Normal a).

Definition bind {A B} (c : M A) (k : A -> M B) : M B :=
  match c with
  | (t, Normal a) => let '(t', r) := k a in ((t ++ t')%list, r)
  | (t, Throw e) => (t, Throw e)
  end.

Definition lift {A} (c : completion A) : M A := ([], c).
Definition emit (e : effect) : M unit := ([e], Normal tt).

(** [try { body } catch (error) { handler }]. *)
Definition try_catch {A} (body : M A) (handler : value -> M A) : M A :=
  match body with
  | (t, Normal a) => (t, Normal a)
  | (t, Throw e) => let '(t', r) := handler e in ((t ++ t')%list, r)
  end.

Declare Scope js_scope.
Delimit Scope js_scope with js.
Notation "x <- c ;; k" := (bind c (fun x => k))
  (at level 61, c at next level, right associativity) : js_scope.
Notation "c ;;; k" := (bind c (fun _ => k))
  (at level 61, right associativity) : js_scope.
Local Open Scope js_scope.

(* ===================================================================== *)
(** ** src/config.js *)
(* ===================================================================== *)

(** [process.env]: a variable is a string or is not set. *)
Definition environment : Type := string -> option string.

Record razorpay_config : Type := {
  keyId : option string;
  keySecret : option string;
  webhookSecret : option string
}.

Record server_config : Type := { port : value; nodeEnv : string }.
Record cors_config : Type := { frontendUrl : string }.

Record config_t : Type := {
  razorpay : razorpay_config;
  server : server_config;
  cors : cors_config
}.

(** [process.env.X || fallback]: the empty string is falsy. *)
Definition or_default (x : option string) (fallback : string) : string :=
  match x with
  | Some s => if String.eqb s "" then fallback else s
  | None => fallback
  end.

Definition config (env : environment) : config_t := {|
  razorpay := {| keyId := env "RAZORPAY_KEY_ID";
                 keySecret := env "RAZORPAY_KEY_SECRET";
                 webhookSecret := env "RAZORPAY_WEBHOOK_SECRET" |};
  server := {| port := match env "PORT" with
                       | Some s => if String.eqb s "" then VNum (Num.of_Z 5000) else VStr s
                       | None => VNum (Num.of_Z 5000)
                       end;
               nodeEnv := or_default (env "NODE_ENV") "development" |};
  cors := {| frontendUrl := or_default (env "FRONTEND_URL") "http://localhost:5173" |}
|}.

(* ===================================================================== *)
(** ** src/server.js *)
(* ===================================================================== *)

(** [toLowerCase] on a code unit below 256: the letters A-Z and the
    capital letters of Latin-1 (all of 192-222 but the multiplication sign). *)
Definition lower (c : ascii) : ascii :=
  let n := N_of_ascii c in
  if ((65 <=? n) && (n <=? 90)
      || (192 <=? n) && (n <=? 222) && negb (n =? 215))%N
  then ascii_of_N (n + 32) else c.

Fixpoint toLowerCase (s : string) : string :=
  match s with
  | EmptyString => EmptyString
  | String c s' => String (lower c) (toLowerCase s')
  end.

(** The request as a handler sees it: [req.headers] as Node built it (a
    string under each name, an array under set-cookie), the route
    parameters, and [req.body] as [express.json()] left it. *)
Record request : Type := {
  headers : list (string * value);
  params : list (string * string);
  body : value
}.

(** [res.status(status).json(json)]; [res.json(json)] answers 200.  [json] is
    the object handed to [res.json], which Express sends as its
    [JSON.stringify] text. *)
Record response : Type := { status : Z; json : value }.

Definition res_json (code : Z) (fields : list (string * value)) : M response :=
  ret {| status := code; json := VObj fields |}.

(** The provider's SDK: each call settles with a value or rejects with one. *)
Record Razorpay : Type := {
  orders_create : value -> completion value;
  payments_fetch : value -> completion value
}.

(** [req.headers[name]] and [req.params.name]. *)
Definition header (req : request) (name : string) : value :=
  match find (fun kv => String.eqb (fst kv) name) (headers req) with
  | Some kv => snd kv
  | None => VUndefined
  end.

Definition param (req : request) (name : string) : value :=
  match find (fun kv => String.eqb (fst kv) name) (params req) with
  | Some kv => VStr (snd kv)
  | None => VUndefined
  end.

(** [const { k } = req.body]. *)
Definition destructure (v : value) (k : string) : M value :=
  match v with
  | VUndefined =>
      lift (Throw (TypeError ("Cannot destructure property '" ++ k
                              ++ "' of 'req.body' as it is undefined.")))
  | VNull =>
      lift (Throw (TypeError ("Cannot destructure property '" ++ k
                              ++ "' of 'req.body' as it is null.")))
  | _ => lift (Js.get v k)
  end.

Definition num (z : Z) : value := VNum (Num.of_Z z).

Section Handlers.

Variable cfg : config_t.
Variable razorpay_sdk : Razorpay.
(** [Date.now()]: the milliseconds since the epoch, an integer. *)
Variable now : Z.

(** The answers of the order endpoint, lines 56-84 and 125-134. *)
Definition missing_fields : M response :=
  res_json 400 [("success", VBool false);
                ("message", VStr "Missing required fields: planId, userId, and amount are required")].
Definition amount_not_positive : M response :=
  res_json 400 [("success", VBool false);
                ("message", VStr "Amount must be greater than 0")].
Definition unsupported_currency : M response :=
  res_json 400 [("success", VBool false);
                ("message", VStr "Only INR currency is supported")].
(** The rupee sign of this message is above code unit 255; the literal
    keeps the bytes of the source file. *)
Definition amount_out_of_range : M response :=
  res_json 400 [("success", VBool false);
                ("message", VStr "Amount must be between ₹1 and ₹10,000")].

(** [const options = { ... }], lines 87-95. *)
Definition order_options (amount currency : value) (receipt : string)
    (planId userId : value) : value :=
  VObj [("amount", amount);
        ("currency", currency);
        ("receipt", VStr receipt);
        ("notes", VObj [("planId", planId); ("userId", userId)])].

(** POST /api/create-order, lines 86-118: the order is placed. *)
Definition place_order (planId userId amount currency : value) : M response :=
  let stamp := Str.slice (Num.to_string (Num.of_Z now)) (-8) in
  tail <- lift (Js.slice userId (-8)) ;;
  tail <- lift (Js.to_string tail) ;;
  let receipt := "order_" ++ stamp ++ "_" ++ tail in
  let options := order_options amount currency receipt planId userId in
  emit (ConsoleLog
          [VStr "Creating Razorpay order with options:";
           VObj [("amount", amount);
                 ("currency", currency);
                 ("receipt", VStr receipt);
                 ("planId", planId);
                 ("userId", userId)]]) ;;;
  emit (OrdersCreate options) ;;;
  order <- lift (orders_create razorpay_sdk options) ;;
  order_id <- lift (Js.get order "id") ;;
  order_amount <- lift (Js.get order "amount") ;;
  order_currency <- lift (Js.get order "currency") ;;
  emit (ConsoleLog
          [VStr "Razorpay order created successfully:";
           VObj [("orderId", order_id);
                 ("amount", order_amount);
                 ("currency", order_currency)]]) ;;;
  res_json 200 [("success", VBool true);
                ("orderId", order_id);
                ("amount", order_amount);
                ("currency", order_currency)].

(** POST /api/create-order, lines 54-84: the four checks, in their order. *)
Definition validate (planId userId amount currency : value) : M response :=
  if negb (Js.truthy planId) || negb (Js.truthy userId) || negb (Js.truthy amount)
  then missing_fields
  else
    nonpositive <- lift (Js.le amount (num 0)) ;;
    if (nonpositive : bool) then amount_not_positive
    else if negb (Js.is_string currency "INR") then unsupported_currency
    else
      below <- lift (Js.lt amount (num 100)) ;;
      outside <- (if (below : bool) then ret true
                  else lift (Js.gt amount (num 1000000))) ;;
      if (outside : bool) then amount_out_of_range
      else place_order planId userId amount currency.

(** [currency = 'INR'] in the destructuring of line 52. *)
Definition or_INR (given : value) : value :=
  match given with VUndefined => VStr "INR" | _ => given end.

(** POST /api/create-order: the [try] block, lines 51-118. *)
Definition create_order_try (req : request) : M response :=
  planId <- destructure (body req) "planId" ;;
  userId <- destructure (body req) "userId" ;;
  amount <- destructure (body req) "amount" ;;
  given <- destructure (body req) "currency" ;;
  validate planId userId amount (or_INR given).

(** POST /api/create-order: the [catch] block, lines 120-136. *)
Definition create_order_catch (error : value) : M response :=
  emit (ConsoleError [VStr "Error creating order:"; error]) ;;;
  inner <- lift (Js.get error "error") ;;
  description <- (if Js.truthy inner then lift (Js.get inner "description")
                  else ret inner) ;;
  if Js.truthy description
  then
    text <- lift (Js.to_string description) ;;
    code <- lift (Js.get inner "code") ;;
    res_json 400 [("success", VBool false);
                  ("message", VStr ("Payment Error: " ++ text));
                  ("errorCode", code)]
  else
    res_json 500 [("success", VBool false);
                  ("message", VStr "Failed to create order. Please try again.")].

(** POST /api/create-order, lines 50-137.  A value the [catch] block throws
    in its turn ends the handler without an answer. *)
Definition create_order (req : request) : M response :=
  try_catch (create_order_try req) create_order_catch.

(** POST /api/verify-payment, lines 140-199. *)
Definition verify_payment (req : request) : M response :=
  try_catch
    (razorpay_payment_id <- destructure (body req) "razorpay_payment_id" ;;
     razorpay_order_id <- destructure (body req) "razorpay_order_id" ;;
     razorpay_signature <- destructure (body req) "razorpay_signature" ;;
     planId <- destructure (body req) "planId" ;;
     userId <- destructure (body req) "userId" ;;
     if negb (Js.truthy razorpay_payment_id) || negb (Js.truthy razorpay_order_id)
        || negb (Js.truthy razorpay_signature)
     then res_json 400 [("success", VBool false);
                        ("message", VStr "Missing payment verification data")]
     else
       left <- lift (Js.add razorpay_order_id (VStr "|")) ;;
       joined <- lift (Js.add left razorpay_payment_id) ;;
       text <- lift (Js.to_string joined) ;;
       expectedSignature <-
         lift (Crypto.createHmac_sha256_hex (keySecret (razorpay cfg)) (VStr text)) ;;
       if negb (Js.is_string razorpay_signature expectedSignature)
       then res_json 400 [("success", VBool false);
                          ("message", VStr "Invalid payment signature")]
       else
         emit (ConsoleLog
                 [VStr "Payment verified successfully:";
                  VObj [("paymentId", razorpay_payment_id);
                        ("orderId", razorpay_order_id);
                        ("planId", planId);
                        ("userId", userId)]]) ;;;
         res_json 200 [("success", VBool true);
                       ("message", VStr "Payment verified successfully");
                       ("paymentId", razorpay_payment_id);
                       ("orderId", razorpay_order_id)])
    (fun error =>
       emit (ConsoleError [VStr "Error verifying payment:"; error]) ;;;
       res_json 500 [("success", VBool false);
                     ("message", VStr "Failed to verify payment")]).

(** GET /api/payment-status/:paymentId, lines 202-227. *)
Definition payment_status (req : request) : M response :=
  try_catch
    (let paymentId := param req "paymentId" in
     emit (PaymentsFetch paymentId) ;;;
     payment <- lift (payments_fetch razorpay_sdk paymentId) ;;
     id <- lift (Js.get payment "id") ;;
     state <- lift (Js.get payment "status") ;;
     amount <- lift (Js.get payment "amount") ;;
     currency <- lift (Js.get payment "currency") ;;
     method <- lift (Js.get payment "method") ;;
     created_at <- lift (Js.get payment "created_at") ;;
     res_json 200 [("success", VBool true);
                   ("payment", VObj [("id", id);
                                     ("status", state);
                                     ("amount", amount);
                                     ("currency", currency);
                                     ("method", method);
                                     ("created_at", created_at)])])
    (fun error =>
       emit (ConsoleError [VStr "Error fetching payment status:"; error]) ;;;
       res_json 500 [("success", VBool false);
                     ("message", VStr "Failed to fetch payment status")]).

(** [console.log(label, event.payload.member.entity)], lines 250-265, for
    [member] one of [payment] and [subscription]. *)
Definition log_entity (label : string) (event : value) (member : string) : M unit :=
  payload <- lift (Js.get event "payload") ;;
  holder <- lift (Js.get payload member) ;;
  entity <- lift (Js.get holder "entity") ;;
  emit (ConsoleLog [VStr label; entity]).

(** The [switch] on the event type, lines 247-270. *)
Definition dispatch (event : value) : M unit :=
  kind <- lift (Js.get event "event") ;;
  if Js.is_string kind "payment.captured"
  then log_entity "Payment captured:" event "payment"
  else if Js.is_string kind "payment.failed"
  then log_entity "Payment failed:" event "payment"
  else if Js.is_string kind "subscription.activated"
  then log_entity "Subscription activated:" event "subscription"
  else if Js.is_string kind "subscription.cancelled"
  then log_entity "Subscription cancelled:" event "subscription"
  else emit (ConsoleLog [VStr "Unhandled event:"; kind]).

(** POST /api/webhook: the [catch] block, lines 274-277. *)
Definition webhook_catch (error : value) : M response :=
  emit (ConsoleError [VStr "Webhook error:"; error]) ;;;
  res_json 500 [("message", VStr "Webhook processing failed")].

(** POST /api/webhook, lines 230-278. *)
Definition webhook (req : request) : M response :=
  try_catch
    (let webhookSecret := webhookSecret (razorpay cfg) in
     let signature := header req "x-razorpay-signature" in
     expectedSignature <-
       lift (Crypto.createHmac_sha256_hex webhookSecret (JSON.stringify (body req))) ;;
     if negb (Js.is_string signature expectedSignature)
     then res_json 400 [("message", VStr "Invalid webhook signature")]
     else
       let event := body req in
       dispatch event ;;;
       res_json 200 [("received", VBool true)])
    webhook_catch.

(** [new Date().toISOString()] for the time value [now]. *)
Definition padded (width : nat) (z : Z) : string :=
  let ds := Num.digits (Z.to_N z) in
  Num.zeros (Z.of_nat (width - String.length ds)) ++ ds.

Definition toISOString (t : Z) : string :=
  let days := t / 86400000 in
  let ms := t mod 86400000 in
  let z := days + 719468 in
  let era := z / 146097 in
  let doe := z - era * 146097 in
  let yoe := (doe - doe / 1460 + doe / 36524 - doe / 146096) / 365 in
  let doy := doe - (365 * yoe + yoe / 4 - yoe / 100) in
  let mp := (5 * doy + 2) / 153 in
  let d := doy - (153 * mp + 2) / 5 + 1 in
  let m := if mp <? 10 then mp + 3 else mp - 9 in
  let y := yoe + era * 400 + (if m <=? 2 then 1 else 0) in
  (if (0 <=? y) && (y <=? 9999) then padded 4 y
   else (if y <? 0 then "-" else "+") ++ padded 6 (Z.abs y))
  ++ "-" ++ padded 2 m ++ "-" ++ padded 2 d
  ++ "T" ++ padded 2 (ms / 3600000) ++ ":" ++ padded 2 (ms / 60000 mod 60)
  ++ ":" ++ padded 2 (ms / 1000 mod 60) ++ "." ++ padded 3 (ms mod 1000) ++ "Z".

(** GET /api/health, lines 281-283. *)
Definition health (req : request) : M response :=
  res_json 200 [("status", VStr "OK"); ("timestamp", VStr (toISOString now))].

End Handlers.

(** *** The body parser, line 33

    [express.json({ limit: '10mb' })] runs before every handler; the model is
    of a request whose type is application/json.  The text of the request
    body stands for its bytes (the text's UTF-8 encoding).  A body above the
    limit is refused.  An empty body is read as the empty object; a text whose
    first character besides white space is neither a brace nor a bracket is
    refused, and so is one that [JSON.parse] refuses.  The handler is not
    called for a refused body. *)
Definition limit : Z := 10 * 1024 * 1024.

Definition express_json (text : string) : reading value :=
  if limit <? Z.of_nat (List.length (Crypto.utf8 text)) then Refused
  else
    match text with
    | EmptyString => Accepted (VObj [])
    | _ =>
        match JSON.skip_ws text with
        | String c _ =>
            if (N_of_ascii c =? 123)%N || (N_of_ascii c =? 91)%N
            then JSON.parse text else Refused
        | EmptyString => Refused
        end
    end.

(** *** The headers of a request, as Node hands them to the handlers

    Node builds [req.headers] from the header lines in the order they
    arrive (IncomingMessage, [_addHeaderLine]).  A name goes to lower case.
    Of a header sent more than once: for the eighteen names below the first
    value is kept; set-cookie is an array of all the values; the values of
    cookie are joined with a semicolon and a space; the values of any other
    header are joined with a comma and a space. *)
Definition kept_once : list string :=
  ["age"; "authorization"; "content-length"; "content-type"; "etag"; "expires";
   "from"; "host"; "if-modified-since"; "if-unmodified-since"; "last-modified";
   "location"; "max-forwards"; "proxy-authorization"; "referer"; "retry-after";
   "server"; "user-agent"].

Fixpoint addHeaderLine (field sent : string) (dest : list (string * value))
  : list (string * value) :=
  match dest with
  | [] =>
      [(field, if String.eqb field "set-cookie" then VArr [VStr sent] else VStr sent)]
  | (field', held) :: rest =>
      if String.eqb field' field then
        (field',
         match held with
         | VArr values => VArr (values ++ [VStr sent])
         | VStr first =>
             if existsb (String.eqb field) kept_once then held
             else VStr (first ++ (if String.eqb field "cookie" then "; " else ", ")
                        ++ sent)
         | _ => held
         end) :: rest
      else (field', held) :: addHeaderLine field sent rest
  end.

Definition req_headers (lines : list (string * string)) : list (string * value) :=
  fold_left (fun dest line => addHeaderLine (toLowerCase (fst line)) (snd line) dest)
            lines [].

(** A POST as it arrives: the header lines, names as they were sent, and
    the text of the body. *)
Record post : Type := { post_headers : list (string * string); post_body : string }.

(** The request a handler is given for a post whose body was read. *)
Definition incoming (p : post) (parsed : value) : request :=
  {| headers := req_headers (post_headers p); params := []; body := parsed |}.

Definition app_post (handler : request -> M response) (p : post)
  : reading (M response) :=
  match express_json (post_body p) with
  | Accepted parsed => Accepted (handler (incoming p parsed))
  | Refused => Refused
  | Beyond => Beyond
  end.

(** *** The CORS policy, lines 10-29 *)

(** [allowedOrigins.indexOf(origin)]: the position of the first string that
    [origin] is strictly equal to, -1 when there is none. *)
Fixpoint indexOf (l : list string) (v : value) (from : Z) : Z :=
  match l with
  | [] => -1
  | s :: rest => if Js.is_string v s then from else indexOf rest v (from + 1)
  end.

(** What the policy hands to [callback(err, allow)]. *)
Record callback : Type := { err : value; allow : value }.

Definition allowedOrigins (cfg : config_t) : list string :=
  ["http://localhost:5173";
   "http://localhost:3000";
   "https://examnest.vercel.app/";
   frontendUrl (cors cfg)].

(** [corsOptions.origin(origin, callback)]; [origin] is the Origin header of
    the request, [undefined] when there is none. *)
Definition corsOptions_origin (cfg : config_t) (origin : value) : callback :=
  if negb (Js.truthy origin) then {| err := VNull; allow := VBool true |}
  else if negb (indexOf (allowedOrigins cfg) origin 0 =? -1)
  then {| err := VNull; allow := VBool true |}
  else {| err := VError "Error" "Not allowed by CORS"; allow := VUndefined |}.

(** *** The security headers, lines 36-41 *)

(** The headers of an answer before it is sent: Node keeps, under the name
    in lower case, the name as it was given and the value. *)
Definition out_headers : Type := list (string * (string * string)).

(** [headers[key] = entry] on an object: a key that is there keeps its place. *)
Fixpoint assign (key : string) (entry : string * string) (hs : out_headers) : out_headers :=
  match hs with
  | [] => [(key, entry)]
  | (key', entry') :: rest =>
      if String.eqb key' key then (key', entry) :: rest
      else (key', entry') :: assign key entry rest
  end.

(** [res.setHeader(name, value)] and [res.getHeader(name)]. *)
Definition setHeader (name value : string) (hs : out_headers) : out_headers :=
  assign (toLowerCase name) (name, value) hs.

Definition getHeader (name : string) (hs : out_headers) : option string :=
  match find (fun kv => String.eqb (fst kv) (toLowerCase name)) hs with
  | Some kv => Some (snd (snd kv))
  | None => None
  end.

(** The middleware of lines 36-41 on the headers set so far; it then calls
    [next()], whatever the request. *)
Definition security_headers (hs : out_headers) : out_headers :=
  setHeader "X-XSS-Protection" "1; mode=block"
    (setHeader "X-Frame-Options" "DENY"
       (setHeader "X-Content-Type-Options" "nosniff" hs)).

(** *** The start of the server, lines 285-291 *)

(** The callback of [app.listen(PORT, ...)]: three lines on the console. *)
Definition on_listen (cfg : config_t) : M unit :=
  PORT <- lift (Js.to_string (port (server cfg))) ;;
  emit (ConsoleLog [VStr ("Server running on port " ++ PORT)]) ;;;
  emit (ConsoleLog [VStr ("Environment: " ++ nodeEnv (server cfg))]) ;;;
  emit (ConsoleLog [VStr ("CORS enabled for: " ++ frontendUrl (cors cfg))]).

(** The calls to the provider among the effects of a handler. *)
Definition is_provider_call (e : effect) : bool :=
  match e with
  | OrdersCreate _ | PaymentsFetch _ => true
  | ConsoleLog _ | ConsoleError _ => false
  end.

Definition provider_calls (t : list effect) : list effect :=
  filter is_provider_call t.

(** The request gets past the four checks of the order endpoint. *)
Definition passes_validation (planId userId amount currency : value) : Prop :=
  Js.truthy planId = true /\ Js.truthy userId = true /\ Js.truthy amount = true
  /\ Js.le amount (num 0) = Normal false
  /\ Js.is_string currency "INR" = true
  /\ Js.lt amount (num 100) = Normal false
  /\ Js.gt amount (num 1000000) = Normal false.

(** [t] is the last [n] characters of [s], or all of [s] when it is shorter. *)
Definition last_chars (n : nat) (s t : string) : Prop :=
  (exists front, s = front ++ t) /\ String.length t = Nat.min n (String.length s).

(** The receipt of line 90 when the user identifier is the string [u]. *)
Definition receipt_for (now : Z) (u : string) : string :=
  "order_" ++ Str.slice (Num.to_string (Num.of_Z now)) (-8) ++ "_" ++ Str.slice u (-8).

(** The member of the payload a known event type reads its entity from. *)
Definition entity_holder (kind : string) : option string :=
  if String.eqb kind "payment.captured" || String.eqb kind "payment.failed"
  then Some "payment"
  else if String.eqb kind "subscription.activated" || String.eqb kind "subscription.cancelled"
  then Some "subscription"
  else None.

(** The signature [JSON.stringify(body)] has under the secret [k]. *)
Definition signature_of (k : string) (body : value) : completion string :=
  Crypto.createHmac_sha256_hex (Some k) (JSON.stringify body).

(** A failure answer carries [success: false]. *)
Definition failure_has_success_false (r : response) : Prop :=
  status r <> 200 -> Js.get (json r) "success" = Normal (VBool false).

(** A failure answer of the webhook is a bare message. *)
Definition failure_is_bare_message (r : response) : Prop :=
  status r <> 200 -> exists message, json r = VObj [("message", VStr message)].

(** Every answer a computation may give satisfies [P]. *)
Definition answers (P : response -> Prop) (m : M response) : Prop :=
  match snd m with
  | Normal r => P r
  | Throw _ => True
  end.

(** The number of calls to the provider a computation makes. *)
Definition calls {A} (m : M A) : nat := List.length (provider_calls (fst m)).

(** A computation that ends with an answer satisfying [P]. *)
Definition replies (P : response -> Prop) (m : M response) : Prop :=
  exists r, snd m = Normal r /\ P r.

(** Every value a computation may throw satisfies [Q]. *)
Definition throws {A} (Q : value -> Prop) (m : M A) : Prop :=
  match snd m with
  | Normal _ => True
  | Throw e => Q e
  end.

(** An error object of the run time. *)
Definition is_error (v : value) : Prop := exists name message, v = VError name message.

(** A digit of a hex digest: 0-9 or a-f. *)
Definition lower_hex_digit (c : ascii) : bool :=
  let n := N_of_ascii c in
  (((48 <=? n) && (n <=? 57)) || ((97 <=? n) && (n <=? 102)))%N.

Fixpoint lower_hex (s : string) : bool :=
  match s with
  | EmptyString => true
  | String c s' => lower_hex_digit c && lower_hex s'
  end.

(** The text of a digest: 64 digits of lower-case hex. *)
Definition digest_text (s : string) : Prop :=
  String.length s = 64%nat /\ lower_hex s = true.

(** [lo <= x <= hi] on the real line, for a zero or a finite Number. *)
Definition within (x : Num.number) (lo hi : Z) : Prop :=
  match x with
  | S754_zero _ | S754_finite _ _ _ =>
      (inject_Z lo <= Num.real x)%Q /\ (Num.real x <= inject_Z hi)%Q
  | _ => False
  end.

(** The answers of the verification endpoint that are no success. *)
Definition missing_payment_data : response :=
  {| status := 400;
     json := VObj [("success", VBool false);
                   ("message", VStr "Missing payment verification data")] |}.

Definition invalid_payment_signature : response :=
  {| status := 400;
     json := VObj [("success", VBool false);
                   ("message", VStr "Invalid payment signature")] |}.

Definition verification_failed : response :=
  {| status := 500;
     json := VObj [("success", VBool false);
                   ("message", VStr "Failed to verify payment")] |}.

(** The failure answers of the order endpoint and of the webhook. *)
Definition order_failed : response :=
  {| status := 500;
     json := VObj [("success", VBool false);
                   ("message", VStr "Failed to create order. Please try again.")] |}.

Definition invalid_webhook_signature : response :=
  {| status := 400; json := VObj [("message", VStr "Invalid webhook signature")] |}.

Definition webhook_failed : response :=
  {| status := 500; json := VObj [("message", VStr "Webhook processing failed")] |}.

Definition status_failed : response :=
  {| status := 500;
     json := VObj [("success", VBool false);
                   ("message", VStr "Failed to fetch payment status")] |}.

(** An object or an array: what [JSON.parse] builds from a text that opens
    with a brace or a bracket. *)
Definition is_container (v : value) : Prop :=
  (exists props, v = VObj props) \/ (exists items, v = VArr items).

(** The label a known event type is logged under, lines 248-265. *)
Definition event_label (kind : string) : option string :=
  if String.eqb kind "payment.captured" then Some "Payment captured:"
  else if String.eqb kind "payment.failed" then Some "Payment failed:"
  else if String.eqb kind "subscription.activated" then Some "Subscription activated:"
  else if String.eqb kind "subscription.cancelled" then Some "Subscription cancelled:"
  else None.

(** A rejection the [catch] block of the order endpoint can read: it is
    neither [undefined] nor [null], and the description of its error, when
    there is one, can be written in a template literal. *)
Definition plain_rejection (reason : value) : Prop :=
  Js.is_nullish reason = false
  /\ forall inner description,
       Js.get reason "error" = Normal inner ->
       Js.get inner "description" = Normal description ->
       exists text, Js.to_string description = Normal text.

(* ===================================================================== *)
(** ** Sample requests, used to run the handlers *)
(* ===================================================================== *)

Module Sample.

Definition env : environment :=
  fun name =>
    if String.eqb name "RAZORPAY_KEY_ID" then Some "rzp_test_key"
    else if String.eqb name "RAZORPAY_KEY_SECRET" then Some "s3cret"
    else if String.eqb name "RAZORPAY_WEBHOOK_SECRET" then Some "whsec"
    else None.

Definition cfg : config_t := config env.

(** 2024-11-02T14:00:00.123Z. *)
Definition now : Z := 1730556000123.

(** A provider that creates the order. *)
Definition accepting : Razorpay := {|
  orders_create := fun options =>
    match Js.get options "amount", Js.get options "currency" with
    | Normal amount, Normal currency =>
        Normal (VObj [("id", VStr "order_1"); ("amount", amount); ("currency", currency)])
    | _, _ => Throw VNull
    end;
  payments_fetch := fun id =>
    Normal (VObj [("id", id); ("status", VStr "captured")])
|}.

(** A provider that rejects with an error of its API. *)
Definition rejecting : Razorpay := {|
  orders_create := fun _ =>
    Throw (VObj [("statusCode", num 400);
                 ("error", VObj [("code", VStr "BAD_REQUEST_ERROR");
                                 ("description", VStr "Authentication failed")])]);
  payments_fetch := fun _ =>
    Throw (VObj [("statusCode", num 400);
                 ("error", VObj [("code", VStr "BAD_REQUEST_ERROR");
                                 ("description", VStr "The id provided does not exist")])])
|}.

(** A provider that cannot be reached. *)
Definition unreachable : Razorpay := {|
  orders_create := fun _ => Throw (VError "Error" "connect ETIMEDOUT");
  payments_fetch := fun _ => Throw (VError "Error" "connect ETIMEDOUT")
|}.

Definition post_json (fields : list (string * value)) : request :=
  {| headers := []; params := []; body := VObj fields |}.

(** The orders of the scenarios of the specification. *)
Definition order : request :=
  post_json [("planId", VStr "p1"); ("userId", VStr "u1234567890");
             ("amount", num 50000); ("currency", VStr "INR")].

Definition order_without_currency : request :=
  post_json [("planId", VStr "p1"); ("userId", VStr "u1234567890");
             ("amount", num 50000)].

Definition small_order : request :=
  post_json [("planId", VStr "p1"); ("userId", VStr "u1"); ("amount", num 50)].

Definition free_order : request :=
  post_json [("planId", VStr "p1"); ("userId", VStr "u1"); ("amount", num 0)].

Definition dollar_order : request :=
  post_json [("planId", VStr "p1"); ("userId", VStr "u1234567890");
             ("amount", num 50000); ("currency", VStr "USD")].

(** A payment signed with the key secret, and the same with the last
    character of the signature changed. *)
Definition signed_payment : request :=
  post_json [("razorpay_payment_id", VStr "pay_1");
             ("razorpay_order_id", VStr "order_1");
             ("razorpay_signature",
              VStr "44422d618d76e6e81c5f002f4d5108385750b52eb8db4e9c7a4231ddfac02840")].

Definition forged_payment : request :=
  post_json [("razorpay_payment_id", VStr "pay_1");
             ("razorpay_order_id", VStr "order_1");
             ("razorpay_signature",
              VStr "44422d618d76e6e81c5f002f4d5108385750b52eb8db4e9c7a4231ddfac02841")].

(** Webhook events, each with the signature of its [JSON.stringify] text
    under the webhook secret. *)
Definition event (signature : string) (fields : list (string * value)) : request :=
  {| headers := [("x-razorpay-signature", VStr signature)]; params := [];
     body := VObj fields |}.

Definition order_paid : request :=
  event "cadd9534dc960816862f86f1334d0fb6c99d891da8657e67fe88215884823127"
    [("event", VStr "order.paid");
     ("payload", VObj [("order", VObj [("entity", VObj [("id", VStr "order_1")])])])].

Definition captured_without_entity : request :=
  event "dc1d71c27abee910da44752a998b60b2aa40afd299377a9fd7a4905bec9554a0"
    [("event", VStr "payment.captured");
     ("payload", VObj [("payment", VObj [])])].

Definition failed_without_payload : request :=
  event "1b0672b6482f8cc9bd6e8ffae717c5aabc622c68cd09375d036dc7e9c867d302"
    [("event", VStr "payment.failed")].

(** A text with apostrophes standing for the double quotes of JSON. *)
Definition quoted (s : string) : string :=
  string_of_list_ascii
    (map (fun c => if (N_of_ascii c =? 39)%N then ascii_of_N 34 else c)
         (list_ascii_of_string s)).

(** A webhook body as the provider may send it, with a space after each
    colon and comma; its HMAC under the webhook secret; and the HMAC of the
    text without the spaces. *)
Definition spaced_text : string :=
  quoted "{'event': 'payment.captured', 'payload': {'payment': {'entity': {'id': 'pay_1'}}}}".

Definition compact_text : string :=
  quoted "{'event':'payment.captured','payload':{'payment':{'entity':{'id':'pay_1'}}}}".

Definition spaced_signature : string :=
  "e4efb2c54ab681d605f42f1be0bc3f63c0ba9f8a7c0bb8ad3970d3671cb6d026".

Definition compact_signature : string :=
  "4be6c0b198ce196ef9be4d9b9f1e369fd3e10bfe8c0a7938ad24de42dd05c016".

(** What [express.json()] reads from the spaced text. *)
Definition captured : list (string * value) :=
  [("event", VStr "payment.captured");
   ("payload", VObj [("payment", VObj [("entity", VObj [("id", VStr "pay_1")])])])].

Definition spaced_post (signature : string) : post :=
  {| post_headers := [("x-razorpay-signature", signature)]; post_body := spaced_text |}.

(** An environment with nothing set. *)
Definition bare : environment := fun _ => None.

(** A provider whose calls settle without a value. *)
Definition silent : Razorpay := {|
  orders_create := fun _ => Normal VUndefined;
  payments_fetch := fun _ => Normal VUndefined
|}.

(** GET /api/payment-status/pay_1. *)
Definition status_request : request :=
  {| headers := []; params := [("paymentId", "pay_1")]; body := VObj [] |}.

(** The signed payment without its signature, with its signature in upper
    case, and with a plan and a user added. *)
Definition unsigned_payment : request :=
  post_json [("razorpay_payment_id", VStr "pay_1");
             ("razorpay_order_id", VStr "order_1")].

Definition shouted_payment : request :=
  post_json [("razorpay_payment_id", VStr "pay_1");
             ("razorpay_order_id", VStr "order_1");
             ("razorpay_signature",
              VStr "44422D618D76E6E81C5F002F4D5108385750B52EB8DB4E9C7A4231DDFAC02840")].

Definition annotated_payment : request :=
  post_json [("razorpay_payment_id", VStr "pay_1");
             ("razorpay_order_id", VStr "order_1");
             ("razorpay_signature",
              VStr "44422d618d76e6e81c5f002f4d5108385750b52eb8db4e9c7a4231ddfac02840");
             ("planId", VStr "premium");
             ("userId", VStr "someone-else")].

(** Orders at the lower bound, with a word for amount, and with a number
    for user identifier. *)
Definition least_order : request :=
  post_json [("planId", VStr "p1"); ("userId", VStr "u1234567890");
             ("amount", num 100)].

Definition worded_order : request :=
  post_json [("planId", VStr "p1"); ("userId", VStr "u1234567890");
             ("amount", VStr "plenty")].

Definition numbered_order : request :=
  post_json [("planId", VStr "p1"); ("userId", num 1234567890);
             ("amount", num 50000)].

(** The captured payment without a signature header, as a request and as a
    post; a post with no body. *)
Definition unsigned_event : request :=
  {| headers := []; params := []; body := VObj captured |}.

Definition unsigned_post : post :=
  {| post_headers := [("Content-Type", "application/json"); ("Host", "localhost:5000")];
     post_body := spaced_text |}.

Definition empty_post : post := {| post_headers := []; post_body := "" |}.

(** The captured payment sent without spaces, signed as sent. *)
Definition compact_post : post :=
  {| post_headers := [("Content-Type", "application/json");
                      ("X-Razorpay-Signature", compact_signature)];
     post_body := compact_text |}.

(** The same with the signature header sent twice. *)
Definition doubled_post : post :=
  {| post_headers := [("x-razorpay-signature", compact_signature);
                      ("X-Razorpay-Signature", compact_signature)];
     post_body := compact_text |}.

(** An order whose user identifier is an array of one string, as a request
    and as the post it is read from. *)
Definition listed_order : request :=
  post_json [("planId", VStr "p1");
             ("userId", VArr [VStr "user_2f6c9e1b7a4d4c0e9f3a5b8d7c6e1f20"]);
             ("amount", num 50000)].

Definition listed_post : post :=
  {| post_headers := [];
     post_body :=
       quoted "{'planId':'p1','userId':['user_2f6c9e1b7a4d4c0e9f3a5b8d7c6e1f20'],'amount':50000}" |}.

(** An order with a negative amount. *)
Definition negative_order : request :=
  post_json [("planId", VStr "p1"); ("userId", VStr "u1"); ("amount", num (-5))].

End Sample.

(* ===================================================================== *)
(** * Properties *)
(* ===================================================================== *)

Arguments Num.to_string : simpl never.
Arguments Num.of_string : simpl never.
Arguments Num.of_Z : simpl never.
Arguments Str.slice : simpl never.
Arguments Crypto.hmac_sha256 : simpl never.
Arguments Crypto.hex : simpl never.
Arguments Crypto.utf8 : simpl never.
Arguments JSON.stringify : simpl never.

(** ** The run time on known values *)

Example number_of_text :
  map Num.of_string ["50"; " 12.5e1 "; "0x1F"; ""; "abc"; "-0"; "1e400"; "-Infinity"; "."]
  = [S754_finite false 7036874417766400 (-47);
     S754_finite false 8796093022208000 (-46);
     S754_finite false 8725724278030336 (-48);
     S754_zero false; S754_nan; S754_zero true;
     S754_infinity false; S754_infinity true; S754_nan].
Proof. vm_compute. reflexivity. Qed.

Example text_of_number :
  map (fun d => Num.to_string (Num.of_decimal false (fst d) (snd d)))
      [(1%N, -1); (1%N, 23); (5%N, -324); (17976931348623157%N, 292);
       (123456789012345680000%N, 0); (1%N, 21); (1%N, -6); (1%N, -7);
       (30000000000000004%N, -17); (9007199254740993%N, 0); (1730556000123%N, 0)]
  = ["0.1"; "1e+23"; "5e-324"; "1.7976931348623157e+308";
     "123456789012345680000"; "1e+21"; "0.000001"; "1e-7";
     "0.30000000000000004"; "9007199254740992"; "1730556000123"].
Proof. vm_compute. reflexivity. Qed.

Example time_as_text : Num.to_string (Num.of_Z Sample.now) = "1730556000123".
Proof. vm_compute. reflexivity. Qed.

Example coercions :
  Js.to_string (VArr [num 5; VNull; VArr [VStr "a"; VBool true]; VObj []])
  = Normal "5,,a,true,[object Object]"
  /\ Js.le (VStr " 50 ") (num 100) = Normal true
  /\ Js.le (VObj []) (num 0) = Normal false
  /\ Js.lt (VArr [num 7]) (num 100) = Normal true
  /\ Js.add (num 5) (VStr "|") = Normal (VStr "5|")
  /\ Js.slice (VStr "u1234567890") (-8) = Normal (VStr "34567890")
  /\ Js.slice (VStr "abc") (-8) = Normal (VStr "abc")
  /\ map Js.truthy [VUndefined; VNull; VStr ""; num 0; VNum Num.nan; VStr "0"; VArr []; VObj []]
     = [false; false; false; false; false; true; true; true].
Proof. repeat split; vm_compute; reflexivity. Qed.

(** FIPS 180-4's first and last constants, its digests of "abc" and of the
    empty message, test cases 2 and 6 of RFC 4231, and the UTF-8 bytes of a
    word with two accented letters. *)
Example sha256_vectors :
  nth 0 Crypto.K256 0 = 0x428a2f98 /\ nth 63 Crypto.K256 0 = 0xc67178f2
  /\ nth 0 Crypto.H0 0 = 0x6a09e667 /\ nth 7 Crypto.H0 0 = 0x5be0cd19
  /\ Crypto.hex (Crypto.sha256 (Crypto.utf8 "abc"))
     = "ba7816bf8f01cfea414140de5dae2223b00361a396177a9cb410ff61f20015ad"
  /\ Crypto.hex (Crypto.sha256 [])
     = "e3b0c44298fc1c149afbf4c8996fb92427ae41e4649b934ca495991b7852b855"
  /\ Crypto.createHmac_sha256_hex (Some "Jefe") (VStr "what do ya want for nothing?")
     = Normal "5bdcc146bf60754e6a042426089575c75a003f089d2739839dec58b964ec3843"
  /\ Crypto.hex (Crypto.hmac_sha256 (repeat 0xaa 131)
                   (Crypto.utf8 "Test Using Larger Than Block-Size Key - Hash Key First"))
     = "60e431591ee0b67f0d8a26aacbf5b77f8e0bc6213728c5140546040f0ee37f54"
  /\ Crypto.utf8 (String (ascii_of_N 233) "t" ++ String (ascii_of_N 233) "") = [0xc3; 0xa9; 116; 0xc3; 0xa9].
Proof. repeat split; vm_compute; reflexivity. Qed.

(** [JSON.parse] keeps the last of two equal keys in the place of the first,
    and lists index-like keys first; [JSON.stringify] writes no space. *)
Example json_round_trip :
  JSON.parse (Sample.quoted "{ 'b': [1, 2.50, -0, 1e3, true, null, 'x\ny'], '10': {}, '2': 'z', 'b': 'dup' }")
  = Accepted (VObj [("2", VStr "z"); ("10", VObj []); ("b", VStr "dup")])
  /\ JSON.stringify (VObj [("2", VStr "z"); ("10", VObj []); ("b", VArr [num 1; VUndefined]);
                           ("skipped", VUndefined); ("n", VNum (Num.of_decimal false 25 (-1)))])
     = VStr (Sample.quoted "{'2':'z','10':{},'b':[1,null],'n':2.5}")
  /\ map JSON.parse ["01"; "1."; "[1,]"; "tru"; "-"; "1 2"; ""]
     = [Refused; Refused; Refused; Refused; Refused; Refused; Refused]
  /\ express_json Sample.spaced_text = Accepted (VObj Sample.captured)
  /\ JSON.stringify (VObj Sample.captured) = VStr Sample.compact_text.
Proof. repeat split; vm_compute; reflexivity. Qed.

(** A text with an escape above 255 is neither read nor refused; header
    names are read without case and a header sent twice is joined, the
    cookies with a semicolon, and set-cookie is an array. *)
Example texts_and_headers :
  JSON.parse (Sample.quoted "{'event':'\u20b9'}") = Beyond
  /\ JSON.parse (Sample.quoted "{'event':'\u00e9\n'}")
     = Accepted (VObj [("event", VStr (String (ascii_of_N 233) (String (ascii_of_N 10) "")))])
  /\ JSON.parse (Sample.quoted "{'event':'\u00g9'}") = Refused
  /\ req_headers [("Host", "a"); ("X-Razorpay-Signature", "d1"); ("host", "b");
                  ("x-razorpay-signature", "d2"); ("Cookie", "a=1"); ("cookie", "b=2");
                  ("Set-Cookie", "c=3")]
     = [("host", VStr "a"); ("x-razorpay-signature", VStr "d1, d2");
        ("cookie", VStr "a=1; b=2"); ("set-cookie", VArr [VStr "c=3"])]
  /\ app_post (webhook Sample.cfg) Sample.compact_post
     = Accepted ([ConsoleLog [VStr "Payment captured:"; VObj [("id", VStr "pay_1")]]],
                 Normal {| status := 200; json := VObj [("received", VBool true)] |})
  /\ app_post (webhook Sample.cfg) Sample.doubled_post
     = Accepted ([], Normal {| status := 400;
                               json := VObj [("message", VStr "Invalid webhook signature")] |}).
Proof. repeat split; vm_compute; reflexivity. Qed.

Example iso_time :
  map toISOString [0; Sample.now; -1; 951782400000]
  = ["1970-01-01T00:00:00.000Z"; "2024-11-02T14:00:00.123Z";
     "1969-12-31T23:59:59.999Z"; "2000-02-29T00:00:00.000Z"].
Proof. vm_compute. reflexivity. Qed.

(** The first scenario of the specification: the order is created. *)
Example scenario_order_created :
  create_order Sample.accepting Sample.now Sample.order
  = ([ConsoleLog [VStr "Creating Razorpay order with options:";
                  VObj [("amount", num 50000); ("currency", VStr "INR");
                        ("receipt", VStr "order_56000123_34567890");
                        ("planId", VStr "p1"); ("userId", VStr "u1234567890")]];
      OrdersCreate (order_options (num 50000) (VStr "INR") "order_56000123_34567890"
                      (VStr "p1") (VStr "u1234567890"));
      ConsoleLog [VStr "Razorpay order created successfully:";
                  VObj [("orderId", VStr "order_1"); ("amount", num 50000);
                        ("currency", VStr "INR")]]],
     Normal {| status := 200;
               json := VObj [("success", VBool true); ("orderId", VStr "order_1");
                             ("amount", num 50000); ("currency", VStr "INR")] |}).
Proof. vm_compute. reflexivity. Qed.

(** The second scenario: an amount of 50 is out of range. *)
Example scenario_small_order :
  create_order Sample.accepting Sample.now Sample.small_order
  = ([], Normal {| status := 400;
                   json := VObj [("success", VBool false);
                                 ("message", VStr "Amount must be between ₹1 and ₹10,000")] |}).
Proof. vm_compute. reflexivity. Qed.

(** ** Numbers against the bounds of the order endpoint *)

Module NumFacts.

Lemma of_Z_0 : Num.of_Z 0 = S754_zero false.
Proof. reflexivity. Qed.

Lemma of_Z_100 : Num.of_Z 100 = S754_finite false 7036874417766400 (-46).
Proof. reflexivity. Qed.

Lemma of_Z_1000000 : Num.of_Z 1000000 = S754_finite false 8589934592000000 (-33).
Proof. reflexivity. Qed.

(** The number of binary digits brackets the mantissa. *)
Lemma digits2_pos_bounds (m : positive) :
  2 ^ (Zpos (digits2_pos m) - 1) <= Zpos m < 2 ^ Zpos (digits2_pos m).
Proof.
  induction m as [m IH | m IH |]; simpl digits2_pos.
  - rewrite Pos2Z.inj_succ.
    replace (Z.succ (Zpos (digits2_pos m)) - 1) with (Zpos (digits2_pos m) - 1 + 1) by lia.
    rewrite Z.pow_succ_r by lia.
    assert (0 <= Zpos (digits2_pos m) - 1) by lia.
    rewrite Z.pow_add_r by lia. change (2 ^ 1) with 2. lia.
  - rewrite Pos2Z.inj_succ.
    replace (Z.succ (Zpos (digits2_pos m)) - 1) with (Zpos (digits2_pos m) - 1 + 1) by lia.
    rewrite Z.pow_succ_r by lia.
    rewrite Z.pow_add_r by lia. change (2 ^ 1) with 2. lia.
  - simpl. lia.
Qed.

(** A valid finite Number has at most 53 digits, and exactly 53 unless its
    exponent is the least one. *)
Lemma valid_finite (s : bool) (m : positive) (e : Z) :
  Num.valid (S754_finite s m e) = true ->
  Zpos m < 2 ^ 53 /\ (-1074 < e -> 2 ^ 52 <= Zpos m) /\ -1074 <= e.
Proof.
  unfold Num.valid, valid_binary, bounded, canonical_mantissa, fexp, emin.
  unfold Num.prec, Num.emax. intros H.
  apply andb_prop in H. destruct H as [H _]. apply Z.eqb_eq in H.
  pose proof (digits2_pos_bounds m) as [Hlo Hhi].
  set (d := Zpos (digits2_pos m)) in *.
  assert (Hd : d <= 53) by lia.
  split; [| split].
  - eapply Z.lt_le_trans; [exact Hhi |]. apply Z.pow_le_mono_r; lia.
  - intros He. assert (d = 53) by lia. subst d. rewrite H0 in Hlo. exact Hlo.
  - lia.
Qed.

(** The value of a positive finite Number against an integer, in integers. *)
Lemma real_lt_iff (m : positive) (e z : Z) :
  (Num.real (S754_finite false m e) < inject_Z z)%Q <->
  (if 0 <=? e then Zpos m * 2 ^ e < z else Zpos m < z * 2 ^ (- e)).
Proof.
  unfold Num.real. destruct (0 <=? e) eqn:He.
  - unfold Qlt, inject_Z; cbn [Qnum Qden]. lia.
  - apply Z.leb_gt in He.
    assert (0 < 2 ^ (- e)) by (apply Z.pow_pos_nonneg; lia).
    unfold Qlt, inject_Z; cbn [Qnum Qden].
    rewrite Z2Pos.id by assumption. lia.
Qed.

Lemma real_gt_iff (m : positive) (e z : Z) :
  (inject_Z z < Num.real (S754_finite false m e))%Q <->
  (if 0 <=? e then z < Zpos m * 2 ^ e else z * 2 ^ (- e) < Zpos m).
Proof.
  unfold Num.real. destruct (0 <=? e) eqn:He.
  - unfold Qlt, inject_Z; cbn [Qnum Qden]. lia.
  - apply Z.leb_gt in He.
    assert (0 < 2 ^ (- e)) by (apply Z.pow_pos_nonneg; lia).
    unfold Qlt, inject_Z; cbn [Qnum Qden].
    rewrite Z2Pos.id by assumption. lia.
Qed.

Lemma real_negative (m : positive) (e : Z) :
  (Num.real (S754_finite true m e) <= inject_Z 0)%Q.
Proof.
  unfold Num.real. destruct (0 <=? e) eqn:He.
  - apply Z.leb_le in He.
    assert (0 < 2 ^ e) by (apply Z.pow_pos_nonneg; lia).
    unfold Qle, inject_Z; cbn [Qnum Qden]. nia.
  - unfold Qle, inject_Z; cbn [Qnum Qden]. lia.
Qed.

Lemma real_positive (m : positive) (e : Z) :
  ~ (Num.real (S754_finite false m e) <= inject_Z 0)%Q.
Proof.
  unfold Num.real. destruct (0 <=? e) eqn:He.
  - apply Z.leb_le in He.
    assert (0 < 2 ^ e) by (apply Z.pow_pos_nonneg; lia).
    unfold Qle, inject_Z; cbn [Qnum Qden]. nia.
  - unfold Qle, inject_Z; cbn [Qnum Qden]. lia.
Qed.

(** [x <= 0] as the language computes it is [x <= 0] on the real line. *)
Lemma leb_0_iff (x : Num.number) :
  Num.leb x (Num.of_Z 0) = true <-> Num.at_most x 0.
Proof.
  rewrite of_Z_0. destruct x as [s | s | | s m e]; simpl.
  - unfold Num.leb, SFleb; simpl. split; [intros _ | reflexivity].
    unfold Qle; simpl; lia.
  - unfold Num.leb, SFleb; simpl. destruct s; split; congruence.
  - unfold Num.leb, SFleb; simpl. split; [discriminate | tauto].
  - unfold Num.leb, SFleb; simpl. destruct s.
    + split; [intros _; apply real_negative | reflexivity].
    + split; [discriminate | intros H; destruct (real_positive m e H)].
Qed.

Lemma compare_cont_Eq (p q : positive) :
  Pos.compare_cont Eq p q = (p ?= q)%positive.
Proof. reflexivity. Qed.

Lemma negative_below (m : positive) (e z : Z) :
  0 <= z -> (Num.real (S754_finite true m e) < inject_Z (z + 1))%Q.
Proof.
  intros Hz. eapply Qle_lt_trans; [apply real_negative |].
  unfold Qlt, inject_Z; cbn [Qnum Qden]. lia.
Qed.

Lemma negative_not_above (m : positive) (e z : Z) :
  0 <= z -> ~ (inject_Z z < Num.real (S754_finite true m e))%Q.
Proof.
  intros Hz H. pose proof (real_negative m e) as Hn.
  apply (Qlt_irrefl (inject_Z z)). eapply Qlt_le_trans; [exact H |].
  eapply Qle_trans; [exact Hn |].
  unfold Qle, inject_Z; cbn [Qnum Qden]. lia.
Qed.

(** [x < 100] as the language computes it, for a binary64 [x]. *)
Lemma ltb_100_iff (x : Num.number) :
  Num.valid x = true ->
  (Num.ltb x (Num.of_Z 100) = true <-> Num.below x 100).
Proof.
  rewrite of_Z_100. intros Hv. destruct x as [s | s | | s m e].
  - unfold Num.ltb, SFltb; simpl. split; [intros _ | reflexivity].
    unfold Qlt; simpl; lia.
  - unfold Num.ltb, SFltb; simpl. destruct s; split; congruence.
  - unfold Num.ltb, SFltb; simpl. split; [discriminate | tauto].
  - destruct s.
    + unfold Num.ltb, SFltb; simpl. split; [intros _ | reflexivity].
      apply (negative_below m e 99). lia.
    + destruct (valid_finite _ _ _ Hv) as (Hhi & Hlo & Hmin).
      unfold Num.below. rewrite real_lt_iff.
      unfold Num.ltb, SFltb, SFcompare.
      destruct (Z.compare_spec e (-46)) as [He | He | He].
      * subst e. clear Hv Hlo Hmin Hhi.
        change (0 <=? -46) with false. cbv iota.
        change (2 ^ (- -46)) with 70368744177664.
        rewrite compare_cont_Eq.
        destruct (Pos.compare_spec m 7036874417766400) as [Hm | Hm | Hm];
          [ subst m | apply Pos2Z.pos_lt_pos in Hm | apply Pos2Z.pos_lt_pos in Hm ];
          split; intros H; try discriminate; try reflexivity; lia.
      * split; [intros _ | reflexivity].
        destruct (0 <=? e) eqn:H0; [apply Z.leb_le in H0; lia |].
        assert (2 ^ 47 <= 2 ^ (- e)) by (apply Z.pow_le_mono_r; lia).
        change (2 ^ 47) with 140737488355328 in *.
        change (2 ^ 53) with 9007199254740992 in *. lia.
      * split; [discriminate | intros H; exfalso].
        assert (Hm : 2 ^ 52 <= Zpos m) by (apply Hlo; lia).
        change (2 ^ 52) with 4503599627370496 in *.
        destruct (0 <=? e) eqn:H0.
        -- apply Z.leb_le in H0.
           assert (0 < 2 ^ e) by (apply Z.pow_pos_nonneg; lia). nia.
        -- apply Z.leb_gt in H0.
           assert (2 ^ (- e) <= 2 ^ 45) by (apply Z.pow_le_mono_r; lia).
           change (2 ^ 45) with 35184372088832 in *. lia.
Qed.

(** [x > 1000000] as the language computes it, for a binary64 [x]. *)
Lemma gtb_1000000_iff (x : Num.number) :
  Num.valid x = true ->
  (Num.gtb x (Num.of_Z 1000000) = true <-> Num.above x 1000000).
Proof.
  rewrite of_Z_1000000. intros Hv. destruct x as [s | s | | s m e].
  - unfold Num.gtb, SFltb; simpl. split; [discriminate | ].
    unfold Qlt; simpl; lia.
  - unfold Num.gtb, SFltb; simpl. destruct s; split; congruence.
  - unfold Num.gtb, SFltb; simpl. split; [discriminate | tauto].
  - destruct s.
    + unfold Num.gtb, SFltb; simpl. split; [discriminate | intros H; exfalso].
      apply (negative_not_above m e 1000000); [lia | exact H].
    + destruct (valid_finite _ _ _ Hv) as (Hhi & Hlo & Hmin).
      unfold Num.above. rewrite real_gt_iff.
      unfold Num.gtb, SFltb, SFcompare.
      destruct (Z.compare_spec (-33) e) as [He | He | He].
      * subst e. clear Hv Hlo Hmin Hhi.
        change (0 <=? -33) with false. cbv iota.
        change (2 ^ (- -33)) with 8589934592.
        rewrite compare_cont_Eq.
        destruct (Pos.compare_spec 8589934592000000 m) as [Hm | Hm | Hm];
          [ subst m | apply Pos2Z.pos_lt_pos in Hm | apply Pos2Z.pos_lt_pos in Hm ];
          split; intros H; try discriminate; try reflexivity; lia.
      * split; [intros _ | reflexivity].
        assert (Hm : 2 ^ 52 <= Zpos m) by (apply Hlo; lia).
        change (2 ^ 52) with 4503599627370496 in *.
        destruct (0 <=? e) eqn:H0.
        -- apply Z.leb_le in H0.
           assert (0 < 2 ^ e) by (apply Z.pow_pos_nonneg; lia). nia.
        -- apply Z.leb_gt in H0.
           assert (2 ^ (- e) <= 2 ^ 32) by (apply Z.pow_le_mono_r; lia).
           change (2 ^ 32) with 4294967296 in *. lia.
      * split; [discriminate | intros H; exfalso].
        destruct (0 <=? e) eqn:H0; [apply Z.leb_le in H0; lia |].
        assert (2 ^ 34 <= 2 ^ (- e)) by (apply Z.pow_le_mono_r; lia).
        change (2 ^ 34) with 17179869184 in *.
        change (2 ^ 53) with 9007199254740992 in *. lia.
Qed.

End NumFacts.

(** ** Running a handler *)

Lemma bind_normal {A B} (a : A) (k : A -> M B) : bind ([], Normal a) k = k a.
Proof. unfold bind. destruct (k a). reflexivity. Qed.

Lemma bind_emit {B} (e : effect) (k : unit -> M B) :
  bind (emit e) k = (e :: fst (k tt), snd (k tt)).
Proof. unfold bind, emit. destruct (k tt). reflexivity. Qed.

Lemma destructure_get (b : value) (k : string) (v : value) :
  Js.get b k = Normal v -> destructure b k = ([], Normal v).
Proof.
  destruct b; simpl; intros H; try discriminate; unfold lift; simpl; congruence.
Qed.

(** Destructuring a body that has properties reads each of them. *)
Lemma get_total (b : value) (k k' : string) (v : value) :
  Js.get b k = Normal v -> exists v', Js.get b k' = Normal v'.
Proof.
  destruct b; simpl; intros H; try discriminate; eauto.
Qed.

(** The comparisons of the order endpoint, on an amount with a numeric value. *)
Section Comparisons.

Variable a : value.
Variable n : Num.number.
Hypothesis Hn : Js.to_number a = Normal n.

Lemma le_zero : Js.le a (num 0) = Normal (Num.leb n (Num.of_Z 0)).
Proof.
  unfold Js.to_number in Hn. unfold Js.le, Js.relational, num.
  destruct (Js.to_primitive a) as [p | e]; [| discriminate].
  injection Hn as <-. simpl Js.to_primitive. cbv iota. f_equal.
  rewrite NumFacts.of_Z_0.
  unfold Js.prim_less, Num.leb, SFleb.
  change (Js.prim_to_number (VNum (S754_zero false))) with (S754_zero false).
  destruct (Js.prim_to_number p) as [s | s | | s m e]; try destruct s; reflexivity.
Qed.

Lemma lt_number (z : Z) : Js.lt a (num z) = Normal (Num.ltb n (Num.of_Z z)).
Proof.
  unfold Js.to_number in Hn. unfold Js.lt, Js.relational, num.
  destruct (Js.to_primitive a) as [p | e]; [| discriminate].
  injection Hn as <-. simpl Js.to_primitive. cbv iota. f_equal.
  unfold Js.prim_less, Num.ltb, SFltb.
  change (Js.prim_to_number (VNum (Num.of_Z z))) with (Num.of_Z z).
  destruct p; destruct (SFcompare _ (Num.of_Z z)) as [[ | | ] |]; reflexivity.
Qed.

Lemma gt_number (z : Z) : Js.gt a (num z) = Normal (Num.gtb n (Num.of_Z z)).
Proof.
  unfold Js.to_number in Hn. unfold Js.gt, Js.relational, num.
  destruct (Js.to_primitive a) as [p | e]; [| discriminate].
  injection Hn as <-. simpl Js.to_primitive. cbv iota. f_equal.
  unfold Js.prim_less, Num.gtb, SFltb.
  change (Js.prim_to_number (VNum (Num.of_Z z))) with (Num.of_Z z).
  destruct p; destruct (SFcompare (Num.of_Z z) _) as [[ | | ] |]; reflexivity.
Qed.

End Comparisons.

(** ** The order endpoint *)

Section CreateOrder.

Variable sdk : Razorpay.
Variable now : Z.

(** Once the four fields are read, the checks run on them. *)
Lemma create_order_try_fields (req : request) (planId userId amount given : value) :
  Js.get (body req) "planId" = Normal planId ->
  Js.get (body req) "userId" = Normal userId ->
  Js.get (body req) "amount" = Normal amount ->
  Js.get (body req) "currency" = Normal given ->
  create_order_try sdk now req = validate sdk now planId userId amount (or_INR given).
Proof.
  intros Hp Hu Ha Hg. unfold create_order_try.
  rewrite (destructure_get _ _ _ Hp), bind_normal.
  rewrite (destructure_get _ _ _ Hu), bind_normal.
  rewrite (destructure_get _ _ _ Ha), bind_normal.
  rewrite (destructure_get _ _ _ Hg), bind_normal.
  reflexivity.
Qed.

Lemma try_catch_normal {A} (t : list effect) (a : A) (h : value -> M A) :
  try_catch (t, Normal a) h = (t, Normal a).
Proof. reflexivity. Qed.

Lemma validate_missing (planId userId amount currency : value) :
  Js.truthy planId && Js.truthy userId && Js.truthy amount = false ->
  validate sdk now planId userId amount currency = missing_fields.
Proof.
  intros H. unfold validate.
  replace (negb (Js.truthy planId) || negb (Js.truthy userId) || negb (Js.truthy amount))
    with true; [reflexivity |].
  destruct (Js.truthy planId), (Js.truthy userId), (Js.truthy amount);
    simpl in *; congruence.
Qed.

(** An amount whose numeric value is outside the bounds stops at one of the
    checks, whatever the other fields are. *)
Lemma validate_out_of_bounds (planId userId amount currency : value) (n : Num.number) :
  Js.to_number amount = Normal n ->
  Num.valid n = true ->
  Num.at_most n 0 \/ Num.below n 100 \/ Num.above n 1000000 ->
  exists r, validate sdk now planId userId amount currency = ([], Normal r)
            /\ status r = 400.
Proof.
  intros Hn Hv Hout. unfold validate.
  destruct (negb (Js.truthy planId) || negb (Js.truthy userId) || negb (Js.truthy amount)).
  { eexists; split; reflexivity. }
  rewrite (le_zero _ _ Hn). unfold lift. rewrite bind_normal.
  destruct (Num.leb n (Num.of_Z 0)) eqn:Hle.
  { eexists; split; reflexivity. }
  destruct (negb (Js.is_string currency "INR")).
  { eexists; split; reflexivity. }
  rewrite (lt_number _ _ Hn), bind_normal.
  destruct (Num.ltb n (Num.of_Z 100)) eqn:Hlt.
  { unfold ret. rewrite bind_normal. eexists; split; reflexivity. }
  rewrite (gt_number _ _ Hn), bind_normal.
  destruct (Num.gtb n (Num.of_Z 1000000)) eqn:Hgt.
  { eexists; split; reflexivity. }
  exfalso. destruct Hout as [H | [H | H]].
  - apply NumFacts.leb_0_iff in H. congruence.
  - apply (NumFacts.ltb_100_iff n Hv) in H. congruence.
  - apply (NumFacts.gtb_1000000_iff n Hv) in H. congruence.
Qed.

End CreateOrder.

(** ** What every answer of a handler satisfies *)

Lemma answers_bind {A} (P : response -> Prop) (c : M A) (k : A -> M response) :
  (forall a, answers P (k a)) -> answers P (bind c k).
Proof.
  intros H. destruct c as [t [a | e]]; unfold bind; [| exact I].
  specialize (H a). destruct (k a) as [t' r]. exact H.
Qed.

Lemma answers_try_catch (P : response -> Prop) (b : M response) (h : value -> M response) :
  answers P b -> (forall e, answers P (h e)) -> answers P (try_catch b h).
Proof.
  intros Hb Hh. destruct b as [t [a | e]]; unfold try_catch; [exact Hb |].
  specialize (Hh e). destruct (h e) as [t' r]. exact Hh.
Qed.

Lemma answers_normal (P : response -> Prop) (m : M response) (r : response) :
  answers P m -> snd m = Normal r -> P r.
Proof. unfold answers. intros H E. rewrite E in H. exact H. Qed.

(** Walks a handler down to its answers. *)
Ltac walk :=
  repeat first
    [ apply answers_bind; intros ?
    | match goal with
      | |- answers _ (if ?b then _ else _) => destruct b
      | |- answers _ (let '(_, _) := ?x in _) => destruct x
      end ].

Ltac answer :=
  unfold answers, missing_fields, amount_not_positive, unsupported_currency,
    amount_out_of_range, res_json, ret; cbn [snd fst status json].

(** C9. A create-order request whose amount is absent or is zero, or whose
    planId or userId is the empty string, is answered 400 with the message
    about missing required fields, which is neither the message about a
    positive amount nor the one about the range: the three fields are tested
    for falsiness before any comparison. *)
Theorem create_order_falsy_field_is_missing
    (sdk : Razorpay) (now : Z) (req : request) (planId userId amount : value) :
  Js.get (body req) "planId" = Normal planId ->
  Js.get (body req) "userId" = Normal userId ->
  Js.get (body req) "amount" = Normal amount ->
  amount = VUndefined \/ (exists sign, amount = VNum (S754_zero sign))
  \/ planId = VStr "" \/ userId = VStr "" ->
  create_order sdk now req =
    ([], Normal {| status := 400;
                   json := VObj [("success", VBool false);
                                 ("message", VStr "Missing required fields: planId, userId, and amount are required")] |}).
Proof.
  intros Hp Hu Ha Hfalsy.
  destruct (get_total _ _ "currency" _ Ha) as [given Hg].
  unfold create_order.
  rewrite (create_order_try_fields sdk now req _ _ _ _ Hp Hu Ha Hg).
  rewrite validate_missing; [reflexivity |].
  destruct Hfalsy as [-> | [[sign ->] | [-> | ->]]]; simpl;
    repeat rewrite andb_false_r; reflexivity.
Qed.

(** C3. A create-order request whose amount, as a number, is at most 0, below
    100 or above 1000000 is answered 400, and nothing else happens: the
    provider's order creation is not called.  The amount may be any value with
    a numeric value [n] (a Number, or what the comparisons convert to one);
    [Num.valid n] says that [n] is a binary64, as every Number is, and the
    bounds are read on the real line. *)
Theorem create_order_rejects_amount_out_of_bounds
    (sdk : Razorpay) (now : Z) (req : request) (amount : value) (n : Num.number) :
  Js.get (body req) "amount" = Normal amount ->
  Js.to_number amount = Normal n ->
  Num.valid n = true ->
  Num.at_most n 0 \/ Num.below n 100 \/ Num.above n 1000000 ->
  exists r, snd (create_order sdk now req) = Normal r
            /\ status r = 400
            /\ provider_calls (fst (create_order sdk now req)) = [].
Proof.
  intros Ha Hn Hv Hout.
  destruct (get_total _ _ "planId" _ Ha) as [planId Hp].
  destruct (get_total _ _ "userId" _ Ha) as [userId Hu].
  destruct (get_total _ _ "currency" _ Ha) as [given Hg].
  unfold create_order.
  rewrite (create_order_try_fields sdk now req _ _ _ _ Hp Hu Ha Hg).
  destruct (validate_out_of_bounds sdk now planId userId amount (or_INR given) n Hn Hv Hout)
    as (r & -> & Hr).
  exists r. rewrite try_catch_normal. simpl. auto.
Qed.

(** C4. A create-order request whose currency is present and is not "INR" is
    answered 400 (the amount being a value the comparison with 0 can
    convert).  A request without a currency is handled as the same request
    with the currency "INR", and is never answered that only INR is
    supported. *)
Theorem create_order_currency
    (sdk : Razorpay) (now : Z) (req : request)
    (planId userId amount given : value) :
  Js.get (body req) "planId" = Normal planId ->
  Js.get (body req) "userId" = Normal userId ->
  Js.get (body req) "amount" = Normal amount ->
  Js.get (body req) "currency" = Normal given ->
  (given <> VUndefined -> given <> VStr "INR" ->
   (exists p, Js.to_primitive amount = Normal p) ->
   exists r, create_order sdk now req = ([], Normal r) /\ status r = 400)
  /\
  (given = VUndefined ->
   (forall req',
      Js.get (body req') "planId" = Normal planId ->
      Js.get (body req') "userId" = Normal userId ->
      Js.get (body req') "amount" = Normal amount ->
      Js.get (body req') "currency" = Normal (VStr "INR") ->
      create_order sdk now req = create_order sdk now req')
   /\
   (forall r, snd (create_order sdk now req) = Normal r ->
              json r <> VObj [("success", VBool false);
                              ("message", VStr "Only INR currency is supported")])).
Proof.
  intros Hp Hu Ha Hg. split.
  - intros Hdef Hinr [p Hprim].
    unfold create_order.
    rewrite (create_order_try_fields sdk now req _ _ _ _ Hp Hu Ha Hg).
    assert (Hcur : Js.is_string (or_INR given) "INR" = false).
    { destruct given; try reflexivity; [congruence |].
      simpl. apply String.eqb_neq. congruence. }
    assert (Hn : Js.to_number amount = Normal (Js.prim_to_number p)).
    { unfold Js.to_number. rewrite Hprim. reflexivity. }
    unfold validate.
    destruct (negb (Js.truthy planId) || negb (Js.truthy userId) || negb (Js.truthy amount)).
    { eexists; split; reflexivity. }
    rewrite (le_zero _ _ Hn). unfold lift. rewrite bind_normal.
    destruct (Num.leb _ _).
    { eexists; split; reflexivity. }
    rewrite Hcur. eexists; split; reflexivity.
  - intros ->. split.
    + intros req' Hp' Hu' Ha' Hg'. unfold create_order.
      rewrite (create_order_try_fields sdk now req _ _ _ _ Hp Hu Ha Hg).
      rewrite (create_order_try_fields sdk now req' _ _ _ _ Hp' Hu' Ha' Hg').
      reflexivity.
    + intros r Hr.
      apply (answers_normal
               (fun r0 => json r0 <> VObj [("success", VBool false);
                                           ("message", VStr "Only INR currency is supported")])
               (create_order sdk now req) r); [| exact Hr].
      unfold create_order. apply answers_try_catch.
      * rewrite (create_order_try_fields sdk now req _ _ _ _ Hp Hu Ha Hg).
        unfold validate, place_order. simpl or_INR. simpl Js.is_string.
        walk; answer; discriminate.
      * intros e. unfold create_order_catch. walk; answer; discriminate.
Qed.

(** ** Strings *)

Lemma length_append (a b : string) :
  String.length (a ++ b) = (String.length a + String.length b)%nat.
Proof. induction a as [| c a IH]; simpl; [reflexivity | rewrite IH; reflexivity]. Qed.

Lemma substring_all (s : string) : substring 0 (String.length s) s = s.
Proof. induction s as [| c s IH]; simpl; [reflexivity | rewrite IH; reflexivity]. Qed.

(** The substring from [n] to the end is what follows the first [n] characters. *)
Lemma substring_suffix (s : string) (n : nat) :
  (n <= String.length s)%nat ->
  exists front, s = front ++ substring n (String.length s - n) s
                /\ String.length front = n.
Proof.
  revert n. induction s as [| c s IH]; intros n Hn.
  - simpl in Hn. assert (n = 0%nat) by lia. subst n. exists EmptyString. split; reflexivity.
  - destruct n as [| n].
    + exists EmptyString. rewrite Nat.sub_0_r, substring_all. split; reflexivity.
    + simpl in Hn. destruct (IH n) as (front & Hs & Hlen); [lia |].
      exists (String c front). simpl. split; [f_equal; exact Hs | f_equal; exact Hlen].
Qed.

(** [s.slice(-n)] is the last [n] characters of [s]. *)
Lemma slice_last_chars (s : string) (n : nat) :
  (0 < n)%nat -> last_chars n s (Str.slice s (- Z.of_nat n)).
Proof.
  intros Hn. unfold Str.slice, last_chars.
  set (len := String.length s).
  assert (Hneg : (- Z.of_nat n <? 0) = true) by (apply Z.ltb_lt; lia).
  rewrite Hneg.
  assert (Hfrom : Z.max (Z.of_nat len + - Z.of_nat n) 0 = Z.of_nat (len - n)) by lia.
  rewrite Hfrom, Nat2Z.id.
  replace (Z.to_nat (Z.of_nat len - Z.of_nat (len - n))) with (len - (len - n))%nat by lia.
  destruct (substring_suffix s (len - n)) as (front & Hs & Hlen); [unfold len; lia |].
  fold len in Hs. split.
  - exists front. exact Hs.
  - assert (Hl : String.length s = (String.length front
                   + String.length (substring (len - n) (len - (len - n)) s))%nat).
    { rewrite <- length_append, <- Hs. reflexivity. }
    fold len in Hl. lia.
Qed.

Lemma last_chars_length (n : nat) (s t : string) :
  last_chars n s t -> (String.length t <= n)%nat.
Proof. intros [_ H]. lia. Qed.

(** ** Counting the calls to the provider *)

Lemma calls_bind {A B} (c : M A) (k : A -> M B) (n : nat) :
  calls c = 0%nat -> (forall a, (calls (k a) <= n)%nat) -> (calls (bind c k) <= n)%nat.
Proof.
  unfold calls, provider_calls. intros Hc Hk.
  destruct c as [t [a | e]]; unfold bind; simpl in *.
  - specialize (Hk a). destruct (k a) as [t' r]. simpl in *.
    rewrite filter_app, length_app. lia.
  - lia.
Qed.

Lemma calls_bind_call {B} (e : effect) (k : unit -> M B) (n : nat) :
  (calls (k tt) <= n)%nat -> (calls (bind (emit e) k) <= S n)%nat.
Proof.
  rewrite bind_emit. unfold calls, provider_calls. simpl.
  destruct (is_provider_call e); simpl; lia.
Qed.

Lemma calls_try_catch {A} (b : M A) (h : value -> M A) (n : nat) :
  (calls b <= n)%nat -> (forall e, calls (h e) = 0%nat) -> (calls (try_catch b h) <= n)%nat.
Proof.
  unfold calls, provider_calls. intros Hb Hh.
  destruct b as [t [a | e]]; unfold try_catch; simpl in *; [exact Hb |].
  specialize (Hh e). destruct (h e) as [t' r]. simpl in *.
  rewrite filter_app, length_app. lia.
Qed.

Lemma calls_destructure (b : value) (k : string) : calls (destructure b k) = 0%nat.
Proof. destruct b; reflexivity. Qed.

Lemma calls_none {A} (m : M A) : (calls m <= 0)%nat -> provider_calls (fst m) = [].
Proof. unfold calls. intros H. apply length_zero_iff_nil. lia. Qed.

(** Walks a handler, counting. *)
Ltac count :=
  repeat first
    [ match goal with
      | |- (calls (if ?b then _ else _) <= _)%nat => destruct b
      | |- (calls (bind (if ?b then _ else _) _) <= _)%nat => destruct b
      end
    | apply calls_bind; [first [reflexivity | apply calls_destructure] | intros ?]
    | apply calls_bind_call ];
  try (unfold calls; simpl; lia).

(** ** Placing the order *)

Section PlaceOrder.

Variable sdk : Razorpay.
Variable now : Z.

Lemma validate_passes (planId userId amount currency : value) :
  passes_validation planId userId amount currency ->
  validate sdk now planId userId amount currency
  = place_order sdk now planId userId amount currency.
Proof.
  intros (Hp & Hu & Ha & Hle & Hc & Hlt & Hgt). unfold validate.
  rewrite Hp, Hu, Ha. simpl negb. simpl orb. cbv iota.
  rewrite Hle. unfold lift. rewrite bind_normal.
  rewrite Hc. simpl negb. cbv iota.
  rewrite Hlt, bind_normal. rewrite Hgt, bind_normal.
  reflexivity.
Qed.

(** What follows the call of the provider makes no further call. *)
Lemma after_call_quiet (settled : completion value) :
  (calls (order <- lift settled ;;
          order_id <- lift (Js.get order "id") ;;
          order_amount <- lift (Js.get order "amount") ;;
          order_currency <- lift (Js.get order "currency") ;;
          emit (ConsoleLog
                  [VStr "Razorpay order created successfully:";
                   VObj [("orderId", order_id);
                         ("amount", order_amount);
                         ("currency", order_currency)]]) ;;;
          res_json 200 [("success", VBool true);
                        ("orderId", order_id);
                        ("amount", order_amount);
                        ("currency", order_currency)]) <= 0)%nat.
Proof. count. Qed.

Lemma create_order_catch_quiet (error : value) : calls (create_order_catch error) = 0%nat.
Proof.
  assert (calls (create_order_catch error) <= 0)%nat; [| lia].
  unfold create_order_catch. count.
Qed.

(** With a string for user identifier, the order is placed with the receipt
    of [receipt_for], in one call. *)
Lemma place_order_calls (planId amount currency : value) (u : string) :
  provider_calls (fst (place_order sdk now planId (VStr u) amount currency))
  = [OrdersCreate (order_options amount currency (receipt_for now u) planId (VStr u))].
Proof.
  unfold place_order. simpl Js.slice. unfold lift. rewrite bind_normal.
  simpl Js.to_string. rewrite bind_normal.
  fold (receipt_for now u).
  rewrite bind_emit. cbn [fst]. rewrite bind_emit. cbn [fst].
  unfold provider_calls. simpl filter. f_equal.
  apply (calls_none (A := response)). apply after_call_quiet.
Qed.

(** When the provider rejects, the [try] block ends by throwing its reason. *)
Lemma place_order_rejected (planId amount currency : value) (u : string) (reason : value) :
  orders_create sdk (order_options amount currency (receipt_for now u) planId (VStr u))
  = Throw reason ->
  snd (place_order sdk now planId (VStr u) amount currency) = Throw reason.
Proof.
  intros H. unfold place_order. simpl Js.slice. unfold lift. rewrite bind_normal.
  simpl Js.to_string. rewrite bind_normal.
  fold (receipt_for now u).
  rewrite bind_emit. cbn [snd]. rewrite bind_emit. cbn [snd].
  rewrite H. reflexivity.
Qed.

End PlaceOrder.

Lemma try_catch_calls {A} (b : M A) (h : value -> M A) :
  (forall e, calls (h e) = 0%nat) ->
  provider_calls (fst (try_catch b h)) = provider_calls (fst b).
Proof.
  intros Hh. destruct b as [t [a | e]]; unfold try_catch; [reflexivity |].
  specialize (Hh e). destruct (h e) as [t' r]. cbn [fst] in *.
  unfold provider_calls. rewrite filter_app.
  unfold calls, provider_calls in Hh. cbn [fst] in Hh.
  apply length_zero_iff_nil in Hh. rewrite Hh. apply app_nil_r.
Qed.

Lemma try_catch_throw {A} (b : M A) (h : value -> M A) (e : value) :
  snd b = Throw e -> snd (try_catch b h) = snd (h e).
Proof.
  destruct b as [t [a | e']]; cbn [snd]; intros H; [discriminate |].
  injection H as ->. unfold try_catch. destruct (h e). reflexivity.
Qed.

(** The [catch] block on an error that carries a description. *)
Lemma create_order_catch_described (error inner description code : value) (text : string) :
  Js.get error "error" = Normal inner ->
  Js.truthy inner = true ->
  Js.get inner "description" = Normal description ->
  Js.truthy description = true ->
  Js.to_string description = Normal text ->
  Js.get inner "code" = Normal code ->
  snd (create_order_catch error)
  = Normal {| status := 400;
              json := VObj [("success", VBool false);
                            ("message", VStr ("Payment Error: " ++ text));
                            ("errorCode", code)] |}.
Proof.
  intros Hi Hti Hd Htd Ht Hc. unfold create_order_catch.
  rewrite bind_emit. cbn [snd].
  rewrite Hi. unfold lift. rewrite bind_normal.
  rewrite Hti, Hd, bind_normal. rewrite Htd.
  rewrite Ht, bind_normal. rewrite Hc, bind_normal.
  reflexivity.
Qed.

(** The [catch] block on any other error that has properties. *)
Lemma create_order_catch_generic (error inner : value) :
  Js.get error "error" = Normal inner ->
  Js.truthy inner = false
  \/ (exists description,
        Js.get inner "description" = Normal description
        /\ Js.truthy description = false) ->
  snd (create_order_catch error)
  = Normal {| status := 500;
              json := VObj [("success", VBool false);
                            ("message", VStr "Failed to create order. Please try again.")] |}.
Proof.
  intros Hi Hno. unfold create_order_catch.
  rewrite bind_emit. cbn [snd].
  rewrite Hi. unfold lift. rewrite bind_normal.
  destruct (Js.truthy inner) eqn:Hti.
  - destruct Hno as [Hf | (description & Hd & Htd)]; [discriminate |].
    rewrite Hd, bind_normal. rewrite Htd. reflexivity.
  - unfold ret. rewrite bind_normal. rewrite Hti. reflexivity.
Qed.

(** X28. For a create-order request that passes validation and whose user
    identifier is a string, the provider is called once, with the amount and
    the currency of the request, the plan and the user as notes, and a
    receipt made of "order_", the last 8 characters of the current time as a
    string, "_" and the last 8 characters of the user identifier; that
    receipt is shorter than 40 characters. *)
Theorem create_order_receipt
    (sdk : Razorpay) (now : Z) (req : request)
    (planId amount given : value) (u : string) :
  Js.get (body req) "planId" = Normal planId ->
  Js.get (body req) "userId" = Normal (VStr u) ->
  Js.get (body req) "amount" = Normal amount ->
  Js.get (body req) "currency" = Normal given ->
  passes_validation planId (VStr u) amount (or_INR given) ->
  exists stamp tail,
    provider_calls (fst (create_order sdk now req))
    = [OrdersCreate (VObj [("amount", amount);
                           ("currency", or_INR given);
                           ("receipt", VStr ("order_" ++ stamp ++ "_" ++ tail));
                           ("notes", VObj [("planId", planId); ("userId", VStr u)])])]
    /\ last_chars 8 (Num.to_string (Num.of_Z now)) stamp
    /\ last_chars 8 u tail
    /\ (String.length ("order_" ++ stamp ++ "_" ++ tail) < 40)%nat.
Proof.
  intros Hp Hu Ha Hg Hpass.
  exists (Str.slice (Num.to_string (Num.of_Z now)) (-8)), (Str.slice u (-8)).
  pose proof (slice_last_chars (Num.to_string (Num.of_Z now)) 8 ltac:(lia)) as Hstamp.
  pose proof (slice_last_chars u 8 ltac:(lia)) as Htail.
  change (- Z.of_nat 8) with (-8) in Hstamp, Htail.
  split; [| split; [exact Hstamp | split; [exact Htail |]]].
  - unfold create_order.
    rewrite (try_catch_calls _ _ create_order_catch_quiet).
    rewrite (create_order_try_fields sdk now req _ _ _ _ Hp Hu Ha Hg).
    rewrite (validate_passes sdk now _ _ _ _ Hpass).
    apply place_order_calls.
  - apply last_chars_length in Hstamp, Htail.
    rewrite !length_append. simpl String.length. lia.
Qed.

(** C7. On a create-order request that passes validation and whose provider
    call rejects: when the rejection carries an error with a description,
    the answer is 400 with the description in the message and the error's
    code as errorCode; when it carries no error, or an error without a
    description, the answer is 500 with the generic message. *)
Theorem create_order_provider_failure
    (sdk : Razorpay) (now : Z) (req : request)
    (planId amount given reason : value) (u : string) :
  Js.get (body req) "planId" = Normal planId ->
  Js.get (body req) "userId" = Normal (VStr u) ->
  Js.get (body req) "amount" = Normal amount ->
  Js.get (body req) "currency" = Normal given ->
  passes_validation planId (VStr u) amount (or_INR given) ->
  orders_create sdk (order_options amount (or_INR given) (receipt_for now u) planId (VStr u))
  = Throw reason ->
  (forall (inner description code : value) (text : string),
     Js.get reason "error" = Normal inner ->
     Js.truthy inner = true ->
     Js.get inner "description" = Normal description ->
     Js.truthy description = true ->
     Js.to_string description = Normal text ->
     Js.get inner "code" = Normal code ->
     snd (create_order sdk now req)
     = Normal {| status := 400;
                 json := VObj [("success", VBool false);
                               ("message", VStr ("Payment Error: " ++ text));
                               ("errorCode", code)] |})
  /\
  (forall inner : value,
     Js.get reason "error" = Normal inner ->
     Js.truthy inner = false
     \/ (exists description,
           Js.get inner "description" = Normal description
           /\ Js.truthy description = false) ->
     snd (create_order sdk now req)
     = Normal {| status := 500;
                 json := VObj [("success", VBool false);
                               ("message", VStr "Failed to create order. Please try again.")] |}).
Proof.
  intros Hp Hu Ha Hg Hpass Hrej.
  assert (Hthrow : snd (create_order_try sdk now req) = Throw reason).
  { rewrite (create_order_try_fields sdk now req _ _ _ _ Hp Hu Ha Hg).
    rewrite (validate_passes sdk now _ _ _ _ Hpass).
    apply place_order_rejected. exact Hrej. }
  unfold create_order. rewrite (try_catch_throw _ _ _ Hthrow). split.
  - intros inner description code text. apply create_order_catch_described.
  - intros inner. apply create_order_catch_generic.
Qed.

(** ** The verification endpoint *)

Lemma append_assoc (a b c : string) : (a ++ b) ++ c = a ++ b ++ c.
Proof. induction a as [| x a IH]; simpl; [reflexivity | rewrite IH; reflexivity]. Qed.

Lemma truthy_string (s : string) : s <> "" -> Js.truthy (VStr s) = true.
Proof. intros H. simpl. apply negb_true_iff, String.eqb_neq. exact H. Qed.

Lemma is_string_true (v : value) (s : string) : Js.is_string v s = true <-> v = VStr s.
Proof.
  destruct v; simpl; split; intros H; try discriminate.
  - apply String.eqb_eq in H. congruence.
  - injection H as ->. apply String.eqb_refl.
Qed.

Lemma is_string_false (v : value) (s : string) : Js.is_string v s = false <-> v <> VStr s.
Proof.
  rewrite <- is_string_true. destruct (Js.is_string v s); split; congruence.
Qed.

Lemma add_strings (a b : string) : Js.add (VStr a) (VStr b) = Normal (VStr (a ++ b)).
Proof. reflexivity. Qed.

(** With strings for identifiers, the signed text is the two joined by a bar. *)
Lemma verify_payment_run (cfg : config_t) (req : request) (secret o p : string) (sig : value) :
  keySecret (razorpay cfg) = Some secret ->
  Js.get (body req) "razorpay_payment_id" = Normal (VStr p) ->
  Js.get (body req) "razorpay_order_id" = Normal (VStr o) ->
  Js.get (body req) "razorpay_signature" = Normal sig ->
  p <> "" -> o <> "" -> Js.truthy sig = true ->
  exists planId userId,
    verify_payment cfg req =
    if Js.is_string sig
         (Crypto.hex (Crypto.hmac_sha256 (Crypto.utf8 secret) (Crypto.utf8 (o ++ "|" ++ p))))
    then ([ConsoleLog [VStr "Payment verified successfully:";
                       VObj [("paymentId", VStr p); ("orderId", VStr o);
                             ("planId", planId); ("userId", userId)]]],
          Normal {| status := 200;
                    json := VObj [("success", VBool true);
                                  ("message", VStr "Payment verified successfully");
                                  ("paymentId", VStr p);
                                  ("orderId", VStr o)] |})
    else ([], Normal {| status := 400;
                        json := VObj [("success", VBool false);
                                      ("message", VStr "Invalid payment signature")] |}).
Proof.
  intros Hk Hp Ho Hs Hpne Hone Hts.
  destruct (get_total _ _ "planId" _ Hp) as [planId Hpl].
  destruct (get_total _ _ "userId" _ Hp) as [userId Hus].
  exists planId, userId. unfold verify_payment.
  rewrite (destructure_get _ _ _ Hp), bind_normal.
  rewrite (destructure_get _ _ _ Ho), bind_normal.
  rewrite (destructure_get _ _ _ Hs), bind_normal.
  rewrite (destructure_get _ _ _ Hpl), bind_normal.
  rewrite (destructure_get _ _ _ Hus), bind_normal.
  rewrite (truthy_string p Hpne), (truthy_string o Hone), Hts.
  simpl negb. simpl orb. cbv iota.
  rewrite add_strings. unfold lift. rewrite bind_normal.
  rewrite add_strings, bind_normal.
  change (Js.to_string (VStr ((o ++ "|") ++ p))) with (Normal ((o ++ "|") ++ p)).
  rewrite bind_normal.
  rewrite Hk.
  change (Crypto.createHmac_sha256_hex (Some secret) (VStr ((o ++ "|") ++ p)))
    with (Normal (Crypto.hex (Crypto.hmac_sha256 (Crypto.utf8 secret)
                                (Crypto.utf8 ((o ++ "|") ++ p))))).
  rewrite bind_normal.
  rewrite append_assoc.
  destruct (Js.is_string sig _); simpl negb; cbv iota.
  - rewrite bind_emit. reflexivity.
  - reflexivity.
Qed.

(** C1. A verify-payment request with a payment identifier, an order
    identifier (both strings) and a signature succeeds, with 200 and
    success:true, exactly when the signature is the hex HMAC-SHA256, under the
    configured key secret, of the order identifier, a bar and the payment
    identifier; with any other signature the answer is 400 with the message
    about an invalid signature. *)
Theorem verify_payment_signature
    (cfg : config_t) (req : request) (secret o p : string) (sig : value) :
  keySecret (razorpay cfg) = Some secret ->
  Js.get (body req) "razorpay_payment_id" = Normal (VStr p) ->
  Js.get (body req) "razorpay_order_id" = Normal (VStr o) ->
  Js.get (body req) "razorpay_signature" = Normal sig ->
  p <> "" -> o <> "" -> Js.truthy sig = true ->
  let expected :=
    Crypto.hex (Crypto.hmac_sha256 (Crypto.utf8 secret) (Crypto.utf8 (o ++ "|" ++ p))) in
  (snd (verify_payment cfg req)
   = Normal {| status := 200;
               json := VObj [("success", VBool true);
                             ("message", VStr "Payment verified successfully");
                             ("paymentId", VStr p);
                             ("orderId", VStr o)] |}
   <-> sig = VStr expected)
  /\
  (sig <> VStr expected ->
   verify_payment cfg req
   = ([], Normal {| status := 400;
                    json := VObj [("success", VBool false);
                                  ("message", VStr "Invalid payment signature")] |})).
Proof.
  intros Hk Hp Ho Hs Hpne Hone Hts expected.
  destruct (verify_payment_run cfg req secret o p sig Hk Hp Ho Hs Hpne Hone Hts)
    as (planId & userId & Hrun).
  fold expected in Hrun. rewrite Hrun.
  destruct (Js.is_string sig expected) eqn:Heq.
  - apply is_string_true in Heq. split; [split; [intros _; exact Heq | reflexivity] |].
    intros Hne. contradiction.
  - apply is_string_false in Heq. split; [split |].
    + cbn [snd]. intros H. discriminate.
    + intros H. contradiction.
    + intros _. reflexivity.
Qed.

(** ** The webhook endpoint *)

Lemma snd_bind_throw {A B} (c : M A) (k : A -> M B) (e : value) :
  snd c = Throw e -> snd (bind c k) = Throw e.
Proof.
  destruct c as [t [a | e']]; cbn [snd]; intros H; [discriminate |].
  injection H as ->. reflexivity.
Qed.

Lemma get_nullish (v : value) (k : string) :
  Js.is_nullish v = true -> exists e, Js.get v k = Throw e.
Proof. destruct v; simpl; intros H; try discriminate; eauto. Qed.

Lemma get_not_nullish (v : value) (k : string) :
  Js.is_nullish v = false -> exists x, Js.get v k = Normal x.
Proof. destruct v; simpl; intros H; try discriminate; eauto. Qed.

(** Only [undefined] has no JSON text. *)
Lemma stringify_defined (v : value) :
  v <> VUndefined -> exists text, JSON.stringify v = VStr text.
Proof.
  intros H. unfold JSON.stringify.
  destruct v; try (eexists; reflexivity). contradiction.
Qed.

Lemma webhook_catch_answer (error : value) :
  snd (webhook_catch error)
  = Normal {| status := 500; json := VObj [("message", VStr "Webhook processing failed")] |}.
Proof. reflexivity. Qed.

Section Webhook.

Variable cfg : config_t.
Variable req : request.
Variable k : string.
Variable expected : string.
Hypothesis Hsecret : webhookSecret (razorpay cfg) = Some k.
Hypothesis Hexpected : signature_of k (body req) = Normal expected.

(** A header that is not the expected signature ends the request at once. *)
Lemma webhook_mismatch :
  header req "x-razorpay-signature" <> VStr expected ->
  webhook cfg req
  = ([], Normal {| status := 400;
                   json := VObj [("message", VStr "Invalid webhook signature")] |}).
Proof.
  intros Hne. unfold webhook. rewrite Hsecret.
  unfold signature_of in Hexpected. rewrite Hexpected.
  unfold lift. rewrite bind_normal.
  apply is_string_false in Hne. rewrite Hne. reflexivity.
Qed.

(** A header that is the expected signature lets the event be dispatched. *)
Lemma webhook_verified :
  header req "x-razorpay-signature" = VStr expected ->
  webhook cfg req
  = try_catch (dispatch (body req) ;;; res_json 200 [("received", VBool true)])
              webhook_catch.
Proof.
  intros Heq. unfold webhook. rewrite Hsecret.
  unfold signature_of in Hexpected. rewrite Hexpected.
  unfold lift. rewrite bind_normal.
  apply is_string_true in Heq. rewrite Heq. reflexivity.
Qed.

Lemma webhook_dispatch_throws (e : value) :
  header req "x-razorpay-signature" = VStr expected ->
  snd (dispatch (body req)) = Throw e ->
  snd (webhook cfg req)
  = Normal {| status := 500; json := VObj [("message", VStr "Webhook processing failed")] |}.
Proof.
  intros Heq Hthrow. rewrite (webhook_verified Heq).
  rewrite (try_catch_throw _ _ e); [apply webhook_catch_answer |].
  apply snd_bind_throw. exact Hthrow.
Qed.

Lemma webhook_dispatch_returns (t : list effect) :
  header req "x-razorpay-signature" = VStr expected ->
  dispatch (body req) = (t, Normal tt) ->
  webhook cfg req
  = (t, Normal {| status := 200; json := VObj [("received", VBool true)] |}).
Proof.
  intros Heq Hret. rewrite (webhook_verified Heq), Hret.
  unfold bind, res_json, ret. rewrite app_nil_r. reflexivity.
Qed.

End Webhook.

(** A known event type logs the entity of its member of the payload. *)
Lemma dispatch_known (event : value) (kind member : string) :
  Js.get event "event" = Normal (VStr kind) ->
  entity_holder kind = Some member ->
  exists label, dispatch event = log_entity label event member.
Proof.
  intros Hget Hholder. unfold dispatch. rewrite Hget. unfold lift. rewrite bind_normal.
  unfold entity_holder in Hholder. simpl Js.is_string.
  destruct (String.eqb kind "payment.captured").
  { injection Hholder as <-. eexists; reflexivity. }
  destruct (String.eqb kind "payment.failed").
  { injection Hholder as <-. eexists; reflexivity. }
  destruct (String.eqb kind "subscription.activated").
  { injection Hholder as <-. eexists; reflexivity. }
  destruct (String.eqb kind "subscription.cancelled").
  { injection Hholder as <-. eexists; reflexivity. }
  discriminate.
Qed.

Lemma log_entity_no_payload (label : string) (event payload : value) (member : string) :
  Js.get event "payload" = Normal payload ->
  Js.is_nullish payload = true ->
  exists e, snd (log_entity label event member) = Throw e.
Proof.
  intros Hp Hnull. destruct (get_nullish payload member Hnull) as [e He].
  exists e. unfold log_entity. rewrite Hp. unfold lift. rewrite bind_normal.
  rewrite He. reflexivity.
Qed.

Lemma log_entity_no_holder (label : string) (event payload holder : value) (member : string) :
  Js.get event "payload" = Normal payload ->
  Js.get payload member = Normal holder ->
  Js.is_nullish holder = true ->
  exists e, snd (log_entity label event member) = Throw e.
Proof.
  intros Hp Hh Hnull. destruct (get_nullish holder "entity" Hnull) as [e He].
  exists e. unfold log_entity. rewrite Hp. unfold lift. rewrite bind_normal.
  rewrite Hh, bind_normal. rewrite He. reflexivity.
Qed.

Lemma log_entity_logs (label : string) (event payload holder : value) (member : string) :
  Js.get event "payload" = Normal payload ->
  Js.get payload member = Normal holder ->
  Js.is_nullish holder = false ->
  exists entity,
    Js.get holder "entity" = Normal entity
    /\ log_entity label event member = ([ConsoleLog [VStr label; entity]], Normal tt).
Proof.
  intros Hp Hh Hnull. destruct (get_not_nullish holder "entity" Hnull) as [entity He].
  exists entity. split; [exact He |].
  unfold log_entity. rewrite Hp. unfold lift. rewrite bind_normal.
  rewrite Hh, bind_normal. rewrite He, bind_normal. reflexivity.
Qed.

(** C5. A webhook request with a valid signature whose event type is none of
    the four known ones is answered 200 with received:true; the handler logs
    the event type and throws nothing. *)
Theorem webhook_unknown_event
    (cfg : config_t) (req : request) (k expected : string) (kind : value) :
  webhookSecret (razorpay cfg) = Some k ->
  signature_of k (body req) = Normal expected ->
  header req "x-razorpay-signature" = VStr expected ->
  Js.get (body req) "event" = Normal kind ->
  (forall known,
     In known ["payment.captured"; "payment.failed";
               "subscription.activated"; "subscription.cancelled"] ->
     kind <> VStr known) ->
  webhook cfg req
  = ([ConsoleLog [VStr "Unhandled event:"; kind]],
     Normal {| status := 200; json := VObj [("received", VBool true)] |}).
Proof.
  intros Hsecret Hexp Hsig Hkind Hunknown.
  apply (webhook_dispatch_returns cfg req k expected Hsecret Hexp _ Hsig).
  unfold dispatch. rewrite Hkind. unfold lift. rewrite bind_normal.
  rewrite !(proj2 (is_string_false kind _)); [reflexivity | | | |];
    apply Hunknown; simpl; auto.
Qed.

(** C2, as the code has it.  The signature a webhook request is checked
    against is the hex HMAC-SHA256, under the webhook secret, of
    [JSON.stringify(req.body)], the parsed body written out again, and not of
    the bytes received.  A header that differs from it in any character is
    answered 400 and nothing is dispatched or logged; a header equal to it
    lets the event through; the key secret of the API plays no part. *)
Theorem webhook_signature_check
    (cfg : config_t) (req : request) (k text : string) :
  webhookSecret (razorpay cfg) = Some k ->
  JSON.stringify (body req) = VStr text ->
  let expected := Crypto.hex (Crypto.hmac_sha256 (Crypto.utf8 k) (Crypto.utf8 text)) in
  (header req "x-razorpay-signature" <> VStr expected ->
   webhook cfg req
   = ([], Normal {| status := 400;
                    json := VObj [("message", VStr "Invalid webhook signature")] |}))
  /\
  (header req "x-razorpay-signature" = VStr expected ->
   exists r, snd (webhook cfg req) = Normal r /\ (status r = 200 \/ status r = 500))
  /\
  (forall cfg', webhookSecret (razorpay cfg') = Some k ->
                webhook cfg' req = webhook cfg req).
Proof.
  intros Hsecret Htext expected.
  assert (Hexp : signature_of k (body req) = Normal expected).
  { unfold signature_of. rewrite Htext. reflexivity. }
  split; [| split].
  - apply (webhook_mismatch cfg req k expected Hsecret Hexp).
  - intros Heq. rewrite (webhook_verified cfg req k expected Hsecret Hexp Heq).
    destruct (dispatch (body req)) as [t [[] | e]]; unfold bind, try_catch;
      eexists; (split; [reflexivity |]); simpl; auto.
  - intros cfg' Hsecret'. unfold webhook. rewrite Hsecret, Hsecret'. reflexivity.
Qed.

(** C10, as the code has it.  For a webhook request with a valid signature and
    one of the four known event types, the dispatch throws, and the answer is
    500, exactly when the payload, or the member of the payload the event
    type reads (payment or subscription), is undefined or null.  When both
    are there the answer is 200 even if the member has no entity: the
    handler then logs undefined. *)
Theorem webhook_known_event
    (cfg : config_t) (req : request) (k expected kind member : string) (payload : value) :
  webhookSecret (razorpay cfg) = Some k ->
  signature_of k (body req) = Normal expected ->
  header req "x-razorpay-signature" = VStr expected ->
  Js.get (body req) "event" = Normal (VStr kind) ->
  entity_holder kind = Some member ->
  Js.get (body req) "payload" = Normal payload ->
  let failed :=
    Normal {| status := 500; json := VObj [("message", VStr "Webhook processing failed")] |} in
  let received :=
    Normal {| status := 200; json := VObj [("received", VBool true)] |} in
  (Js.is_nullish payload = true -> snd (webhook cfg req) = failed)
  /\
  (forall holder,
     Js.get payload member = Normal holder ->
     (Js.is_nullish holder = true -> snd (webhook cfg req) = failed)
     /\ (Js.is_nullish holder = false -> snd (webhook cfg req) = received)).
Proof.
  intros Hsecret Hexp Hsig Hkind Hholder Hpayload failed received.
  destruct (dispatch_known (body req) kind member Hkind Hholder) as [label Hd].
  split; [| intros holder Hmember; split].
  - intros Hnull.
    destruct (log_entity_no_payload label _ _ member Hpayload Hnull) as [e He].
    apply (webhook_dispatch_throws cfg req k expected Hsecret Hexp e Hsig).
    rewrite Hd. exact He.
  - intros Hnull.
    destruct (log_entity_no_holder label _ _ _ member Hpayload Hmember Hnull) as [e He].
    apply (webhook_dispatch_throws cfg req k expected Hsecret Hexp e Hsig).
    rewrite Hd. exact He.
  - intros Hnull.
    destruct (log_entity_logs label _ _ _ member Hpayload Hmember Hnull)
      as (entity & _ & Hlog).
    rewrite (webhook_dispatch_returns cfg req k expected Hsecret Hexp
               [ConsoleLog [VStr label; entity]] Hsig); [reflexivity |].
    rewrite Hd. exact Hlog.
Qed.

(** ** Every endpoint *)

Lemma calls_log_entity (label : string) (event : value) (member : string) :
  calls (log_entity label event member) = 0%nat.
Proof.
  assert (calls (log_entity label event member) <= 0)%nat; [| lia].
  unfold log_entity. count.
Qed.

Lemma calls_dispatch (event : value) : calls (dispatch event) = 0%nat.
Proof.
  assert (calls (dispatch event) <= 0)%nat; [| lia].
  unfold dispatch. apply calls_bind; [reflexivity | intros kind].
  repeat match goal with
         | |- (calls (if ?b then _ else _) <= _)%nat => destruct b
         end;
    try (rewrite calls_log_entity; lia); unfold calls; simpl; lia.
Qed.

Ltac leaf :=
  answer; unfold failure_has_success_false, failure_is_bare_message;
  cbn [status json]; intros ?;
  first [ reflexivity
        | eexists; reflexivity
        | exfalso; match goal with H : _ <> _ |- _ => apply H; reflexivity end ].

(** C8. Whatever the request, the configuration and the provider do: an
    answer of the order, verification and status endpoints that is not a 200
    carries success:false; an answer of the webhook that is not a 200 is a
    bare message; the health endpoint always answers 200; and no endpoint
    calls the provider more than once for a request. *)
Theorem failures_and_no_retry
    (cfg : config_t) (sdk : Razorpay) (now : Z) (req : request) :
  answers failure_has_success_false (create_order sdk now req)
  /\ answers failure_has_success_false (verify_payment cfg req)
  /\ answers failure_has_success_false (payment_status sdk req)
  /\ answers failure_is_bare_message (webhook cfg req)
  /\ answers (fun r => status r = 200) (health now req)
  /\ (calls (create_order sdk now req) <= 1)%nat
  /\ (calls (verify_payment cfg req) <= 0)%nat
  /\ (calls (payment_status sdk req) <= 1)%nat
  /\ (calls (webhook cfg req) <= 0)%nat
  /\ (calls (health now req) <= 0)%nat.
Proof.
  repeat match goal with |- _ /\ _ => split end.
  - unfold create_order. apply answers_try_catch.
    + unfold create_order_try, validate, place_order. walk; leaf.
    + intros e. unfold create_order_catch. walk; leaf.
  - unfold verify_payment. apply answers_try_catch; [| intros e]; walk; leaf.
  - unfold payment_status. apply answers_try_catch; [| intros e]; walk; leaf.
  - unfold webhook. apply answers_try_catch; [| intros e; unfold webhook_catch];
      walk; leaf.
  - reflexivity.
  - unfold create_order. apply calls_try_catch; [| apply create_order_catch_quiet].
    unfold create_order_try, validate, place_order. count.
  - unfold verify_payment. apply calls_try_catch; [count | intros e; reflexivity].
  - unfold payment_status. apply calls_try_catch; [| intros e; reflexivity].
    cbv zeta. count.
  - unfold webhook. apply calls_try_catch; [| intros e; reflexivity].
    cbv zeta. apply calls_bind; [reflexivity | intros expected].
    destruct (negb _); [unfold calls; simpl; lia |].
    apply calls_bind; [apply calls_dispatch | intros _]. unfold calls; simpl; lia.
  - unfold calls; simpl; lia.
Qed.

(** C6.  The receipt is kept under 40 characters, as the comment of line 90
    has it, only when the user identifier is a string.  Line 55 tests the
    user identifier for truthiness and nothing else, so an array passes
    validation; on an array, [slice(-8)] is the last 8 elements, and the
    template literal joins them whole.  The order below, read by the body
    parser from its JSON text, is placed: the provider is called with a
    receipt of 52 characters and the answer is 200. *)
Theorem create_order_receipt_over_limit :
  app_post (create_order Sample.accepting Sample.now) Sample.listed_post
  = Accepted (create_order Sample.accepting Sample.now Sample.listed_order)
  /\ create_order Sample.accepting Sample.now Sample.listed_order
     = ([ConsoleLog
           [VStr "Creating Razorpay order with options:";
            VObj [("amount", num 50000);
                  ("currency", VStr "INR");
                  ("receipt", VStr "order_56000123_user_2f6c9e1b7a4d4c0e9f3a5b8d7c6e1f20");
                  ("planId", VStr "p1");
                  ("userId", VArr [VStr "user_2f6c9e1b7a4d4c0e9f3a5b8d7c6e1f20"])]];
         OrdersCreate
           (VObj [("amount", num 50000);
                  ("currency", VStr "INR");
                  ("receipt", VStr "order_56000123_user_2f6c9e1b7a4d4c0e9f3a5b8d7c6e1f20");
                  ("notes",
                   VObj [("planId", VStr "p1");
                         ("userId", VArr [VStr "user_2f6c9e1b7a4d4c0e9f3a5b8d7c6e1f20"])])]);
         ConsoleLog
           [VStr "Razorpay order created successfully:";
            VObj [("orderId", VStr "order_1"); ("amount", num 50000);
                  ("currency", VStr "INR")]]],
        Normal {| status := 200;
                  json := VObj [("success", VBool true); ("orderId", VStr "order_1");
                                ("amount", num 50000); ("currency", VStr "INR")] |})
  /\ String.length "order_56000123_user_2f6c9e1b7a4d4c0e9f3a5b8d7c6e1f20" = 52%nat
  /\ ~ (String.length "order_56000123_user_2f6c9e1b7a4d4c0e9f3a5b8d7c6e1f20" < 40)%nat.
Proof.
  repeat match goal with |- _ /\ _ => split end.
  - vm_compute. reflexivity.
  - vm_compute. reflexivity.
  - reflexivity.
  - simpl. lia.
Qed.

(* ===================================================================== *)
(** * The theorems at the sample requests *)
(* ===================================================================== *)

(** The signed payment is verified; the same payment with the last character
    of its signature changed is refused. *)
Lemma verify_payment_signature_witness :
  snd (verify_payment Sample.cfg Sample.signed_payment)
  = Normal {| status := 200;
              json := VObj [("success", VBool true);
                            ("message", VStr "Payment verified successfully");
                            ("paymentId", VStr "pay_1");
                            ("orderId", VStr "order_1")] |}
  /\ verify_payment Sample.cfg Sample.forged_payment
     = ([], Normal {| status := 400;
                      json := VObj [("success", VBool false);
                                    ("message", VStr "Invalid payment signature")] |}).
Proof.
  split.
  - apply (verify_payment_signature Sample.cfg Sample.signed_payment
             "s3cret" "order_1" "pay_1"
             (VStr "44422d618d76e6e81c5f002f4d5108385750b52eb8db4e9c7a4231ddfac02840"));
      try reflexivity; apply String.eqb_neq; reflexivity.
  - apply (verify_payment_signature Sample.cfg Sample.forged_payment
             "s3cret" "order_1" "pay_1"
             (VStr "44422d618d76e6e81c5f002f4d5108385750b52eb8db4e9c7a4231ddfac02841"));
      try reflexivity; try (apply String.eqb_neq; reflexivity).
    apply is_string_false. vm_compute. reflexivity.
Defined.

(** The order of 50 paise is refused without a call to the provider. *)
Lemma create_order_rejects_amount_out_of_bounds_witness :
  exists r, snd (create_order Sample.accepting Sample.now Sample.small_order) = Normal r
            /\ status r = 400
            /\ provider_calls (fst (create_order Sample.accepting Sample.now Sample.small_order)) = [].
Proof.
  apply (create_order_rejects_amount_out_of_bounds
           Sample.accepting Sample.now Sample.small_order (num 50) (Num.of_Z 50));
    [reflexivity | reflexivity | reflexivity |].
  right; left. vm_compute. reflexivity.
Defined.

(** The order in dollars is refused; the order without a currency is handled
    as the order in INR. *)
Lemma create_order_currency_witness :
  (exists r, create_order Sample.accepting Sample.now Sample.dollar_order = ([], Normal r)
             /\ status r = 400)
  /\ create_order Sample.accepting Sample.now Sample.order_without_currency
     = create_order Sample.accepting Sample.now Sample.order.
Proof.
  split.
  - apply (create_order_currency Sample.accepting Sample.now Sample.dollar_order
             (VStr "p1") (VStr "u1234567890") (num 50000) (VStr "USD"));
      try reflexivity; try discriminate.
    exists (num 50000). reflexivity.
  - apply (create_order_currency Sample.accepting Sample.now Sample.order_without_currency
             (VStr "p1") (VStr "u1234567890") (num 50000) VUndefined);
      reflexivity.
Defined.

(** An event of an unknown type, rightly signed, is received. *)
Lemma webhook_unknown_event_witness :
  webhook Sample.cfg Sample.order_paid
  = ([ConsoleLog [VStr "Unhandled event:"; VStr "order.paid"]],
     Normal {| status := 200; json := VObj [("received", VBool true)] |}).
Proof.
  apply (webhook_unknown_event Sample.cfg Sample.order_paid "whsec"
           "cadd9534dc960816862f86f1334d0fb6c99d891da8657e67fe88215884823127"
           (VStr "order.paid"));
    try reflexivity.
  intros known [<- | [<- | [<- | [<- | []]]]]; discriminate.
Defined.

(** The order of the specification's scenario is placed with the receipt
    order_56000123_34567890. *)
Lemma create_order_receipt_witness :
  exists stamp tail,
    provider_calls (fst (create_order Sample.accepting Sample.now Sample.order))
    = [OrdersCreate (VObj [("amount", num 50000);
                           ("currency", VStr "INR");
                           ("receipt", VStr ("order_" ++ stamp ++ "_" ++ tail));
                           ("notes", VObj [("planId", VStr "p1");
                                           ("userId", VStr "u1234567890")])])]
    /\ last_chars 8 (Num.to_string (Num.of_Z Sample.now)) stamp
    /\ last_chars 8 "u1234567890" tail
    /\ (String.length ("order_" ++ stamp ++ "_" ++ tail) < 40)%nat.
Proof.
  apply (create_order_receipt Sample.accepting Sample.now Sample.order
           (VStr "p1") (num 50000) (VStr "INR") "u1234567890");
    try reflexivity.
  unfold passes_validation.
  repeat match goal with |- _ /\ _ => split end; vm_compute; reflexivity.
Defined.

(** A rejection of the provider's API is passed on with 400; a provider that
    cannot be reached gives 500. *)
Lemma create_order_provider_failure_witness :
  snd (create_order Sample.rejecting Sample.now Sample.order)
  = Normal {| status := 400;
              json := VObj [("success", VBool false);
                            ("message", VStr "Payment Error: Authentication failed");
                            ("errorCode", VStr "BAD_REQUEST_ERROR")] |}
  /\ snd (create_order Sample.unreachable Sample.now Sample.order)
     = Normal {| status := 500;
                 json := VObj [("success", VBool false);
                               ("message", VStr "Failed to create order. Please try again.")] |}.
Proof.
  assert (Hpass : passes_validation (VStr "p1") (VStr "u1234567890") (num 50000)
                    (or_INR (VStr "INR"))).
  { unfold passes_validation.
    repeat match goal with |- _ /\ _ => split end; vm_compute; reflexivity. }
  split.
  - apply (proj1 (create_order_provider_failure Sample.rejecting Sample.now Sample.order
                    (VStr "p1") (num 50000) (VStr "INR")
                    (VObj [("statusCode", num 400);
                           ("error", VObj [("code", VStr "BAD_REQUEST_ERROR");
                                           ("description", VStr "Authentication failed")])])
                    "u1234567890" eq_refl eq_refl eq_refl eq_refl Hpass eq_refl)
             (VObj [("code", VStr "BAD_REQUEST_ERROR");
                    ("description", VStr "Authentication failed")])
             (VStr "Authentication failed") (VStr "BAD_REQUEST_ERROR")
             "Authentication failed");
      reflexivity.
  - apply (proj2 (create_order_provider_failure Sample.unreachable Sample.now Sample.order
                    (VStr "p1") (num 50000) (VStr "INR")
                    (VError "Error" "connect ETIMEDOUT")
                    "u1234567890" eq_refl eq_refl eq_refl eq_refl Hpass eq_refl)
             VUndefined);
      [reflexivity | left; reflexivity].
Defined.

(** The order with amount 0 is answered that fields are missing. *)
Lemma create_order_falsy_field_is_missing_witness :
  create_order Sample.accepting Sample.now Sample.free_order
  = ([], Normal {| status := 400;
                   json := VObj [("success", VBool false);
                                 ("message", VStr "Missing required fields: planId, userId, and amount are required")] |}).
Proof.
  apply (create_order_falsy_field_is_missing Sample.accepting Sample.now Sample.free_order
           (VStr "p1") (VStr "u1") (num 0));
    [reflexivity | reflexivity | reflexivity |].
  right; left. exists false. reflexivity.
Defined.


(** The parsed event carrying the signature of the spaced text is refused:
    its own text has no spaces. *)
Lemma webhook_signature_check_witness :
  webhook Sample.cfg (Sample.event Sample.spaced_signature Sample.captured)
  = ([], Normal {| status := 400;
                   json := VObj [("message", VStr "Invalid webhook signature")] |}).
Proof.
  apply (proj1 (webhook_signature_check Sample.cfg
                  (Sample.event Sample.spaced_signature Sample.captured)
                  "whsec" Sample.compact_text eq_refl eq_refl)).
  apply is_string_false. vm_compute. reflexivity.
Defined.

(** A failed payment without a payload is answered 500; a captured payment
    whose payment has no entity is answered 200. *)
Lemma webhook_known_event_witness :
  snd (webhook Sample.cfg Sample.failed_without_payload)
  = Normal {| status := 500; json := VObj [("message", VStr "Webhook processing failed")] |}
  /\ snd (webhook Sample.cfg Sample.captured_without_entity)
     = Normal {| status := 200; json := VObj [("received", VBool true)] |}.
Proof.
  split.
  - apply (proj1 (webhook_known_event Sample.cfg Sample.failed_without_payload
                    "whsec" "1b0672b6482f8cc9bd6e8ffae717c5aabc622c68cd09375d036dc7e9c867d302"
                    "payment.failed" "payment" VUndefined
                    eq_refl eq_refl eq_refl eq_refl eq_refl eq_refl)).
    reflexivity.
  - apply (proj2 (webhook_known_event Sample.cfg Sample.captured_without_entity
                    "whsec" "dc1d71c27abee910da44752a998b60b2aa40afd299377a9fd7a4905bec9554a0"
                    "payment.captured" "payment" (VObj [("payment", VObj [])])
                    eq_refl eq_refl eq_refl eq_refl eq_refl eq_refl)
             (VObj [])); reflexivity.
Defined.

(* ===================================================================== *)
(** * Where the specification and the code part *)
(* ===================================================================== *)

(** C2, as stated, fails.  The provider sends the text [Sample.spaced_text]
    and signs those bytes.  [express.json()] parses the text and the handler
    signs [JSON.stringify] of the result, which has no spaces.  So the request
    whose header is the HMAC of the exact raw body is refused with 400, and
    a request whose header differs from the HMAC of the raw body is accepted
    and dispatched. *)
Lemma webhook_raw_body_counterexample :
  Crypto.createHmac_sha256_hex (Some "whsec") (VStr Sample.spaced_text)
  = Normal Sample.spaced_signature
  /\ app_post (webhook Sample.cfg) (Sample.spaced_post Sample.spaced_signature)
     = Accepted ([], Normal {| status := 400;
                               json := VObj [("message", VStr "Invalid webhook signature")] |})
  /\ Sample.compact_signature <> Sample.spaced_signature
  /\ app_post (webhook Sample.cfg) (Sample.spaced_post Sample.compact_signature)
     = Accepted ([ConsoleLog [VStr "Payment captured:"; VObj [("id", VStr "pay_1")]]],
                 Normal {| status := 200; json := VObj [("received", VBool true)] |}).
Proof.
  split; [vm_compute; reflexivity |].
  split; [vm_compute; reflexivity |].
  split; [discriminate |].
  vm_compute. reflexivity.
Qed.

(** C10, as stated, fails.  The event is a captured payment, rightly signed,
    whose payload has a payment without an entity: the dispatch reads
    undefined, logs it and throws nothing, and the answer is 200. *)
Lemma webhook_missing_entity_counterexample :
  Js.get (body Sample.captured_without_entity) "event" = Normal (VStr "payment.captured")
  /\ signature_of "whsec" (body Sample.captured_without_entity)
     = Normal "dc1d71c27abee910da44752a998b60b2aa40afd299377a9fd7a4905bec9554a0"
  /\ header Sample.captured_without_entity "x-razorpay-signature"
     = VStr "dc1d71c27abee910da44752a998b60b2aa40afd299377a9fd7a4905bec9554a0"
  /\ Js.get (body Sample.captured_without_entity) "payload"
     = Normal (VObj [("payment", VObj [])])
  /\ Js.get (VObj []) "entity" = Normal VUndefined
  /\ webhook Sample.cfg Sample.captured_without_entity
     = ([ConsoleLog [VStr "Payment captured:"; VUndefined]],
        Normal {| status := 200; json := VObj [("received", VBool true)] |}).
Proof.
  repeat match goal with |- _ /\ _ => split end; vm_compute; reflexivity.
Qed.

(* ===================================================================== *)
(** * Further properties of the code *)
(* ===================================================================== *)

(** ** Walking a handler with what each step returned *)

Lemma answers_lift {A} (P : response -> Prop) (c : completion A) (k : A -> M response) :
  (forall a, c = Normal a -> answers P (k a)) -> answers P (bind (lift c) k).
Proof.
  intros H. destruct c as [a | e]; [| exact I].
  unfold lift. rewrite bind_normal. apply H. reflexivity.
Qed.

Lemma answers_destructure (P : response -> Prop) (b : value) (key : string)
    (k : value -> M response) :
  (forall a, Js.get b key = Normal a -> answers P (k a)) ->
  answers P (bind (destructure b key) k).
Proof.
  intros H. destruct b; try exact I; apply (answers_lift P _ k); exact H.
Qed.

Lemma answers_emit (P : response -> Prop) (e : effect) (k : unit -> M response) :
  answers P (k tt) -> answers P (bind (emit e) k).
Proof. intros H. unfold answers. rewrite bind_emit. exact H. Qed.

Lemma answers_throw {A} (P : response -> Prop) (e : value) (k : A -> M response) :
  answers P (bind (lift (Throw e)) k).
Proof. exact I. Qed.

(** Walks a handler down to its answers, keeping what each step returned. *)
Ltac trace :=
  repeat first
    [ apply answers_destructure; intros ? ?
    | apply answers_lift; intros ? ?
    | apply answers_emit
    | match goal with
      | |- answers _ (if ?b then _ else _) => destruct b eqn:?
      | |- answers _ (bind (if ?b then _ else _) _) => destruct b eqn:?
      | |- answers _ (bind (ret _) _) => unfold ret at 1; rewrite bind_normal
      end ].

(** A handler whose [catch] block answers always answers. *)
Lemma replies_try_catch (P : response -> Prop) (b : M response) (h : value -> M response) :
  answers P b -> (forall e, replies P (h e)) -> replies P (try_catch b h).
Proof.
  intros Hb Hh. destruct b as [t [a | e]]; unfold try_catch.
  - exists a. split; [reflexivity | exact Hb].
  - destruct (Hh e) as (r & Hr & HP). destruct (h e) as [t' c]. exists r. auto.
Qed.

Lemma replies_caught (P : response -> Prop) (Q : value -> Prop)
    (b : M response) (h : value -> M response) :
  answers P b -> throws Q b -> (forall e, Q e -> replies P (h e)) ->
  replies P (try_catch b h).
Proof.
  intros Hb Ht Hh. destruct b as [t [a | e]]; unfold try_catch.
  - exists a. split; [reflexivity | exact Hb].
  - destruct (Hh e Ht) as (r & Hr & HP). destruct (h e) as [t' c]. exists r. auto.
Qed.

(** The answer of a handler depends on the answers of its steps only. *)
Lemma snd_try_catch (b b' : M response) (h : value -> M response) :
  snd b = snd b' -> snd (try_catch b h) = snd (try_catch b' h).
Proof.
  destruct b as [t [a | e]], b' as [t' [a' | e']]; cbn [snd]; intros H;
    try discriminate; injection H as <-; unfold try_catch; [reflexivity |].
  destruct (h e). reflexivity.
Qed.

Lemma snd_bind {A B} (c : M A) (k k' : A -> M B) :
  (forall a, snd (k a) = snd (k' a)) -> snd (bind c k) = snd (bind c k').
Proof.
  intros H. destruct c as [t [a | e]]; unfold bind; [| reflexivity].
  specialize (H a). destruct (k a), (k' a). exact H.
Qed.

(** ** What the run time throws *)

(** Induction on a value and, for an array, on its elements. *)
Lemma value_nested_ind (P : value -> Prop) :
  P VUndefined -> P VNull -> (forall b, P (VBool b)) -> (forall n, P (VNum n)) ->
  (forall s, P (VStr s)) ->
  (forall items, Forall P items -> P (VArr items)) ->
  (forall props, P (VObj props)) ->
  (forall name message, P (VError name message)) ->
  forall v, P v.
Proof.
  intros Hu Hn Hb Hx Hs Ha Ho He.
  fix IH 1.
  intros [| | b | n | s | items | props | name message];
    [exact Hu | exact Hn | apply Hb | apply Hx | apply Hs | | apply Ho | apply He].
  apply Ha.
  exact ((fix all (l : list value) : Forall P l :=
            match l with
            | [] => Forall_nil P
            | x :: l' => Forall_cons x (IH x) (all l')
            end) items).
Qed.

Lemma to_string_throws (v : value) (e : value) :
  Js.to_string v = Throw e -> is_error e.
Proof.
  revert e. induction v as [| | b | n | s | items IH | props | name message]
    using value_nested_ind; intros e; simpl; try discriminate.
  - match goal with |- ?join true items = _ -> _ =>
      assert (Hj : forall first, join first items = Throw e -> is_error e);
        [| exact (Hj true)] end.
    induction IH as [| x l Hx _ IHl]; intros first; [discriminate |].
    destruct (if Js.is_nullish x then Normal "" else Js.to_string x) as [sx | ex] eqn:Ex.
    + specialize (IHl false).
      match type of IHl with ?c = _ -> _ => destruct c as [r | er] end.
      * discriminate.
      * intros H. injection H as <-. apply IHl. reflexivity.
    + intros H. injection H as <-. destruct (Js.is_nullish x); [discriminate |].
      apply Hx. exact Ex.
  - destruct (Js.has_own "toString" props); [| discriminate].
    intros H. injection H as <-. eexists; eexists; reflexivity.
Qed.

Lemma get_throws (v : value) (k : string) (e : value) :
  Js.get v k = Throw e -> is_error e.
Proof.
  destruct v; simpl; intros H; try discriminate; injection H as <-;
    eexists; eexists; reflexivity.
Qed.

Lemma to_primitive_throws (v : value) (e : value) :
  Js.to_primitive v = Throw e -> is_error e.
Proof.
  unfold Js.to_primitive.
  destruct v; try discriminate;
    destruct (Js.to_string _) eqn:E; try discriminate;
    intros H; injection H as <-; eapply to_string_throws; exact E.
Qed.

Lemma relational_throws (pick : value -> value -> bool) (a b : value) (e : value) :
  Js.relational pick a b = Throw e -> is_error e.
Proof.
  unfold Js.relational.
  destruct (Js.to_primitive a) eqn:Ea.
  - destruct (Js.to_primitive b) eqn:Eb; [discriminate |].
    intros H; injection H as <-. eapply to_primitive_throws; exact Eb.
  - intros H; injection H as <-. eapply to_primitive_throws; exact Ea.
Qed.

Lemma slice_throws (v : value) (start : Z) (e : value) :
  Js.slice v start = Throw e -> is_error e.
Proof.
  destruct v; simpl; intros H; try discriminate; injection H as <-;
    eexists; eexists; reflexivity.
Qed.

Lemma destructure_throws (Q : value -> Prop) (b : value) (k : string) :
  (forall e, is_error e -> Q e) -> throws Q (destructure b k).
Proof.
  intros HQ. unfold throws.
  destruct b; simpl; try exact I; apply HQ; eexists; eexists; reflexivity.
Qed.

Lemma throws_bind {A B} (Q : value -> Prop) (c : M A) (k : A -> M B) :
  throws Q c -> (forall a, throws Q (k a)) -> throws Q (bind c k).
Proof.
  unfold throws. intros Hc Hk. destruct c as [t [a | e]]; unfold bind.
  - specialize (Hk a). destruct (k a) as [t' r]. exact Hk.
  - exact Hc.
Qed.

Lemma throws_lift {A} (Q : value -> Prop) (c : completion A) :
  (forall e, c = Throw e -> Q e) -> throws Q (lift c).
Proof. unfold throws, lift. destruct c as [a | e]; simpl; auto. Qed.

(** ** The CORS policy *)

Lemma indexOf_found (l : list string) (v : value) (from : Z) :
  0 <= from ->
  (indexOf l v from <> -1 <-> exists s, In s l /\ v = VStr s).
Proof.
  revert from. induction l as [| s l IH]; intros from H; simpl.
  - split; [intros E; contradiction | intros (s & [] & _)].
  - destruct (Js.is_string v s) eqn:Hs.
    + apply is_string_true in Hs. split; [intros _; exists s; auto | intros _; lia].
    + apply is_string_false in Hs. rewrite (IH (from + 1)) by lia.
      split; intros (t & Ht & Hv).
      * exists t; auto.
      * destruct Ht as [<- | Ht]; [contradiction | exists t; auto].
Qed.

(** X1. The CORS policy allows a request without an Origin header (or with an
    empty one) and a request whose origin is, character for character, one of
    http://localhost:5173, http://localhost:3000, https://examnest.vercel.app/
    or the configured frontend URL (FRONTEND_URL when it is set and not
    empty, http://localhost:5173 otherwise); every other origin is refused
    with the error "Not allowed by CORS". *)
Theorem cors_origin_policy (env : environment) (origin : value) :
  let frontend := match env "FRONTEND_URL" with
                  | Some url => if String.eqb url "" then "http://localhost:5173" else url
                  | None => "http://localhost:5173"
                  end in
  let listed := exists s, origin = VStr s
                          /\ In s ["http://localhost:5173"; "http://localhost:3000";
                                   "https://examnest.vercel.app/"; frontend] in
  (Js.truthy origin = false \/ listed ->
   corsOptions_origin (config env) origin = {| err := VNull; allow := VBool true |})
  /\
  (Js.truthy origin = true -> ~ listed ->
   corsOptions_origin (config env) origin
   = {| err := VError "Error" "Not allowed by CORS"; allow := VUndefined |}).
Proof.
  intros frontend listed.
  assert (Hlist : indexOf (allowedOrigins (config env)) origin 0 <> -1 <-> listed).
  { rewrite indexOf_found by lia. unfold listed, allowedOrigins, config, or_default.
    cbn [cors frontendUrl]. fold frontend.
    split; intros (s & H1 & H2); exists s; auto. }
  unfold corsOptions_origin. split.
  - intros [Hf | Hl].
    + rewrite Hf. reflexivity.
    + destruct (Js.truthy origin); [| reflexivity]. cbn [negb].
      apply Hlist in Hl. apply Z.eqb_neq in Hl. rewrite Hl. reflexivity.
  - intros Ht Hn. rewrite Ht. cbn [negb].
    destruct (Z.eqb_spec (indexOf (allowedOrigins (config env)) origin 0) (-1)) as [E | E].
    + reflexivity.
    + apply Hlist in E. contradiction.
Qed.

(** ** The security headers *)

Lemma find_assign_same (key : string) (entry : string * string) (hs : out_headers) :
  exists key', find (fun kv => String.eqb (fst kv) key) (assign key entry hs)
               = Some (key', entry).
Proof.
  induction hs as [| [k e] hs IH]; simpl.
  - rewrite String.eqb_refl. eexists; reflexivity.
  - destruct (String.eqb k key) eqn:E; simpl; rewrite E; [eexists; reflexivity | exact IH].
Qed.

Lemma find_assign_other (key other : string) (entry : string * string) (hs : out_headers) :
  other <> key ->
  find (fun kv => String.eqb (fst kv) other) (assign key entry hs)
  = find (fun kv => String.eqb (fst kv) other) hs.
Proof.
  intros Hne. induction hs as [| [k e] hs IH]; simpl.
  - apply String.eqb_neq in Hne. rewrite String.eqb_sym, Hne. reflexivity.
  - destruct (String.eqb k key) eqn:E; simpl.
    + apply String.eqb_eq in E. subst k.
      apply String.eqb_neq in Hne. rewrite String.eqb_sym, Hne. reflexivity.
    + destruct (String.eqb k other); [reflexivity | exact IH].
Qed.

(** Reading a header after setting one: names are compared without case. *)
Lemma getHeader_setHeader (name value asked : string) (hs : out_headers) :
  getHeader asked (setHeader name value hs)
  = if String.eqb (toLowerCase asked) (toLowerCase name) then Some value
    else getHeader asked hs.
Proof.
  unfold getHeader, setHeader.
  destruct (String.eqb_spec (toLowerCase asked) (toLowerCase name)) as [E | E].
  - rewrite E. destruct (find_assign_same (toLowerCase name) (name, value) hs) as [k ->].
    reflexivity.
  - rewrite find_assign_other by exact E. reflexivity.
Qed.

(** X2. After the security middleware, whatever headers were set before it:
    X-XSS-Protection is "1; mode=block", X-Frame-Options is "DENY" and
    X-Content-Type-Options is "nosniff" (a value set earlier under any
    spelling of the name is replaced), and every other header is as it was. *)
Theorem security_headers_on_every_answer (hs : out_headers) (asked : string) :
  getHeader asked (security_headers hs)
  = if String.eqb (toLowerCase asked) "x-xss-protection" then Some "1; mode=block"
    else if String.eqb (toLowerCase asked) "x-frame-options" then Some "DENY"
    else if String.eqb (toLowerCase asked) "x-content-type-options" then Some "nosniff"
    else getHeader asked hs.
Proof.
  unfold security_headers. rewrite !getHeader_setHeader. reflexivity.
Qed.

(** ** The start of the server *)

(** X3. When the server starts it logs the port, the environment and the
    frontend URL in force: the value of PORT, NODE_ENV and FRONTEND_URL when
    the variable is set and not empty, and 5000, development and
    http://localhost:5173 otherwise. *)
Theorem startup_logs_effective_config (env : environment) :
  let effective name fallback :=
    match env name with
    | Some s => if String.eqb s "" then fallback else s
    | None => fallback
    end in
  on_listen (config env)
  = ([ConsoleLog [VStr ("Server running on port " ++ effective "PORT" "5000")];
      ConsoleLog [VStr ("Environment: " ++ effective "NODE_ENV" "development")];
      ConsoleLog [VStr ("CORS enabled for: "
                        ++ effective "FRONTEND_URL" "http://localhost:5173")]],
     Normal tt).
Proof.
  intros effective. unfold on_listen, config, or_default, effective.
  cbn [server cors port nodeEnv frontendUrl].
  destruct (env "PORT") as [p |]; [destruct (String.eqb p "") |]; reflexivity.
Qed.

(** ** The body parser *)

Lemma parse_members_object (fuel : nat) (s : string) (acc : list (string * value))
    (v : value) (rest : string) :
  JSON.parse_members fuel s acc = Accepted (v, rest) -> exists props, v = VObj props.
Proof.
  revert s acc. induction fuel as [| fuel IH]; intros s acc; simpl; [discriminate |].
  destruct (JSON.skip_ws s) as [| c r]; [discriminate |].
  destruct (N_of_ascii c =? 34)%N; [| discriminate].
  destruct (JSON.scan_string r) as [[k r1] | |]; try discriminate.
  destruct (JSON.skip_ws r1) as [| c1 r2]; [discriminate |].
  destruct (Ascii.eqb c1 ":") eqn:E1.
  2:{ destruct c1 as [[] [] [] [] [] [] [] []]; try discriminate. }
  apply Ascii.eqb_eq in E1. subst c1.
  destruct (JSON.parse_value fuel r2) as [[x r3] | |]; try discriminate.
  destruct (JSON.skip_ws r3) as [| c3 r4]; [discriminate |].
  destruct c3 as [[] [] [] [] [] [] [] []]; try discriminate;
    first [apply IH | intros H; injection H as <- _; eexists; reflexivity].
Qed.

Lemma parse_elements_array (fuel : nat) (s : string) (acc : list value)
    (v : value) (rest : string) :
  JSON.parse_elements fuel s acc = Accepted (v, rest) -> exists items, v = VArr items.
Proof.
  revert s acc. induction fuel as [| fuel IH]; intros s acc; simpl; [discriminate |].
  destruct (JSON.parse_value fuel s) as [[x r] | |]; try discriminate.
  destruct (JSON.skip_ws r) as [| c r']; [discriminate |].
  destruct c as [[] [] [] [] [] [] [] []]; try discriminate;
    first [apply IH | intros H; injection H as <- _; eexists; reflexivity].
Qed.

Lemma parse_value_container (fuel : nat) (s : string) (c : ascii) (r : string)
    (v : value) (rest : string) :
  JSON.skip_ws s = String c r ->
  (N_of_ascii c =? 123)%N || (N_of_ascii c =? 91)%N = true ->
  JSON.parse_value fuel s = Accepted (v, rest) -> is_container v.
Proof.
  intros Hs Hc. destruct fuel as [| fuel]; simpl; [discriminate |].
  rewrite Hs. apply orb_prop in Hc. destruct Hc as [Hc | Hc]; apply N.eqb_eq in Hc.
  - assert (c = "{"%char) by (rewrite <- (ascii_N_embedding c), Hc; reflexivity). subst c.
    destruct (JSON.skip_ws r) as [| c1 r1] eqn:Hr.
    + intros H. left. eapply parse_members_object. exact H.
    + destruct (Ascii.eqb c1 "}") eqn:E.
      * apply Ascii.eqb_eq in E. subst c1. intros H. injection H as <- _.
        left. eexists; reflexivity.
      * intros H. left.
        destruct c1 as [[] [] [] [] [] [] [] []]; try discriminate;
          eapply parse_members_object; exact H.
  - assert (c = "["%char) by (rewrite <- (ascii_N_embedding c), Hc; reflexivity). subst c.
    destruct (JSON.skip_ws r) as [| c1 r1] eqn:Hr.
    + intros H. right. eapply parse_elements_array. exact H.
    + destruct (Ascii.eqb c1 "]") eqn:E.
      * apply Ascii.eqb_eq in E. subst c1. intros H. injection H as <- _.
        right. eexists; reflexivity.
      * intros H. right.
        destruct c1 as [[] [] [] [] [] [] [] []]; try discriminate;
          eapply parse_elements_array; exact H.
Qed.

(** What the body parser hands to a handler is an object or an array. *)
Lemma express_json_container (text : string) (v : value) :
  express_json text = Accepted v -> is_container v.
Proof.
  unfold express_json.
  destruct (limit <? _); [discriminate |].
  destruct text as [| c0 t0]; [intros H; injection H as <-; left; eexists; reflexivity |].
  destruct (JSON.skip_ws (String c0 t0)) as [| c r] eqn:Hs; [discriminate |].
  destruct ((N_of_ascii c =? 123)%N || (N_of_ascii c =? 91)%N) eqn:Hc; [| discriminate].
  unfold JSON.parse.
  destruct (JSON.parse_value _ (String c0 t0)) as [[x rest] | |] eqn:Hp; try discriminate.
  destruct (JSON.skip_ws rest); [| discriminate].
  intros H. injection H as <-.
  eapply parse_value_container; eassumption.
Qed.

(** A header no line names, in any spelling, is not in [req.headers]. *)
Lemma addHeaderLine_other (field sent asked : string) (dest : list (string * value)) :
  field <> asked ->
  find (fun kv => String.eqb (fst kv) asked) (addHeaderLine field sent dest)
  = find (fun kv => String.eqb (fst kv) asked) dest.
Proof.
  intros Hne. apply String.eqb_neq in Hne.
  induction dest as [| [field' held] dest IH]; simpl.
  - rewrite Hne. reflexivity.
  - destruct (String.eqb field' field) eqn:E; simpl.
    + apply String.eqb_eq in E. subst field'. rewrite Hne. reflexivity.
    + destruct (String.eqb field' asked); [reflexivity | exact IH].
Qed.

Lemma req_headers_absent (lines : list (string * string)) (asked : string) :
  (forall line, In line lines -> toLowerCase (fst line) <> asked) ->
  find (fun kv => String.eqb (fst kv) asked) (req_headers lines) = None.
Proof.
  unfold req_headers.
  assert (H : forall dest,
             (forall line, In line lines -> toLowerCase (fst line) <> asked) ->
             find (fun kv => String.eqb (fst kv) asked)
                  (fold_left (fun dest line =>
                                addHeaderLine (toLowerCase (fst line)) (snd line) dest)
                             lines dest)
             = find (fun kv => String.eqb (fst kv) asked) dest).
  { induction lines as [| line lines IH]; intros dest Hall; [reflexivity |].
    simpl. rewrite IH by (intros l Hl; apply Hall; right; exact Hl).
    apply addHeaderLine_other. apply Hall. left. reflexivity. }
  intros Hall. rewrite (H [] Hall). reflexivity.
Qed.


(** ** The order endpoint *)

Lemma Q_100_0 : ~ (inject_Z 100 <= inject_Z 0)%Q.
Proof. unfold Qle, inject_Z; cbn [Qnum Qden]. lia. Qed.

(** Within the bounds, the three comparisons of the endpoint are false. *)
Lemma within_compares (n : Num.number) :
  Num.valid n = true -> within n 100 1000000 ->
  Num.leb n (Num.of_Z 0) = false
  /\ Num.ltb n (Num.of_Z 100) = false
  /\ Num.gtb n (Num.of_Z 1000000) = false.
Proof.
  intros Hv Hw.
  assert (Hreal : (inject_Z 100 <= Num.real n)%Q /\ (Num.real n <= inject_Z 1000000)%Q).
  { destruct n; try contradiction; exact Hw. }
  destruct Hreal as [Hlo Hhi].
  repeat match goal with |- _ /\ _ => split end.
  - destruct (Num.leb n (Num.of_Z 0)) eqn:E; [| reflexivity].
    apply NumFacts.leb_0_iff in E. exfalso. apply Q_100_0.
    eapply Qle_trans; [exact Hlo |].
    destruct n; try contradiction; exact E.
  - destruct (Num.ltb n (Num.of_Z 100)) eqn:E; [| reflexivity].
    apply (NumFacts.ltb_100_iff n Hv) in E. exfalso.
    apply (Qlt_not_le (Num.real n) (inject_Z 100)); [| exact Hlo].
    destruct n; try contradiction; exact E.
  - destruct (Num.gtb n (Num.of_Z 1000000)) eqn:E; [| reflexivity].
    apply (NumFacts.gtb_1000000_iff n Hv) in E. exfalso.
    apply (Qlt_not_le (inject_Z 1000000) (Num.real n)); [| exact Hhi].
    destruct n; try contradiction; exact E.
Qed.

(** A value whose number is within the bounds is truthy. *)
Lemma within_truthy (amount : value) (n : Num.number) :
  Js.to_number amount = Normal n -> within n 100 1000000 -> Js.truthy amount = true.
Proof.
  intros Hn Hw. destruct amount as [| | b | x | s | | |]; try reflexivity.
  - injection Hn as <-. contradiction.
  - injection Hn as <-. destruct Hw as [H _]. destruct (Q_100_0 H).
  - injection Hn as <-. destruct b.
    + exfalso. destruct Hw as [H _]. vm_compute in H. apply H. reflexivity.
    + destruct Hw as [H _]. destruct (Q_100_0 H).
  - injection Hn as <-. destruct x; try contradiction; [| reflexivity].
    destruct Hw as [H _]. destruct (Q_100_0 H).
  - injection Hn as <-. simpl. destruct (String.eqb_spec s ""); [| reflexivity].
    subst s. exfalso. destruct Hw as [H _]. vm_compute in H. apply H. reflexivity.
Qed.

Lemma within_passes (planId amount given : value) (u : string) (n : Num.number) :
  Js.truthy planId = true -> u <> "" ->
  Js.to_number amount = Normal n -> Num.valid n = true -> within n 100 1000000 ->
  given = VUndefined \/ given = VStr "INR" ->
  passes_validation planId (VStr u) amount (or_INR given)
  /\ or_INR given = VStr "INR".
Proof.
  intros Hp Hu Hn Hv Hw Hg.
  destruct (within_compares n Hv Hw) as (Hle & Hlt & Hgt).
  assert (Hc : or_INR given = VStr "INR") by (destruct Hg as [-> | ->]; reflexivity).
  split; [| exact Hc]. rewrite Hc. unfold passes_validation.
  rewrite (le_zero _ _ Hn), (lt_number _ _ Hn), (gt_number _ _ Hn), Hle, Hlt, Hgt.
  repeat match goal with |- _ /\ _ => split end; try reflexivity.
  - exact Hp.
  - apply truthy_string. exact Hu.
  - eapply within_truthy; eassumption.
Qed.

(** An amount that is no number compares false with every bound. *)
Lemma nan_passes (planId amount given : value) (u : string) :
  Js.truthy planId = true -> u <> "" -> Js.truthy amount = true ->
  Js.to_number amount = Normal Num.nan ->
  given = VUndefined \/ given = VStr "INR" ->
  passes_validation planId (VStr u) amount (or_INR given)
  /\ or_INR given = VStr "INR".
Proof.
  intros Hp Hu Ha Hn Hg.
  assert (Hc : or_INR given = VStr "INR") by (destruct Hg as [-> | ->]; reflexivity).
  split; [| exact Hc]. rewrite Hc. unfold passes_validation.
  rewrite (le_zero _ _ Hn), (lt_number _ _ Hn), (gt_number _ _ Hn).
  repeat match goal with |- _ /\ _ => split end; try reflexivity.
  - exact Hp.
  - apply truthy_string. exact Hu.
  - exact Ha.
Qed.

(** A request that passes the checks, with a string for user identifier,
    calls the provider once. *)
Lemma passed_order_calls (sdk : Razorpay) (now : Z) (req : request)
    (planId amount given : value) (u : string) :
  Js.get (body req) "planId" = Normal planId ->
  Js.get (body req) "userId" = Normal (VStr u) ->
  Js.get (body req) "amount" = Normal amount ->
  Js.get (body req) "currency" = Normal given ->
  passes_validation planId (VStr u) amount (or_INR given) ->
  provider_calls (fst (create_order sdk now req))
  = [OrdersCreate (order_options amount (or_INR given) (receipt_for now u) planId (VStr u))].
Proof.
  intros Hp Hu Ha Hg Hpass. unfold create_order.
  rewrite (try_catch_calls _ _ create_order_catch_quiet).
  rewrite (create_order_try_fields sdk now req _ _ _ _ Hp Hu Ha Hg).
  rewrite (validate_passes sdk now _ _ _ _ Hpass).
  apply place_order_calls.
Qed.

(** X6. For a create-order request whose three required fields are truthy
    and whose amount has a numeric value, the checks answer in this order:
    an amount at most 0 gets "Amount must be greater than 0", whatever the
    currency; a positive amount with a currency other than INR gets "Only
    INR currency is supported", whatever the amount; a positive amount in
    INR below 100 or above 1000000 gets the message about the range.  Each
    answer is a 400 without any effect. *)
Theorem create_order_check_order
    (sdk : Razorpay) (now : Z) (req : request)
    (planId userId amount given : value) (n : Num.number) :
  Js.get (body req) "planId" = Normal planId ->
  Js.get (body req) "userId" = Normal userId ->
  Js.get (body req) "amount" = Normal amount ->
  Js.get (body req) "currency" = Normal given ->
  Js.truthy planId = true -> Js.truthy userId = true -> Js.truthy amount = true ->
  Js.to_number amount = Normal n -> Num.valid n = true ->
  (Num.at_most n 0 -> create_order sdk now req = amount_not_positive)
  /\ (~ Num.at_most n 0 -> or_INR given <> VStr "INR" ->
      create_order sdk now req = unsupported_currency)
  /\ (~ Num.at_most n 0 -> or_INR given = VStr "INR" ->
      Num.below n 100 \/ Num.above n 1000000 ->
      create_order sdk now req = amount_out_of_range).
Proof.
  intros Hp Hu Ha Hg Htp Htu Hta Hn Hv.
  unfold create_order.
  rewrite (create_order_try_fields sdk now req _ _ _ _ Hp Hu Ha Hg).
  unfold validate. rewrite Htp, Htu, Hta. cbn [negb orb].
  rewrite (le_zero _ _ Hn). unfold lift. rewrite bind_normal.
  repeat match goal with |- _ /\ _ => split end.
  - intros H. apply NumFacts.leb_0_iff in H. rewrite H. reflexivity.
  - intros H Hc. destruct (Num.leb n (Num.of_Z 0)) eqn:E.
    { apply NumFacts.leb_0_iff in E. contradiction. }
    apply is_string_false in Hc. rewrite Hc. reflexivity.
  - intros H Hc Hout. destruct (Num.leb n (Num.of_Z 0)) eqn:E.
    { apply NumFacts.leb_0_iff in E. contradiction. }
    apply is_string_true in Hc. rewrite Hc. cbn [negb].
    rewrite (lt_number _ _ Hn), bind_normal.
    destruct (Num.ltb n (Num.of_Z 100)) eqn:Hlt.
    { unfold ret. rewrite bind_normal. reflexivity. }
    rewrite (gt_number _ _ Hn), bind_normal.
    destruct Hout as [Hb | Hb].
    + apply (NumFacts.ltb_100_iff n Hv) in Hb. congruence.
    + apply (NumFacts.gtb_1000000_iff n Hv) in Hb. rewrite Hb. reflexivity.
Qed.

(** X7. The bounds of the amount are inclusive: a create-order request with a
    plan, a user identifier that is a non-empty string, the currency INR or
    none, and an amount whose numeric value is from 100 to 1000000 passes the
    checks, and the provider is called once, with the amount as it was
    sent. *)
Theorem create_order_accepts_amount_in_bounds
    (sdk : Razorpay) (now : Z) (req : request)
    (planId amount given : value) (u : string) (n : Num.number) :
  Js.get (body req) "planId" = Normal planId ->
  Js.get (body req) "userId" = Normal (VStr u) ->
  Js.get (body req) "amount" = Normal amount ->
  Js.get (body req) "currency" = Normal given ->
  Js.truthy planId = true -> u <> "" ->
  Js.to_number amount = Normal n -> Num.valid n = true -> within n 100 1000000 ->
  given = VUndefined \/ given = VStr "INR" ->
  provider_calls (fst (create_order sdk now req))
  = [OrdersCreate (VObj [("amount", amount);
                         ("currency", VStr "INR");
                         ("receipt", VStr (receipt_for now u));
                         ("notes", VObj [("planId", planId); ("userId", VStr u)])])].
Proof.
  intros Hp Hu Ha Hg Htp Hne Hn Hv Hw Hcur.
  destruct (within_passes planId amount given u n Htp Hne Hn Hv Hw Hcur) as [Hpass Hc].
  rewrite <- Hc. apply (passed_order_calls sdk now req _ _ _ _ Hp Hu Ha Hg Hpass).
Qed.

(** X8. An amount that is truthy and is not a number (a word, an object)
    compares false with 0, 100 and 1000000, so it passes every check: the
    provider is called with it. *)
Theorem create_order_amount_not_a_number
    (sdk : Razorpay) (now : Z) (req : request)
    (planId amount given : value) (u : string) :
  Js.get (body req) "planId" = Normal planId ->
  Js.get (body req) "userId" = Normal (VStr u) ->
  Js.get (body req) "amount" = Normal amount ->
  Js.get (body req) "currency" = Normal given ->
  Js.truthy planId = true -> u <> "" -> Js.truthy amount = true ->
  Js.to_number amount = Normal Num.nan ->
  given = VUndefined \/ given = VStr "INR" ->
  provider_calls (fst (create_order sdk now req))
  = [OrdersCreate (VObj [("amount", amount);
                         ("currency", VStr "INR");
                         ("receipt", VStr (receipt_for now u));
                         ("notes", VObj [("planId", planId); ("userId", VStr u)])])].
Proof.
  intros Hp Hu Ha Hg Htp Hne Hta Hn Hcur.
  destruct (nan_passes planId amount given u Htp Hne Hta Hn Hcur) as [Hpass Hc].
  rewrite <- Hc. apply (passed_order_calls sdk now req _ _ _ _ Hp Hu Ha Hg Hpass).
Qed.

(** X9. A create-order request that passes the checks with a user identifier
    that is a number, a boolean or an object fails when the receipt is built
    (such a value has no [slice]): the answer is the 500 of the order
    endpoint, the error is logged and the provider is not called. *)
Theorem create_order_user_id_not_text
    (sdk : Razorpay) (now : Z) (req : request)
    (planId userId amount given : value) :
  Js.get (body req) "planId" = Normal planId ->
  Js.get (body req) "userId" = Normal userId ->
  Js.get (body req) "amount" = Normal amount ->
  Js.get (body req) "currency" = Normal given ->
  passes_validation planId userId amount (or_INR given) ->
  (exists x, userId = VNum x) \/ (exists b, userId = VBool b)
  \/ (exists props, userId = VObj props) ->
  exists error,
    is_error error
    /\ create_order sdk now req
       = ([ConsoleError [VStr "Error creating order:"; error]], Normal order_failed).
Proof.
  intros Hp Hu Ha Hg Hpass Hkind.
  exists (TypeError "userId.slice is not a function").
  split; [eexists; eexists; reflexivity |].
  unfold create_order.
  rewrite (create_order_try_fields sdk now req _ _ _ _ Hp Hu Ha Hg).
  rewrite (validate_passes sdk now _ _ _ _ Hpass).
  destruct Hkind as [[x ->] | [[b ->] | [props ->]]]; reflexivity.
Qed.

(** The order endpoint once the provider has settled. *)
Lemma place_order_settled (sdk : Razorpay) (now : Z)
    (planId amount currency : value) (u : string) (order : value) :
  orders_create sdk (order_options amount currency (receipt_for now u) planId (VStr u))
  = Normal order ->
  place_order sdk now planId (VStr u) amount currency
  = bind (emit (ConsoleLog
                  [VStr "Creating Razorpay order with options:";
                   VObj [("amount", amount); ("currency", currency);
                         ("receipt", VStr (receipt_for now u));
                         ("planId", planId); ("userId", VStr u)]]))
      (fun _ =>
       bind (emit (OrdersCreate
                     (order_options amount currency (receipt_for now u) planId (VStr u))))
         (fun _ =>
          order_id <- lift (Js.get order "id") ;;
          order_amount <- lift (Js.get order "amount") ;;
          order_currency <- lift (Js.get order "currency") ;;
          emit (ConsoleLog
                  [VStr "Razorpay order created successfully:";
                   VObj [("orderId", order_id);
                         ("amount", order_amount);
                         ("currency", order_currency)]]) ;;;
          res_json 200 [("success", VBool true);
                        ("orderId", order_id);
                        ("amount", order_amount);
                        ("currency", order_currency)])).
Proof.
  intros H. unfold place_order. simpl Js.slice. unfold lift. rewrite bind_normal.
  simpl Js.to_string. rewrite bind_normal.
  fold (receipt_for now u). rewrite H. rewrite bind_normal. reflexivity.
Qed.

(** X10. When a create-order request passes the checks and the provider
    settles with an order, the answer is 200 with success:true and the
    identifier, the amount and the currency of the provider's order (not
    those of the request); the options and the order are logged, once
    each, around the one call. *)
Theorem create_order_success
    (sdk : Razorpay) (now : Z) (req : request)
    (planId amount given order : value) (u : string) :
  Js.get (body req) "planId" = Normal planId ->
  Js.get (body req) "userId" = Normal (VStr u) ->
  Js.get (body req) "amount" = Normal amount ->
  Js.get (body req) "currency" = Normal given ->
  passes_validation planId (VStr u) amount (or_INR given) ->
  orders_create sdk (order_options amount (or_INR given) (receipt_for now u) planId (VStr u))
  = Normal order ->
  Js.is_nullish order = false ->
  exists id paid currency,
    Js.get order "id" = Normal id
    /\ Js.get order "amount" = Normal paid
    /\ Js.get order "currency" = Normal currency
    /\ create_order sdk now req
       = ([ConsoleLog [VStr "Creating Razorpay order with options:";
                       VObj [("amount", amount); ("currency", or_INR given);
                             ("receipt", VStr (receipt_for now u));
                             ("planId", planId); ("userId", VStr u)]];
           OrdersCreate (VObj [("amount", amount);
                               ("currency", or_INR given);
                               ("receipt", VStr (receipt_for now u));
                               ("notes", VObj [("planId", planId); ("userId", VStr u)])]);
           ConsoleLog [VStr "Razorpay order created successfully:";
                       VObj [("orderId", id); ("amount", paid); ("currency", currency)]]],
          Normal {| status := 200;
                    json := VObj [("success", VBool true); ("orderId", id);
                                  ("amount", paid); ("currency", currency)] |}).
Proof.
  intros Hp Hu Ha Hg Hpass Hcreate Hnull.
  destruct (get_not_nullish order "id" Hnull) as [id Hid].
  destruct (get_not_nullish order "amount" Hnull) as [paid Hpaid].
  destruct (get_not_nullish order "currency" Hnull) as [currency Hcur].
  exists id, paid, currency. repeat split; try assumption.
  unfold create_order.
  rewrite (create_order_try_fields sdk now req _ _ _ _ Hp Hu Ha Hg).
  rewrite (validate_passes sdk now _ _ _ _ Hpass).
  rewrite (place_order_settled sdk now _ _ _ _ _ Hcreate).
  rewrite Hid, Hpaid, Hcur. reflexivity.
Qed.

(** X11. When the provider settles without an order (with undefined or null),
    the order endpoint answers 500 although the provider was called. *)
Theorem create_order_provider_settles_without_order
    (sdk : Razorpay) (now : Z) (req : request)
    (planId amount given order : value) (u : string) :
  Js.get (body req) "planId" = Normal planId ->
  Js.get (body req) "userId" = Normal (VStr u) ->
  Js.get (body req) "amount" = Normal amount ->
  Js.get (body req) "currency" = Normal given ->
  passes_validation planId (VStr u) amount (or_INR given) ->
  orders_create sdk (order_options amount (or_INR given) (receipt_for now u) planId (VStr u))
  = Normal order ->
  Js.is_nullish order = true ->
  snd (create_order sdk now req) = Normal order_failed
  /\ provider_calls (fst (create_order sdk now req))
     = [OrdersCreate (VObj [("amount", amount);
                            ("currency", or_INR given);
                            ("receipt", VStr (receipt_for now u));
                            ("notes", VObj [("planId", planId); ("userId", VStr u)])])].
Proof.
  intros Hp Hu Ha Hg Hpass Hcreate Hnull. split.
  - unfold create_order.
    rewrite (create_order_try_fields sdk now req _ _ _ _ Hp Hu Ha Hg).
    rewrite (validate_passes sdk now _ _ _ _ Hpass).
    rewrite (place_order_settled sdk now _ _ _ _ _ Hcreate).
    destruct order; try discriminate; reflexivity.
  - apply (passed_order_calls sdk now req _ _ _ _ Hp Hu Ha Hg Hpass).
Qed.

(** X12. The order endpoint answers 200 exactly when the request has its four
    fields read, passes the four checks, the receipt can be built from the
    user identifier, the provider settles the call made with these options,
    and the order it settles with has properties; the answer then carries
    the identifier, the amount and the currency of that order.  So no
    success is ever answered without an order of the provider. *)
Theorem create_order_success_iff_order
    (sdk : Razorpay) (now : Z) (req : request) (r : response) :
  snd (create_order sdk now req) = Normal r /\ status r = 200
  <->
  exists (planId userId amount given tail order id paid currency : value) (text : string),
    Js.get (body req) "planId" = Normal planId
    /\ Js.get (body req) "userId" = Normal userId
    /\ Js.get (body req) "amount" = Normal amount
    /\ Js.get (body req) "currency" = Normal given
    /\ passes_validation planId userId amount (or_INR given)
    /\ Js.slice userId (-8) = Normal tail
    /\ Js.to_string tail = Normal text
    /\ orders_create sdk
         (order_options amount (or_INR given)
            ("order_" ++ Str.slice (Num.to_string (Num.of_Z now)) (-8) ++ "_" ++ text)
            planId userId)
       = Normal order
    /\ Js.get order "id" = Normal id
    /\ Js.get order "amount" = Normal paid
    /\ Js.get order "currency" = Normal currency
    /\ r = {| status := 200;
              json := VObj [("success", VBool true); ("orderId", id);
                            ("amount", paid); ("currency", currency)] |}.
Proof.
  split.
  - intros [Hr H200]. revert H200.
    apply (answers_normal (fun r => status r = 200 -> _) (create_order sdk now req) r);
      [| exact Hr].
    unfold create_order. apply answers_try_catch.
    2:{ intros e. unfold create_order_catch. walk; answer; discriminate. }
    unfold create_order_try, validate, place_order.
    trace; answer; try discriminate.
    intros _.
    repeat match goal with
           | H : _ || _ = false |- _ => apply orb_false_elim in H; destruct H
           | H : negb _ = false |- _ => apply negb_false_iff in H
           end.
    do 10 eexists.
    repeat match goal with |- _ /\ _ => split end; try eassumption; try reflexivity.
    unfold passes_validation.
    repeat match goal with |- _ /\ _ => split end; assumption.
  - intros (planId & userId & amount & given & tail & order & id & paid & currency & text
            & Hp & Hu & Ha & Hg & Hpass & Htail & Htext & Hcreate & Hid & Hpaid & Hcur & ->).
    split; [| reflexivity].
    unfold create_order.
    rewrite (create_order_try_fields sdk now req _ _ _ _ Hp Hu Ha Hg).
    rewrite (validate_passes sdk now _ _ _ _ Hpass).
    unfold place_order. rewrite Htail. unfold lift. rewrite bind_normal.
    rewrite Htext, bind_normal. rewrite !bind_emit. cbn [snd].
    rewrite Hcreate, bind_normal. rewrite Hid, bind_normal.
    rewrite Hpaid, bind_normal. rewrite Hcur, bind_normal.
    rewrite bind_emit. reflexivity.
Qed.

(** The [catch] block of the order endpoint answers on an error of the run
    time and on a rejection it can read. *)
Lemma create_order_catch_replies (error : value) :
  is_error error \/ plain_rejection error ->
  replies (fun r => In (status r) [200; 400; 500]) (create_order_catch error).
Proof.
  intros H.
  assert (Hplain : plain_rejection error).
  { destruct H as [(name & message & ->) | H]; [| exact H].
    split; [reflexivity |]. intros inner description Hi Hd.
    simpl in Hi. injection Hi as <-. discriminate Hd. }
  destruct Hplain as [Hnull Hdesc].
  destruct (get_not_nullish error "error" Hnull) as [inner Hi].
  unfold create_order_catch. unfold replies. rewrite bind_emit. cbn [snd].
  rewrite Hi. unfold lift. rewrite bind_normal.
  destruct (Js.truthy inner) eqn:Hti.
  - assert (Hnn : Js.is_nullish inner = false) by (destruct inner; try reflexivity; discriminate).
    destruct (get_not_nullish inner "description" Hnn) as [description Hd].
    destruct (get_not_nullish inner "code" Hnn) as [code Hc].
    rewrite Hd, bind_normal.
    destruct (Js.truthy description).
    + destruct (Hdesc inner description Hi Hd) as [text Ht].
      rewrite Ht, bind_normal. rewrite Hc, bind_normal.
      eexists. split; [reflexivity |]. simpl; auto.
    + eexists. split; [reflexivity |]. simpl; auto.
  - unfold ret. rewrite bind_normal. rewrite Hti.
    eexists. split; [reflexivity |]. simpl; auto.
Qed.

(** X13. The order endpoint answers every request, with 200, 400 or 500,
    provided the provider never rejects with undefined or null nor with an
    error whose description cannot be written as text: whatever the run time
    throws while the request is handled is caught and answered. *)
Theorem create_order_always_answers (sdk : Razorpay) (now : Z) (req : request) :
  (forall options reason, orders_create sdk options = Throw reason -> plain_rejection reason) ->
  replies (fun r => In (status r) [200; 400; 500]) (create_order sdk now req).
Proof.
  intros Hsdk. unfold create_order.
  apply (replies_caught _ (fun e => is_error e \/ plain_rejection e)).
  - unfold create_order_try, validate, place_order. walk; answer; simpl; auto.
  - unfold create_order_try, validate, place_order.
    repeat first
      [ apply throws_bind; [| intros ?]
      | apply destructure_throws; intros ? ?; left; assumption
      | apply throws_lift; intros ? ?; first
          [ right; eapply Hsdk; eassumption
          | left; first
              [ eapply relational_throws; eassumption
              | eapply slice_throws; eassumption
              | eapply to_string_throws; eassumption
              | eapply get_throws; eassumption ] ]
      | match goal with
        | |- throws _ (if ?b then _ else _) => destruct b
        end
      | exact I ].
  - intros e. apply create_order_catch_replies.
Qed.

(** ** The text of a digest *)

Lemma be_bytes_4 (x : Z) :
  Crypto.be_bytes 4 x
  = [Z.land (Z.shiftr x 24) 0xff; Z.land (Z.shiftr x 16) 0xff;
     Z.land (Z.shiftr x 8) 0xff; Z.land (Z.shiftr x 0) 0xff].
Proof. reflexivity. Qed.

Lemma land_byte (x : Z) : 0 <= Z.land x 0xff < 256.
Proof.
  change 0xff with (Z.ones 8). rewrite Z.land_ones by lia.
  change (2 ^ 8) with 256. apply Z.mod_pos_bound. lia.
Qed.

Lemma hex_digit_lower (x : Z) : 0 <= x < 16 -> lower_hex_digit (Crypto.hex_digit x) = true.
Proof.
  intros H.
  assert (E : x = 0 \/ x = 1 \/ x = 2 \/ x = 3 \/ x = 4 \/ x = 5 \/ x = 6 \/ x = 7
              \/ x = 8 \/ x = 9 \/ x = 10 \/ x = 11 \/ x = 12 \/ x = 13 \/ x = 14 \/ x = 15)
    by lia.
  repeat (destruct E as [-> | E]; [reflexivity |]). subst x. reflexivity.
Qed.

(** Bytes in hex: two digits of lower-case hex each. *)
Lemma hex_bytes (bytes : list Z) :
  Forall (fun b => 0 <= b < 256) bytes ->
  String.length (Crypto.hex bytes) = (2 * List.length bytes)%nat
  /\ lower_hex (Crypto.hex bytes) = true.
Proof.
  induction 1 as [| b bytes Hb _ [IHl IHh]]; [split; reflexivity |].
  change (Crypto.hex (b :: bytes))
    with (String (Crypto.hex_digit (b / 16))
            (String (Crypto.hex_digit (b mod 16)) (Crypto.hex bytes))).
  split.
  - cbn [String.length List.length]. rewrite IHl. lia.
  - cbn [lower_hex]. rewrite IHh.
    rewrite !hex_digit_lower; [reflexivity | |].
    + apply Z.mod_pos_bound. lia.
    + split; [apply Z.div_pos; lia | apply Z.div_lt_upper_bound; lia].
Qed.

(** A SHA-256 hash is 32 bytes. *)
Lemma sha256_bytes (msg : list Z) :
  List.length (Crypto.sha256 msg) = 32%nat
  /\ Forall (fun b => 0 <= b < 256) (Crypto.sha256 msg).
Proof.
  unfold Crypto.sha256.
  destruct (Crypto.blocks _ _ _) as [[[[[[[a b] c] d] e] f] g] h].
  cbn [flat_map app]. rewrite !be_bytes_4. cbn [app]. split; [reflexivity |].
  repeat (apply Forall_cons; [apply land_byte |]). apply Forall_nil.
Qed.

(** A digest is 64 digits of lower-case hex, whatever the key and the text. *)
Lemma digest_is_text (key msg : list Z) :
  digest_text (Crypto.hex (Crypto.hmac_sha256 key msg)).
Proof.
  unfold Crypto.hmac_sha256.
  match goal with |- digest_text (Crypto.hex (Crypto.sha256 ?m)) =>
    destruct (sha256_bytes m) as [Hl Hb] end.
  destruct (hex_bytes _ Hb) as [Hlen Hhex].
  split; [rewrite Hlen, Hl; reflexivity | exact Hhex].
Qed.

Lemma digest_truthy (key msg : list Z) :
  Js.truthy (VStr (Crypto.hex (Crypto.hmac_sha256 key msg))) = true.
Proof.
  apply truthy_string. intros E.
  destruct (digest_is_text key msg) as [Hlen _]. rewrite E in Hlen. discriminate.
Qed.

(** ** The verification endpoint, on any request *)

(** X14. A verify-payment request in which the payment identifier, the order
    identifier or the signature is falsy (absent, null, empty, zero) is
    answered 400 "Missing payment verification data" before any digest is
    computed and without any effect; a request with the three of them truthy
    never gets that answer. *)
Theorem verify_payment_missing_data
    (cfg : config_t) (req : request) (p o s : value) :
  Js.get (body req) "razorpay_payment_id" = Normal p ->
  Js.get (body req) "razorpay_order_id" = Normal o ->
  Js.get (body req) "razorpay_signature" = Normal s ->
  (Js.truthy p && Js.truthy o && Js.truthy s = false ->
   verify_payment cfg req = ([], Normal missing_payment_data))
  /\
  (Js.truthy p && Js.truthy o && Js.truthy s = true ->
   snd (verify_payment cfg req) <> Normal missing_payment_data).
Proof.
  intros Hp Ho Hs.
  destruct (get_total _ _ "planId" _ Hp) as [planId Hpl].
  destruct (get_total _ _ "userId" _ Hp) as [userId Hus].
  unfold verify_payment.
  rewrite (destructure_get _ _ _ Hp), bind_normal.
  rewrite (destructure_get _ _ _ Ho), bind_normal.
  rewrite (destructure_get _ _ _ Hs), bind_normal.
  rewrite (destructure_get _ _ _ Hpl), bind_normal.
  rewrite (destructure_get _ _ _ Hus), bind_normal.
  split; intros Ht.
  - replace (negb (Js.truthy p) || negb (Js.truthy o) || negb (Js.truthy s)) with true;
      [reflexivity |].
    destruct (Js.truthy p), (Js.truthy o), (Js.truthy s); simpl in *; congruence.
  - replace (negb (Js.truthy p) || negb (Js.truthy o) || negb (Js.truthy s)) with false.
    2:{ destruct (Js.truthy p), (Js.truthy o), (Js.truthy s); simpl in *; congruence. }
    intros Hr.
    refine (answers_normal (fun r => r <> missing_payment_data) _ _ _ Hr eq_refl).
    apply answers_try_catch; [| intros e]; walk; answer; discriminate.
Qed.

(** X15. The verification endpoint answers 200 exactly when a key secret is
    configured, the payment and order identifiers are truthy, and the
    signature is the string that is the hex HMAC-SHA256, under that secret,
    of the text of [razorpay_order_id + "|" + razorpay_payment_id]; the
    answer then repeats the two identifiers.  This holds for identifiers of
    any type, not only strings. *)
Theorem verify_payment_success_iff_signed
    (cfg : config_t) (req : request) (r : response) :
  snd (verify_payment cfg req) = Normal r /\ status r = 200
  <->
  exists (secret text : string) (p o left joined : value),
    keySecret (razorpay cfg) = Some secret
    /\ Js.get (body req) "razorpay_payment_id" = Normal p
    /\ Js.get (body req) "razorpay_order_id" = Normal o
    /\ Js.truthy p = true /\ Js.truthy o = true
    /\ Js.add o (VStr "|") = Normal left
    /\ Js.add left p = Normal joined
    /\ Js.to_string joined = Normal text
    /\ Js.get (body req) "razorpay_signature"
       = Normal (VStr (Crypto.hex (Crypto.hmac_sha256 (Crypto.utf8 secret) (Crypto.utf8 text))))
    /\ r = {| status := 200;
              json := VObj [("success", VBool true);
                            ("message", VStr "Payment verified successfully");
                            ("paymentId", p);
                            ("orderId", o)] |}.
Proof.
  split.
  - intros [Hr H200]. revert H200.
    apply (answers_normal
             (fun r => status r = 200 -> _) (verify_payment cfg req) r); [| exact Hr].
    unfold verify_payment. apply answers_try_catch.
    2:{ intros e. answer. discriminate. }
    trace; answer; try discriminate.
    intros _.
    repeat match goal with
           | H : _ || _ = false |- _ => apply orb_false_elim in H; destruct H
           | H : negb (Js.truthy _) = false |- _ => apply negb_false_iff in H
           end.
    match goal with H : negb (Js.is_string _ _) = false |- _ =>
      apply negb_false_iff, is_string_true in H; subst end.
    match goal with H : Crypto.createHmac_sha256_hex _ _ = Normal _ |- _ =>
      unfold Crypto.createHmac_sha256_hex in H;
      destruct (keySecret (razorpay cfg)) as [secret |] eqn:Hk; [| discriminate];
      injection H as <- end.
    exists secret. do 5 eexists.
    repeat match goal with |- _ /\ _ => split end; try eassumption; reflexivity.
  - intros (secret & text & p & o & left & joined
            & Hk & Hp & Ho & Htp & Hto & Hl & Hj & Ht & Hs & ->).
    split; [| reflexivity].
    destruct (get_total _ _ "planId" _ Hp) as [planId Hpl].
    destruct (get_total _ _ "userId" _ Hp) as [userId Hus].
    unfold verify_payment.
    rewrite (destructure_get _ _ _ Hp), bind_normal.
    rewrite (destructure_get _ _ _ Ho), bind_normal.
    rewrite (destructure_get _ _ _ Hs), bind_normal.
    rewrite (destructure_get _ _ _ Hpl), bind_normal.
    rewrite (destructure_get _ _ _ Hus), bind_normal.
    rewrite Htp, Hto, digest_truthy. cbn [negb orb].
    rewrite Hl. unfold lift. rewrite bind_normal. rewrite Hj, bind_normal.
    rewrite Ht, bind_normal. rewrite Hk.
    change (Crypto.createHmac_sha256_hex (Some secret) (VStr text))
      with (Normal (Crypto.hex (Crypto.hmac_sha256 (Crypto.utf8 secret) (Crypto.utf8 text)))).
    rewrite bind_normal.
    rewrite (proj2 (is_string_true _ _) eq_refl). cbn [negb].
    rewrite bind_emit. reflexivity.
Qed.

(** X16. The plan and the user of a verify-payment request are not part of
    what is signed: two requests with the same payment identifier, order
    identifier and signature get the same answer, whatever plan and user
    each of them names. *)
Theorem verify_payment_ignores_plan_and_user
    (cfg : config_t) (req req' : request) (p o s : value) :
  Js.get (body req) "razorpay_payment_id" = Normal p ->
  Js.get (body req) "razorpay_order_id" = Normal o ->
  Js.get (body req) "razorpay_signature" = Normal s ->
  Js.get (body req') "razorpay_payment_id" = Normal p ->
  Js.get (body req') "razorpay_order_id" = Normal o ->
  Js.get (body req') "razorpay_signature" = Normal s ->
  snd (verify_payment cfg req) = snd (verify_payment cfg req').
Proof.
  intros Hp Ho Hs Hp' Ho' Hs'.
  destruct (get_total _ _ "planId" _ Hp) as [planId Hpl].
  destruct (get_total _ _ "userId" _ Hp) as [userId Hus].
  destruct (get_total _ _ "planId" _ Hp') as [planId' Hpl'].
  destruct (get_total _ _ "userId" _ Hp') as [userId' Hus'].
  unfold verify_payment.
  rewrite (destructure_get _ _ _ Hp), (destructure_get _ _ _ Hp'), !bind_normal.
  rewrite (destructure_get _ _ _ Ho), (destructure_get _ _ _ Ho'), !bind_normal.
  rewrite (destructure_get _ _ _ Hs), (destructure_get _ _ _ Hs'), !bind_normal.
  rewrite (destructure_get _ _ _ Hpl), (destructure_get _ _ _ Hpl'), !bind_normal.
  rewrite (destructure_get _ _ _ Hus), (destructure_get _ _ _ Hus'), !bind_normal.
  apply snd_try_catch.
  destruct (negb (Js.truthy p) || negb (Js.truthy o) || negb (Js.truthy s)); [reflexivity |].
  apply snd_bind; intros left. apply snd_bind; intros joined.
  apply snd_bind; intros text. apply snd_bind; intros expected.
  destruct (negb (Js.is_string s expected)); [reflexivity |].
  rewrite !bind_emit. reflexivity.
Qed.

(** X17. The digest the verification endpoint compares with is 64 digits of
    lower-case hex.  So, with string identifiers and a key secret, a
    signature that is not a string of exactly 64 characters among 0-9 and
    a-f (a digest in upper case, in base64, cut short, or of another type)
    is answered 400 "Invalid payment signature", whatever the secret. *)
Theorem verify_payment_signature_format
    (cfg : config_t) (req : request) (secret o p : string) (sig : value) :
  keySecret (razorpay cfg) = Some secret ->
  Js.get (body req) "razorpay_payment_id" = Normal (VStr p) ->
  Js.get (body req) "razorpay_order_id" = Normal (VStr o) ->
  Js.get (body req) "razorpay_signature" = Normal sig ->
  p <> "" -> o <> "" -> Js.truthy sig = true ->
  (forall s, sig = VStr s -> ~ digest_text s) ->
  verify_payment cfg req = ([], Normal invalid_payment_signature).
Proof.
  intros Hk Hp Ho Hs Hpne Hone Hts Hformat.
  destruct (verify_payment_run cfg req secret o p sig Hk Hp Ho Hs Hpne Hone Hts)
    as (planId & userId & ->).
  destruct (Js.is_string sig _) eqn:E; [| reflexivity].
  apply is_string_true in E. exfalso.
  apply (Hformat _ E). apply digest_is_text.
Qed.

(** X18. When RAZORPAY_KEY_SECRET is not set, the verification endpoint never
    answers 200 and never answers that a signature is invalid: every request
    is answered 400 "Missing payment verification data" or 500 "Failed to
    verify payment". *)
Theorem verify_payment_without_key_secret (env : environment) (req : request) :
  env "RAZORPAY_KEY_SECRET" = None ->
  replies (fun r => r = missing_payment_data \/ r = verification_failed)
          (verify_payment (config env) req).
Proof.
  intros Hk. unfold verify_payment, config. cbn [razorpay keySecret]. rewrite Hk.
  apply replies_try_catch.
  - repeat first
      [ apply answers_throw
      | apply answers_bind; intros ?
      | match goal with
        | |- answers _ (if ?b then _ else _) => destruct b
        end ].
    left. reflexivity.
  - intros e. eexists. split; [reflexivity |]. right. reflexivity.
Qed.

(** ** The webhook, on any request *)

(** X19. When RAZORPAY_WEBHOOK_SECRET is not set, every webhook request is
    answered 500 "Webhook processing failed": the error is logged, no
    signature is compared and no event is dispatched. *)
Theorem webhook_without_secret (env : environment) (req : request) :
  env "RAZORPAY_WEBHOOK_SECRET" = None ->
  exists error,
    webhook (config env) req
    = ([ConsoleError [VStr "Webhook error:"; error]], Normal webhook_failed).
Proof.
  intros Hk. unfold webhook, config. cbn [razorpay webhookSecret]. rewrite Hk.
  eexists. reflexivity.
Qed.

(** X20. With a webhook secret, a webhook request whose body is defined and
    whose x-razorpay-signature header is absent, or is not 64 digits of
    lower-case hex, is answered 400 "Invalid webhook signature" without any
    effect. *)
Theorem webhook_signature_format
    (cfg : config_t) (req : request) (k : string) :
  webhookSecret (razorpay cfg) = Some k ->
  body req <> VUndefined ->
  (forall s, header req "x-razorpay-signature" = VStr s -> ~ digest_text s) ->
  webhook cfg req = ([], Normal invalid_webhook_signature).
Proof.
  intros Hk Hbody Hformat.
  destruct (stringify_defined (body req) Hbody) as [text Htext].
  apply (webhook_mismatch cfg req k
           (Crypto.hex (Crypto.hmac_sha256 (Crypto.utf8 k) (Crypto.utf8 text))) Hk).
  - unfold signature_of. rewrite Htext. reflexivity.
  - intros E. apply (Hformat _ E). apply digest_is_text.
Qed.


(** X22. The webhook answers 200 exactly when a webhook secret is configured,
    the x-razorpay-signature header is the hex HMAC-SHA256, under that
    secret, of [JSON.stringify(req.body)], and the dispatch of the event
    throws nothing; the answer is then received:true. *)
Theorem webhook_received_iff_signed (cfg : config_t) (req : request) (r : response) :
  snd (webhook cfg req) = Normal r /\ status r = 200
  <->
  exists (k text : string) (logged : list effect),
    webhookSecret (razorpay cfg) = Some k
    /\ JSON.stringify (body req) = VStr text
    /\ header req "x-razorpay-signature"
       = VStr (Crypto.hex (Crypto.hmac_sha256 (Crypto.utf8 k) (Crypto.utf8 text)))
    /\ dispatch (body req) = (logged, Normal tt)
    /\ r = {| status := 200; json := VObj [("received", VBool true)] |}.
Proof.
  split.
  - intros [Hr H200]. unfold webhook in Hr.
    destruct (webhookSecret (razorpay cfg)) as [k |] eqn:Hk.
    2:{ simpl in Hr. injection Hr as <-. discriminate H200. }
    destruct (JSON.stringify (body req)) as [| | | | text | | |] eqn:Htext;
      try (simpl in Hr; injection Hr as <-; discriminate H200).
    change (Crypto.createHmac_sha256_hex (Some k) (VStr text))
      with (Normal (Crypto.hex (Crypto.hmac_sha256 (Crypto.utf8 k) (Crypto.utf8 text))))
      in Hr.
    unfold lift in Hr. rewrite bind_normal in Hr.
    destruct (Js.is_string (header req "x-razorpay-signature") _) eqn:Hsig.
    2:{ simpl in Hr. injection Hr as <-. discriminate H200. }
    apply is_string_true in Hsig. cbn [negb] in Hr.
    destruct (dispatch (body req)) as [logged [[] | e]] eqn:Hd.
    2:{ simpl in Hr. injection Hr as <-. discriminate H200. }
    simpl in Hr. injection Hr as <-.
    exists k, text, logged. repeat split; assumption.
  - intros (k & text & logged & Hk & Htext & Hsig & Hd & ->).
    split; [| reflexivity].
    rewrite (webhook_dispatch_returns cfg req k _ Hk
               ltac:(unfold signature_of; rewrite Htext; reflexivity) logged Hsig Hd).
    reflexivity.
Qed.

(** A known event type is logged under its label. *)
Lemma dispatch_labelled (event : value) (kind member label : string) :
  Js.get event "event" = Normal (VStr kind) ->
  entity_holder kind = Some member ->
  event_label kind = Some label ->
  dispatch event = log_entity label event member.
Proof.
  intros Hget Hholder Hlabel. unfold dispatch. rewrite Hget. unfold lift. rewrite bind_normal.
  unfold entity_holder in Hholder. unfold event_label in Hlabel. simpl Js.is_string.
  destruct (String.eqb kind "payment.captured").
  { injection Hholder as <-. injection Hlabel as <-. reflexivity. }
  destruct (String.eqb kind "payment.failed").
  { injection Hholder as <-. injection Hlabel as <-. reflexivity. }
  destruct (String.eqb kind "subscription.activated").
  { injection Hholder as <-. injection Hlabel as <-. reflexivity. }
  destruct (String.eqb kind "subscription.cancelled").
  { injection Hholder as <-. injection Hlabel as <-. reflexivity. }
  discriminate.
Qed.

(** X26. A rightly signed event of one of the four known types whose payload
    has the member it reads (payment or subscription) is logged once, as
    the label of its type followed by the entity of that member, and is
    answered 200 received:true; nothing else is done with it. *)
Theorem webhook_known_event_logs
    (cfg : config_t) (req : request) (k expected kind member label : string)
    (payload holder : value) :
  webhookSecret (razorpay cfg) = Some k ->
  signature_of k (body req) = Normal expected ->
  header req "x-razorpay-signature" = VStr expected ->
  Js.get (body req) "event" = Normal (VStr kind) ->
  entity_holder kind = Some member ->
  event_label kind = Some label ->
  Js.get (body req) "payload" = Normal payload ->
  Js.get payload member = Normal holder ->
  Js.is_nullish holder = false ->
  exists entity,
    Js.get holder "entity" = Normal entity
    /\ webhook cfg req
       = ([ConsoleLog [VStr label; entity]],
          Normal {| status := 200; json := VObj [("received", VBool true)] |}).
Proof.
  intros Hsecret Hexp Hsig Hkind Hholder Hlabel Hpayload Hmember Hnull.
  destruct (log_entity_logs label _ _ _ member Hpayload Hmember Hnull)
    as (entity & Hentity & Hlog).
  exists entity. split; [exact Hentity |].
  apply (webhook_dispatch_returns cfg req k expected Hsecret Hexp _ Hsig).
  rewrite (dispatch_labelled _ _ _ _ Hkind Hholder Hlabel). exact Hlog.
Qed.


(** ** The status endpoint *)

(** X23. The status endpoint fetches the payment named in the path, once.
    When the provider settles with a payment, the answer is 200 with
    exactly six fields of it: id, status, amount, currency, method and
    created_at.  When the provider rejects, the reason is logged and the
    answer is always the same 500 "Failed to fetch payment status",
    whatever the reason says; so it is when the provider settles with
    undefined or null. *)
Theorem payment_status_outcome (sdk : Razorpay) (req : request) :
  let paymentId := param req "paymentId" in
  (forall payment,
     payments_fetch sdk paymentId = Normal payment ->
     Js.is_nullish payment = false ->
     exists id state amount currency method created_at,
       Js.get payment "id" = Normal id
       /\ Js.get payment "status" = Normal state
       /\ Js.get payment "amount" = Normal amount
       /\ Js.get payment "currency" = Normal currency
       /\ Js.get payment "method" = Normal method
       /\ Js.get payment "created_at" = Normal created_at
       /\ payment_status sdk req
          = ([PaymentsFetch paymentId],
             Normal {| status := 200;
                       json := VObj [("success", VBool true);
                                     ("payment", VObj [("id", id);
                                                       ("status", state);
                                                       ("amount", amount);
                                                       ("currency", currency);
                                                       ("method", method);
                                                       ("created_at", created_at)])] |}))
  /\
  (forall reason,
     payments_fetch sdk paymentId = Throw reason ->
     payment_status sdk req
     = ([PaymentsFetch paymentId;
         ConsoleError [VStr "Error fetching payment status:"; reason]],
        Normal status_failed))
  /\
  (forall payment,
     payments_fetch sdk paymentId = Normal payment ->
     Js.is_nullish payment = true ->
     snd (payment_status sdk req) = Normal status_failed).
Proof.
  intros paymentId. repeat match goal with |- _ /\ _ => split end.
  - intros payment Hfetch Hnull.
    destruct (get_not_nullish payment "id" Hnull) as [id Hid].
    destruct (get_not_nullish payment "status" Hnull) as [state Hstate].
    destruct (get_not_nullish payment "amount" Hnull) as [amount Hamount].
    destruct (get_not_nullish payment "currency" Hnull) as [currency Hcurrency].
    destruct (get_not_nullish payment "method" Hnull) as [method Hmethod].
    destruct (get_not_nullish payment "created_at" Hnull) as [created_at Hcreated].
    exists id, state, amount, currency, method, created_at.
    repeat match goal with |- _ /\ _ => split end; try assumption.
    unfold payment_status. fold paymentId. cbv zeta.
    rewrite Hfetch. unfold lift.
    rewrite bind_emit, !bind_normal.
    rewrite Hid, !bind_normal. rewrite Hstate, !bind_normal.
    rewrite Hamount, !bind_normal. rewrite Hcurrency, !bind_normal.
    rewrite Hmethod, !bind_normal. rewrite Hcreated, !bind_normal. reflexivity.
  - intros reason Hfetch. unfold payment_status. fold paymentId. cbv zeta.
    rewrite Hfetch. reflexivity.
  - intros payment Hfetch Hnull. unfold payment_status. fold paymentId. cbv zeta.
    rewrite Hfetch. destruct payment; try discriminate; reflexivity.
Qed.

(** ** The health endpoint *)

(** A check that holds at every integer below a bound holds by computation. *)
Lemma checked_below (f : Z -> bool) (bound : positive) :
  snd (Pos.iter (fun st => (fst st + 1, snd st && f (fst st))) (0, true) bound) = true ->
  forall i, 0 <= i < Zpos bound -> f i = true.
Proof.
  set (step := fun st : Z * bool => (fst st + 1, snd st && f (fst st))).
  assert (H : forall p,
             fst (Pos.iter step (0, true) p) = Zpos p
             /\ (snd (Pos.iter step (0, true) p) = true ->
                 forall i, 0 <= i < Zpos p -> f i = true)).
  { induction p as [| p [IHf IHs]] using Pos.peano_ind.
    - simpl. split; [reflexivity |]. intros Hf i Hi.
      assert (i = 0) by lia. subst i. exact Hf.
    - rewrite Pos.iter_succ. unfold step at 1. cbn [fst snd]. split; [rewrite IHf; lia |].
      intros Hc i Hi. apply andb_prop in Hc. destruct Hc as [Hs Hf].
      rewrite IHf in Hf.
      destruct (Z.eq_dec i (Zpos p)) as [-> | Hne]; [exact Hf |].
      apply IHs; [exact Hs | lia]. }
  intros Hc. apply (proj2 (H bound) Hc).
Qed.

Lemma zeros_length (n : Z) : String.length (Num.zeros n) = Z.to_nat n.
Proof.
  unfold Num.zeros. induction (Z.to_nat n) as [| k IH]; [reflexivity |].
  simpl. destruct k; simpl in *; [reflexivity | rewrite IH; reflexivity].
Qed.

Lemma padded_length (width : nat) (bound : positive) (z : Z) :
  snd (Pos.iter (fun st => (fst st + 1,
                            snd st && (String.length (Num.digits (Z.to_N (fst st)))
                                       <=? width)%nat))
         (0, true) bound) = true ->
  0 <= z < Zpos bound ->
  String.length (padded width z) = width.
Proof.
  intros Hc Hz.
  pose proof (checked_below
                (fun i => (String.length (Num.digits (Z.to_N i)) <=? width)%nat)
                bound Hc z Hz) as H.
  apply Nat.leb_le in H.
  unfold padded. rewrite length_append, zeros_length, Nat2Z.id. lia.
Qed.

Lemma padded_2 (z : Z) : 0 <= z < 100 -> String.length (padded 2 z) = 2%nat.
Proof. apply (padded_length 2 100). vm_compute. reflexivity. Qed.

Lemma padded_3 (z : Z) : 0 <= z < 1000 -> String.length (padded 3 z) = 3%nat.
Proof. apply (padded_length 3 1000). vm_compute. reflexivity. Qed.

Lemma padded_4 (z : Z) : 0 <= z < 10000 -> String.length (padded 4 z) = 4%nat.
Proof. apply (padded_length 4 10000). vm_compute. reflexivity. Qed.

(** The day of a 400-year era as a year, a month and a day of the month. *)
Lemma civil_from_day_of_era (doe : Z) :
  0 <= doe < 146097 ->
  let yoe := (doe - doe / 1460 + doe / 36524 - doe / 146096) / 365 in
  let doy := doe - (365 * yoe + yoe / 4 - yoe / 100) in
  let mp := (5 * doy + 2) / 153 in
  let d := doy - (153 * mp + 2) / 5 + 1 in
  let m := if mp <? 10 then mp + 3 else mp - 9 in
  let y := yoe + (if m <=? 2 then 1 else 0) in
  1 <= m <= 12 /\ 1 <= d <= 31 /\ 0 <= y <= 400 /\ (doe <= 146036 -> y <= 399).
Proof.
  intros Hdoe.
  pose (check := fun doe : Z =>
    let yoe := (doe - doe / 1460 + doe / 36524 - doe / 146096) / 365 in
    let doy := doe - (365 * yoe + yoe / 4 - yoe / 100) in
    let mp := (5 * doy + 2) / 153 in
    let d := doy - (153 * mp + 2) / 5 + 1 in
    let m := if mp <? 10 then mp + 3 else mp - 9 in
    let y := yoe + (if m <=? 2 then 1 else 0) in
    (1 <=? m) && (m <=? 12) && (1 <=? d) && (d <=? 31) && (0 <=? y) && (y <=? 400)
    && ((146036 <? doe) || (y <=? 399))).
  assert (Hc : check doe = true).
  { apply (checked_below check 146097); [vm_compute; reflexivity | exact Hdoe]. }
  unfold check in Hc. cbv zeta in *.
  repeat match type of Hc with _ && _ = true => apply andb_prop in Hc; destruct Hc as [Hc ?] end.
  repeat match goal with
         | H : (_ <=? _) = true |- _ => apply Z.leb_le in H
         end.
  match goal with H : _ || _ = true |- _ => apply orb_prop in H; destruct H as [H | H];
    [apply Z.ltb_lt in H | apply Z.leb_le in H] end; repeat split; try assumption; lia.
Qed.

(** X24. For every clock value from 1970 to the end of the year 9999, the
    health endpoint answers 200 with status "OK" and a time stamp of 24
    characters: four for the year, two each for the month, the day, the
    hours, the minutes and the seconds, three for the milliseconds, with
    "-", "-", "T", ":", ":", "." between them and "Z" at the end. *)
Theorem health_timestamp (now : Z) (req : request) :
  0 <= now < 253402300800000 ->
  exists year month day hours minutes seconds millis : string,
    health now req
    = ([], Normal {| status := 200;
                     json := VObj [("status", VStr "OK");
                                   ("timestamp",
                                    VStr (year ++ "-" ++ month ++ "-" ++ day ++ "T"
                                          ++ hours ++ ":" ++ minutes ++ ":" ++ seconds
                                          ++ "." ++ millis ++ "Z"))] |})
    /\ String.length year = 4%nat /\ String.length month = 2%nat
    /\ String.length day = 2%nat /\ String.length hours = 2%nat
    /\ String.length minutes = 2%nat /\ String.length seconds = 2%nat
    /\ String.length millis = 3%nat.
Proof.
  intros Hnow. unfold health, toISOString.
  set (days := now / 86400000). set (ms := now mod 86400000).
  set (z := days + 719468). set (era := z / 146097).
  set (doe := z - era * 146097).
  assert (Hdays : 0 <= days <= 2932896) by (unfold days; Z.div_mod_to_equations; lia).
  assert (Hms : 0 <= ms < 86400000) by (unfold ms; apply Z.mod_pos_bound; lia).
  assert (Hera : 4 <= era <= 24) by (unfold era, z; Z.div_mod_to_equations; lia).
  assert (Hdoe : 0 <= doe < 146097) by (unfold doe, era; Z.div_mod_to_equations; lia).
  assert (Hlast : era = 24 -> doe <= 146036) by (unfold doe, z; lia).
  pose proof (civil_from_day_of_era doe Hdoe) as Hcivil. cbv zeta in Hcivil.
  set (yoe := (doe - doe / 1460 + doe / 36524 - doe / 146096) / 365) in *.
  set (doy := doe - (365 * yoe + yoe / 4 - yoe / 100)) in *.
  set (mp := (5 * doy + 2) / 153) in *.
  set (d := doy - (153 * mp + 2) / 5 + 1) in *.
  set (m := if mp <? 10 then mp + 3 else mp - 9) in *.
  destruct Hcivil as (Hm & Hd & Hy & Hy').
  cbv zeta. fold yoe. fold doy. fold mp. fold d. fold m.
  set (y := yoe + era * 400 + (if m <=? 2 then 1 else 0)).
  assert (Hyear : 0 <= y <= 9999) by (unfold y; lia).
  replace ((0 <=? y) && (y <=? 9999)) with true
    by (symmetry; apply andb_true_intro; split; apply Z.leb_le; lia).
  do 7 eexists. split; [unfold res_json, ret; repeat f_equal |].
  repeat match goal with |- _ /\ _ => split end.
  - apply padded_4. lia.
  - apply padded_2. lia.
  - apply padded_2. lia.
  - apply padded_2. Z.div_mod_to_equations; lia.
  - apply padded_2. Z.div_mod_to_equations; lia.
  - apply padded_2. Z.div_mod_to_equations; lia.
  - apply padded_3. Z.div_mod_to_equations; lia.
Qed.

(** ** Every endpoint answers *)

(** X25. The verification, status, webhook and health endpoints answer every
    request, whatever the body, the configuration and the provider do: the
    handler never ends by throwing.  The verification endpoint and the
    webhook answer 200, 400 or 500, the status endpoint 200 or 500, the
    health endpoint 200. *)
Theorem handlers_always_answer (cfg : config_t) (sdk : Razorpay) (now : Z) (req : request) :
  replies (fun r => In (status r) [200; 400; 500]) (verify_payment cfg req)
  /\ replies (fun r => In (status r) [200; 500]) (payment_status sdk req)
  /\ replies (fun r => In (status r) [200; 400; 500]) (webhook cfg req)
  /\ replies (fun r => status r = 200) (health now req).
Proof.
  repeat match goal with |- _ /\ _ => split end.
  - unfold verify_payment. apply replies_try_catch.
    + walk; answer; simpl; auto.
    + intros e. eexists. split; [reflexivity |]. simpl; auto.
  - unfold payment_status. apply replies_try_catch.
    + walk; answer; simpl; auto.
    + intros e. eexists. split; [reflexivity |]. simpl; auto.
  - unfold webhook. apply replies_try_catch.
    + walk; answer; simpl; auto.
    + intros e. eexists. split; [reflexivity |]. simpl; auto.
  - eexists. split; reflexivity.
Qed.

(* ===================================================================== *)
(** * The further properties at the sample requests *)
(* ===================================================================== *)

(** With no frontend URL configured, the local development origin is
    allowed and the production origin without its final slash is refused. *)
Lemma cors_origin_policy_witness :
  corsOptions_origin (config Sample.env) (VStr "http://localhost:3000")
  = {| err := VNull; allow := VBool true |}
  /\ corsOptions_origin (config Sample.env) (VStr "https://examnest.vercel.app")
     = {| err := VError "Error" "Not allowed by CORS"; allow := VUndefined |}.
Proof.
  split.
  - apply (proj1 (cors_origin_policy Sample.env (VStr "http://localhost:3000"))).
    right. exists "http://localhost:3000". split; [reflexivity | simpl; auto].
  - apply (proj2 (cors_origin_policy Sample.env (VStr "https://examnest.vercel.app")));
      [reflexivity |].
    intros (s & E & Hin). injection E as <-. simpl in Hin.
    destruct Hin as [H | [H | [H | [H | []]]]]; discriminate H.
Defined.


(** An amount of -5 is not positive; 50000 dollars are not INR; 50 paise are
    out of range. *)
Lemma create_order_check_order_witness :
  create_order Sample.accepting Sample.now Sample.negative_order = amount_not_positive
  /\ create_order Sample.accepting Sample.now Sample.dollar_order = unsupported_currency
  /\ create_order Sample.accepting Sample.now Sample.small_order = amount_out_of_range.
Proof.
  split; [| split].
  - apply (proj1 (create_order_check_order Sample.accepting Sample.now Sample.negative_order
                    (VStr "p1") (VStr "u1") (num (-5)) VUndefined (Num.of_Z (-5))
                    eq_refl eq_refl eq_refl eq_refl eq_refl eq_refl eq_refl eq_refl eq_refl)).
    vm_compute. discriminate.
  - apply (proj1 (proj2 (create_order_check_order
                           Sample.accepting Sample.now Sample.dollar_order
                           (VStr "p1") (VStr "u1234567890") (num 50000) (VStr "USD")
                           (Num.of_Z 50000)
                           eq_refl eq_refl eq_refl eq_refl eq_refl eq_refl eq_refl
                           eq_refl eq_refl))).
    + vm_compute. intros H. apply H. reflexivity.
    + discriminate.
  - apply (proj2 (proj2 (create_order_check_order
                           Sample.accepting Sample.now Sample.small_order
                           (VStr "p1") (VStr "u1") (num 50) VUndefined (Num.of_Z 50)
                           eq_refl eq_refl eq_refl eq_refl eq_refl eq_refl eq_refl
                           eq_refl eq_refl))).
    + vm_compute. intros H. apply H. reflexivity.
    + reflexivity.
    + left. vm_compute. reflexivity.
Defined.

(** An order of exactly 100 paise is placed. *)
Lemma create_order_accepts_amount_in_bounds_witness :
  provider_calls (fst (create_order Sample.accepting Sample.now Sample.least_order))
  = [OrdersCreate (VObj [("amount", num 100);
                         ("currency", VStr "INR");
                         ("receipt", VStr (receipt_for Sample.now "u1234567890"));
                         ("notes", VObj [("planId", VStr "p1");
                                         ("userId", VStr "u1234567890")])])].
Proof.
  apply (create_order_accepts_amount_in_bounds
           Sample.accepting Sample.now Sample.least_order
           (VStr "p1") (num 100) VUndefined "u1234567890" (Num.of_Z 100));
    try reflexivity.
  - discriminate.
  - vm_compute. split; discriminate.
  - left. reflexivity.
Defined.

(** An order whose amount is a word is placed. *)
Lemma create_order_amount_not_a_number_witness :
  provider_calls (fst (create_order Sample.accepting Sample.now Sample.worded_order))
  = [OrdersCreate (VObj [("amount", VStr "plenty");
                         ("currency", VStr "INR");
                         ("receipt", VStr (receipt_for Sample.now "u1234567890"));
                         ("notes", VObj [("planId", VStr "p1");
                                         ("userId", VStr "u1234567890")])])].
Proof.
  apply (create_order_amount_not_a_number
           Sample.accepting Sample.now Sample.worded_order
           (VStr "p1") (VStr "plenty") VUndefined "u1234567890");
    try reflexivity.
  - discriminate.
  - left. reflexivity.
Defined.

(** An order whose user identifier is a number is answered 500. *)
Lemma create_order_user_id_not_text_witness :
  exists error,
    is_error error
    /\ create_order Sample.accepting Sample.now Sample.numbered_order
       = ([ConsoleError [VStr "Error creating order:"; error]], Normal order_failed).
Proof.
  apply (create_order_user_id_not_text Sample.accepting Sample.now Sample.numbered_order
           (VStr "p1") (num 1234567890) (num 50000) VUndefined);
    try reflexivity.
  - unfold passes_validation.
    repeat match goal with |- _ /\ _ => split end; vm_compute; reflexivity.
  - left. eexists. reflexivity.
Defined.

(** The order of the first scenario, answered with the provider's order. *)
Lemma create_order_success_witness :
  exists id paid currency,
    Js.get (VObj [("id", VStr "order_1"); ("amount", num 50000); ("currency", VStr "INR")])
      "id" = Normal id
    /\ Js.get (VObj [("id", VStr "order_1"); ("amount", num 50000); ("currency", VStr "INR")])
         "amount" = Normal paid
    /\ Js.get (VObj [("id", VStr "order_1"); ("amount", num 50000); ("currency", VStr "INR")])
         "currency" = Normal currency
    /\ create_order Sample.accepting Sample.now Sample.order
       = ([ConsoleLog [VStr "Creating Razorpay order with options:";
                       VObj [("amount", num 50000); ("currency", or_INR (VStr "INR"));
                             ("receipt", VStr (receipt_for Sample.now "u1234567890"));
                             ("planId", VStr "p1"); ("userId", VStr "u1234567890")]];
           OrdersCreate (VObj [("amount", num 50000);
                               ("currency", or_INR (VStr "INR"));
                               ("receipt", VStr (receipt_for Sample.now "u1234567890"));
                               ("notes", VObj [("planId", VStr "p1");
                                               ("userId", VStr "u1234567890")])]);
           ConsoleLog [VStr "Razorpay order created successfully:";
                       VObj [("orderId", id); ("amount", paid); ("currency", currency)]]],
          Normal {| status := 200;
                    json := VObj [("success", VBool true); ("orderId", id);
                                  ("amount", paid); ("currency", currency)] |}).
Proof.
  apply (create_order_success Sample.accepting Sample.now Sample.order
           (VStr "p1") (num 50000) (VStr "INR")
           (VObj [("id", VStr "order_1"); ("amount", num 50000); ("currency", VStr "INR")])
           "u1234567890");
    try reflexivity.
  unfold passes_validation.
  repeat match goal with |- _ /\ _ => split end; vm_compute; reflexivity.
Defined.

(** A provider that settles without an order: the call is made, the answer
    is 500. *)
Lemma create_order_provider_settles_without_order_witness :
  snd (create_order Sample.silent Sample.now Sample.order) = Normal order_failed
  /\ provider_calls (fst (create_order Sample.silent Sample.now Sample.order))
     = [OrdersCreate (VObj [("amount", num 50000);
                            ("currency", or_INR (VStr "INR"));
                            ("receipt", VStr (receipt_for Sample.now "u1234567890"));
                            ("notes", VObj [("planId", VStr "p1");
                                            ("userId", VStr "u1234567890")])])].
Proof.
  apply (create_order_provider_settles_without_order
           Sample.silent Sample.now Sample.order
           (VStr "p1") (num 50000) (VStr "INR") VUndefined "u1234567890");
    try reflexivity.
  unfold passes_validation.
  repeat match goal with |- _ /\ _ => split end; vm_compute; reflexivity.
Defined.

(** The first scenario has all there is to a success. *)
Lemma create_order_success_iff_order_witness :
  snd (create_order Sample.accepting Sample.now Sample.order)
  = Normal {| status := 200;
              json := VObj [("success", VBool true); ("orderId", VStr "order_1");
                            ("amount", num 50000); ("currency", VStr "INR")] |}
  /\ status {| status := 200;
               json := VObj [("success", VBool true); ("orderId", VStr "order_1");
                             ("amount", num 50000); ("currency", VStr "INR")] |} = 200.
Proof.
  apply (proj2 (create_order_success_iff_order Sample.accepting Sample.now Sample.order _)).
  exists (VStr "p1"), (VStr "u1234567890"), (num 50000), (VStr "INR"), (VStr "34567890"),
    (VObj [("id", VStr "order_1"); ("amount", num 50000); ("currency", VStr "INR")]),
    (VStr "order_1"), (num 50000), (VStr "INR"), "34567890".
  repeat match goal with |- _ /\ _ => split end; try reflexivity.
  unfold passes_validation.
  repeat match goal with |- _ /\ _ => split end; vm_compute; reflexivity.
Defined.

(** A provider that cannot be reached rejects with an error the [catch]
    block can read: every order is answered. *)
Lemma create_order_always_answers_witness :
  replies (fun r => In (status r) [200; 400; 500])
          (create_order Sample.unreachable Sample.now Sample.order).
Proof.
  apply (create_order_always_answers Sample.unreachable Sample.now Sample.order).
  intros options reason H. injection H as <-.
  split; [reflexivity |].
  intros inner description Hi Hd. simpl in Hi. injection Hi as <-. discriminate Hd.
Defined.

(** The payment without a signature misses verification data. *)
Lemma verify_payment_missing_data_witness :
  verify_payment Sample.cfg Sample.unsigned_payment = ([], Normal missing_payment_data).
Proof.
  apply (proj1 (verify_payment_missing_data Sample.cfg Sample.unsigned_payment
                  (VStr "pay_1") (VStr "order_1") VUndefined eq_refl eq_refl eq_refl)).
  reflexivity.
Defined.

(** The signed payment has all there is to a success. *)
Lemma verify_payment_success_iff_signed_witness :
  snd (verify_payment Sample.cfg Sample.signed_payment)
  = Normal {| status := 200;
              json := VObj [("success", VBool true);
                            ("message", VStr "Payment verified successfully");
                            ("paymentId", VStr "pay_1");
                            ("orderId", VStr "order_1")] |}
  /\ status {| status := 200;
               json := VObj [("success", VBool true);
                             ("message", VStr "Payment verified successfully");
                             ("paymentId", VStr "pay_1");
                             ("orderId", VStr "order_1")] |} = 200.
Proof.
  apply (proj2 (verify_payment_success_iff_signed Sample.cfg Sample.signed_payment _)).
  exists "s3cret", "order_1|pay_1", (VStr "pay_1"), (VStr "order_1"),
    (VStr "order_1|"), (VStr "order_1|pay_1").
  repeat match goal with |- _ /\ _ => split end; reflexivity.
Defined.

(** The signed payment is verified the same under another plan and user. *)
Lemma verify_payment_ignores_plan_and_user_witness :
  snd (verify_payment Sample.cfg Sample.signed_payment)
  = snd (verify_payment Sample.cfg Sample.annotated_payment).
Proof.
  apply (verify_payment_ignores_plan_and_user Sample.cfg
           Sample.signed_payment Sample.annotated_payment
           (VStr "pay_1") (VStr "order_1")
           (VStr "44422d618d76e6e81c5f002f4d5108385750b52eb8db4e9c7a4231ddfac02840"));
    reflexivity.
Defined.

(** The right digest in upper case is refused. *)
Lemma verify_payment_signature_format_witness :
  verify_payment Sample.cfg Sample.shouted_payment
  = ([], Normal invalid_payment_signature).
Proof.
  apply (verify_payment_signature_format Sample.cfg Sample.shouted_payment
           "s3cret" "order_1" "pay_1"
           (VStr "44422D618D76E6E81C5F002F4D5108385750B52EB8DB4E9C7A4231DDFAC02840"));
    try reflexivity; try discriminate.
  intros s E. injection E as <-. intros [_ H]. vm_compute in H. discriminate H.
Defined.

(** Without a key secret the signed payment is answered 500. *)
Lemma verify_payment_without_key_secret_witness :
  replies (fun r => r = missing_payment_data \/ r = verification_failed)
          (verify_payment (config Sample.bare) Sample.signed_payment).
Proof.
  apply (verify_payment_without_key_secret Sample.bare Sample.signed_payment).
  reflexivity.
Defined.

(** Without a webhook secret a rightly signed event is answered 500. *)
Lemma webhook_without_secret_witness :
  exists error,
    webhook (config Sample.bare) Sample.order_paid
    = ([ConsoleError [VStr "Webhook error:"; error]], Normal webhook_failed).
Proof.
  apply (webhook_without_secret Sample.bare Sample.order_paid). reflexivity.
Defined.

(** The captured payment without a signature header is refused. *)
Lemma webhook_signature_format_witness :
  webhook Sample.cfg Sample.unsigned_event = ([], Normal invalid_webhook_signature).
Proof.
  apply (webhook_signature_format Sample.cfg Sample.unsigned_event "whsec").
  - reflexivity.
  - discriminate.
  - intros s E. discriminate E.
Defined.


(** The event of an unknown type has all there is to being received. *)
Lemma webhook_received_iff_signed_witness :
  snd (webhook Sample.cfg Sample.order_paid)
  = Normal {| status := 200; json := VObj [("received", VBool true)] |}
  /\ status {| status := 200; json := VObj [("received", VBool true)] |} = 200.
Proof.
  apply (proj2 (webhook_received_iff_signed Sample.cfg Sample.order_paid _)).
  exists "whsec".
  exists (Sample.quoted "{'event':'order.paid','payload':{'order':{'entity':{'id':'order_1'}}}}").
  exists [ConsoleLog [VStr "Unhandled event:"; VStr "order.paid"]].
  repeat match goal with |- _ /\ _ => split end; vm_compute; reflexivity.
Defined.

(** The captured payment, rightly signed, is logged and received. *)
Lemma webhook_known_event_logs_witness :
  exists entity,
    Js.get (VObj [("entity", VObj [("id", VStr "pay_1")])]) "entity" = Normal entity
    /\ webhook Sample.cfg (Sample.event Sample.compact_signature Sample.captured)
       = ([ConsoleLog [VStr "Payment captured:"; entity]],
          Normal {| status := 200; json := VObj [("received", VBool true)] |}).
Proof.
  apply (webhook_known_event_logs Sample.cfg
           (Sample.event Sample.compact_signature Sample.captured)
           "whsec" Sample.compact_signature "payment.captured" "payment" "Payment captured:"
           (VObj [("payment", VObj [("entity", VObj [("id", VStr "pay_1")])])])
           (VObj [("entity", VObj [("id", VStr "pay_1")])]));
    reflexivity.
Defined.


(** A rejected fetch is answered with the one message of the endpoint. *)
Lemma payment_status_outcome_witness :
  payment_status Sample.rejecting Sample.status_request
  = ([PaymentsFetch (VStr "pay_1");
      ConsoleError
        [VStr "Error fetching payment status:";
         VObj [("statusCode", num 400);
               ("error", VObj [("code", VStr "BAD_REQUEST_ERROR");
                               ("description", VStr "The id provided does not exist")])]]],
     Normal status_failed).
Proof.
  apply (proj1 (proj2 (payment_status_outcome Sample.rejecting Sample.status_request))).
  reflexivity.
Defined.

(** The time stamp at the sample clock. *)
Lemma health_timestamp_witness :
  exists year month day hours minutes seconds millis : string,
    health Sample.now Sample.status_request
    = ([], Normal {| status := 200;
                     json := VObj [("status", VStr "OK");
                                   ("timestamp",
                                    VStr (year ++ "-" ++ month ++ "-" ++ day ++ "T"
                                          ++ hours ++ ":" ++ minutes ++ ":" ++ seconds
                                          ++ "." ++ millis ++ "Z"))] |})
    /\ String.length year = 4%nat /\ String.length month = 2%nat
    /\ String.length day = 2%nat /\ String.length hours = 2%nat
    /\ String.length minutes = 2%nat /\ String.length seconds = 2%nat
    /\ String.length millis = 3%nat.
Proof.
  apply (health_timestamp Sample.now Sample.status_request).
  unfold Sample.now. lia.
Defined.
